(** * Mock_JSON: structural schema inference

    A shallow embedding of the schema pipeline of the repository:
    - [schema_analyzer.py]   (class [SchemaAnalyzer]),
    - [mock_data_generator.py] (class [MockDataGenerator], structural methods),
    - [cache/schema_cache.py]  (class [SchemaCache]).

    Python values that the pipeline reads are JSON documents ([json]); the
    schema nodes it builds are Python dicts with the keys ["type"],
    ["properties"], ["items"], ["preserve_original"], ["original_values"]
    ([node], every key optional, as in a dict). *)

From Stdlib Require Import ZArith QArith.
From stdpp Require Import gmap strings list.

Close Scope Q_scope.
Local Open Scope string_scope.
Local Open Scope Z_scope.
Local Open Scope list_scope.

(** ** Python dicts with string keys

    A dict keeps its keys in insertion order and holds each key once.
    [d[k] = v] replaces the value of an existing key in place and appends a
    new key at the end. *)

Abbreviation dict A := (list (string * A)).

Fixpoint dict_get {A} (k : string) (d : dict A) : option A :=
  match d with
  | [] => None
  | (k', v) :: d' => if String.eqb k k' then Some v else dict_get k d'
  end.

Fixpoint dict_set {A} (k : string) (v : A) (d : dict A) : dict A :=
  match d with
  | [] => [(k, v)]
  | (k', v') :: d' =>
      if String.eqb k k' then (k', v) :: d' else (k', v') :: dict_set k v d'
  end.

Definition dict_keys {A} (d : dict A) : list string := map fst d.

(** ** JSON documents (the result of [json.load]) *)

Unset Elimination Schemes.

Inductive json : Type :=
| JNull
| JBool (b : bool)
| JInt (n : Z)
| JFloat (q : Q)      (* a finite float, by its exact value *)
| JStr (s : string)
| JList (l : list json)
| JDict (d : list (string * json)).

(** ** Schema nodes *)

Inductive node : Type :=
  Schema {
    s_type : option string;
    s_properties : option (list (string * node));
    s_items : option node;
    s_preserve_original : option bool;
    s_original_values : option (list json) }.

Set Elimination Schemes.

(** Induction over documents and over schema nodes, with the hypothesis on
    every element of a list and on every value of a dict. *)

Definition json_ind (P : json -> Prop)
    (HNull : P JNull) (HBool : forall b, P (JBool b)) (HInt : forall n, P (JInt n))
    (HFloat : forall q, P (JFloat q)) (HStr : forall s, P (JStr s))
    (HList : forall l, Forall P l -> P (JList l))
    (HDict : forall d, Forall (fun kv => P (snd kv)) d -> P (JDict d)) :
    forall j, P j :=
  fix go (j : json) : P j :=
    match j with
    | JNull => HNull
    | JBool b => HBool b
    | JInt n => HInt n
    | JFloat q => HFloat q
    | JStr s => HStr s
    | JList l =>
        HList l ((fix elems (l : list json) : Forall P l :=
                    match l with
                    | [] => List.Forall_nil _
                    | x :: l' => @List.Forall_cons _ P x l' (go x) (elems l')
                    end) l)
    | JDict d =>
        HDict d ((fix values (d : list (string * json)) : Forall (fun kv => P (snd kv)) d :=
                    match d with
                    | [] => List.Forall_nil _
                    | kv :: d' => @List.Forall_cons _ (fun kv => P (snd kv)) kv d' (go (snd kv)) (values d')
                    end) d)
    end.

Definition node_ind (P : node -> Prop)
    (HLeaf : forall t po ov, P (Schema t None None po ov))
    (HProps : forall t props po ov,
        Forall (fun kv => P (snd kv)) props -> P (Schema t (Some props) None po ov))
    (HItems : forall t items po ov, P items -> P (Schema t None (Some items) po ov))
    (HBoth : forall t props items po ov,
        Forall (fun kv => P (snd kv)) props -> P items ->
        P (Schema t (Some props) (Some items) po ov)) :
    forall s, P s :=
  fix go (s : node) : P s :=
    let values :=
      fix values (d : list (string * node)) : Forall (fun kv => P (snd kv)) d :=
        match d with
        | [] => List.Forall_nil _
        | kv :: d' => @List.Forall_cons _ (fun kv => P (snd kv)) kv d' (go (snd kv)) (values d')
        end in
    match s with
    | Schema t None None po ov => HLeaf t po ov
    | Schema t (Some props) None po ov => HProps t props po ov (values props)
    | Schema t None (Some items) po ov => HItems t items po ov (go items)
    | Schema t (Some props) (Some items) po ov =>
        HBoth t props items po ov (values props) (go items)
    end.

(** [{"type": t}] *)
Definition leaf (t : string) : node := Schema (Some t) None None None None.
(** [{"type": "object", "properties": props}] *)
Definition object (props : dict node) : node :=
  Schema (Some "object") (Some props) None None None.
(** [{"type": "array", "items": items}] *)
Definition array (items : node) : node :=
  Schema (Some "array") None (Some items) None None.

(** [schema.get("type") == t] *)
Definition type_is (t : string) (s : node) : bool :=
  match s_type s with Some t' => String.eqb t' t | None => false end.

(** [s1.get("type") != s2.get("type")] *)
Definition type_differs (s1 s2 : node) : bool :=
  match s_type s1, s_type s2 with
  | Some t1, Some t2 => negb (String.eqb t1 t2)
  | None, None => false
  | _, _ => true
  end.

(** [schema.get("properties", {})] *)
Definition get_properties (s : node) : dict node :=
  default [] (s_properties s).

(** [schema.get("items", dflt)] *)
Definition get_items (dflt : node) (s : node) : node :=
  default dflt (s_items s).

(** ** Outcomes of a call that may raise *)

Inductive outcome (A : Type) : Type :=
| Returns (a : A)
| Raises (e : string).   (* the exception class *)
Arguments Returns {A} a.
Arguments Raises {A} e.

Definition obind {A B} (m : outcome A) (f : A -> outcome B) : outcome B :=
  match m with Returns a => f a | Raises e => Raises e end.

Notation "'do' x <- m ; k" := (obind m (fun x => k))
  (at level 10, x name, m at level 100, k at level 200).

(** A [for] loop that updates [a] and stops at the first exception. *)
Fixpoint ofold {A B} (f : A -> B -> outcome A) (l : list B) (a : A) : outcome A :=
  match l with
  | [] => Returns a
  | x :: l' => do a' <- f a x; ofold f l' a'
  end.

(** A loop that appends [f x] for every [x], stopping at the first exception. *)
Fixpoint omap {A B} (f : A -> outcome B) (l : list A) : outcome (list B) :=
  match l with
  | [] => Returns []
  | x :: l' => do y <- f x; do ys <- omap f l'; Returns (y :: ys)
  end.

(** ** Python equality [==] on documents

    [True == 1] and [1 == 1.0] hold: booleans, integers and floats compare
    by numeric value. Lists compare element by element, dicts key by key. *)

Definition num_value (v : json) : option Q :=
  match v with
  | JBool b => Some (inject_Z (if b then 1 else 0))
  | JInt n => Some (inject_Z n)
  | JFloat q => Some q
  | _ => None
  end.

Fixpoint py_eq (a b : json) {struct a} : bool :=
  match a, b with
  | JNull, JNull => true
  | JStr s, JStr t => String.eqb s t
  | JList l1, JList l2 =>
      (fix elems (l1 l2 : list json) : bool :=
         match l1, l2 with
         | [], [] => true
         | x :: l1', y :: l2' => py_eq x y && elems l1' l2'
         | _, _ => false
         end) l1 l2
  | JDict d1, JDict d2 =>
      Nat.eqb (length d1) (length d2)
      && forallb (fun '(k, v) =>
                    match dict_get k d2 with
                    | Some w => py_eq v w
                    | None => false
                    end) d1
  | _, _ =>
      match num_value a, num_value b with
      | Some x, Some y => Qeq_bool x y
      | _, _ => false
      end
  end.

(** [value in values] *)
Definition py_in (value : json) (values : list json) : bool :=
  existsb (fun x => py_eq x value) values.

(** Truth value of a list: [if l:] *)
Definition truthy {A} (l : list A) : bool :=
  match l with [] => false | _ :: _ => true end.

(** Truth value of a document: [None], [False], zero, the empty string, the
    empty list and the empty dict are false. *)
Definition py_truthy (v : json) : bool :=
  match v with
  | JNull => false
  | JBool b => b
  | JInt n => negb (n =? 0)
  | JFloat q => negb (Qeq_bool q (inject_Z 0))
  | JStr s => negb (String.eqb s "")
  | JList l => truthy l
  | JDict d => truthy d
  end.

(** The test that opens [generate_mock_value]: the node is marked
    [preserve_original] and holds at least one original value. *)
Definition has_originals (schema : node) : bool :=
  default false (s_preserve_original schema)
  && truthy (default [] (s_original_values schema)).

(** ** Preserved fields (shared by both classes)

    [_extract_original_values], [_extract_nested_value] and
    [_add_preserved_field_info] have the same text in [schema_analyzer.py] and
    in [mock_data_generator.py], up to the membership test of the field name,
    which is the parameter [preserve] here.

    [_add_preserved_field_info] returns nothing and writes the keys
    ["preserve_original"] and ["original_values"] into the dicts of the
    schema. A schema is a tree here: the analyzer builds every dict afresh and
    the merger places every dict of its operands at most once in its result,
    so no dict is reached along two paths, and the writes are modelled by the
    function from the node to the node after the call. *)

Definition _extract_original_values (field_name : string) (examples : list json) : list json :=
  fold_left (fun values example =>
               match example with
               | JDict d =>
                   match dict_get field_name d with
                   | Some value => if negb (py_in value values) then values ++ [value] else values
                   | None => values
                   end
               | _ => values
               end) examples [].

(** [None] is [JNull]. *)
Definition _extract_nested_value (obj : json) (field_name : string) : json :=
  match obj with
  | JDict d => default JNull (dict_get field_name d)
  | _ => JNull
  end.

Definition is_not_None (v : json) : bool :=
  match v with JNull => false | _ => true end.

(** [[ex for ex in [_extract_nested_value(e, f) for e in examples] if ex is not None]] *)
Definition nested_examples (field_name : string) (examples : list json) : list json :=
  List.filter is_not_None
         (map (fun example => _extract_nested_value example field_name) examples).

(** The list built by [array_examples.extend(array_value)] over the examples. *)
Definition array_examples (field_name : string) (examples : list json) : list json :=
  fold_left (fun acc example =>
               match _extract_nested_value example field_name with
               | JList array_value => acc ++ array_value
               | _ => acc
               end) examples [].

(** Writes to the keys of a node. *)
Definition set_preserve_original (b : bool) (s : node) : node :=
  Schema (s_type s) (s_properties s) (s_items s) (Some b) (s_original_values s).
Definition set_original_values (vs : list json) (s : node) : node :=
  Schema (s_type s) (s_properties s) (s_items s) (s_preserve_original s) (Some vs).
Definition set_items (i : node) (s : node) : node :=
  Schema (s_type s) (s_properties s) (Some i) (s_preserve_original s) (s_original_values s).
Definition set_properties (p : dict node) (s : node) : node :=
  Schema (s_type s) (Some p) (s_items s) (s_preserve_original s) (s_original_values s).

(** A call [f(structure.get("items", {}))] where [f] mutates its argument:
    the items node is replaced by what [f] makes of it; the default [{}] is
    a fresh dict that nothing else refers to. *)
Definition update_items (f : node -> node) (s : node) : node :=
  match s_items s with Some i => set_items (f i) s | None => s end.

(** The loop [for field_name, field_structure in properties.items()], where
    [f] mutates [field_structure]; without the key ["properties"] the loop
    runs over a fresh [{}]. *)
Definition update_properties (f : string -> node -> node) (s : node) : node :=
  match s_properties s with
  | Some p => set_properties (map (fun '(field_name, field_structure) =>
                                     (field_name, f field_name field_structure)) p) s
  | None => s
  end.

Section Preservation.

Variable preserve : string -> bool.

(** The first [if] of the loop body: mark the field and store its values. *)
Definition mark_preserved (field_name : string) (examples : list json)
    (field_structure : node) : node :=
  if preserve field_name then
    let field_structure := set_preserve_original true field_structure in
    let original_values := _extract_original_values field_name examples in
    if truthy original_values then set_original_values original_values field_structure
    else field_structure
  else field_structure.

(** The body of the loop over the properties of an object node. *)
Definition annotate_field (self : node -> list json -> node) (examples : list json)
    (field_name : string) (field_structure : node) : node :=
  let field_structure := mark_preserved field_name examples field_structure in
  (* Recursively process nested objects *)
  if type_is "object" field_structure then
    let nested_examples := nested_examples field_name examples in
    if truthy nested_examples then self field_structure nested_examples
    else field_structure
  (* Recursively process arrays *)
  else if type_is "array" field_structure then
    let array_examples := array_examples field_name examples in
    if truthy array_examples then
      update_items (fun items_structure => self items_structure array_examples)
                   field_structure
    else field_structure
  else field_structure.

(** The body of [_add_preserved_field_info], with the recursive call [self]
    (which returns the node it has mutated). *)
Definition annotate_body (self : node -> list json -> node)
    (structure : node) (examples : list json) : node :=
  if type_is "object" structure then
    update_properties (annotate_field self examples) structure
  else if type_is "array" structure then
    (* Handle direct array structures (like the response array) *)
    if truthy examples then
      update_items (fun items_structure => self items_structure examples) structure
    else structure
  else structure.

(** [_add_preserved_field_info] by structural recursion on the node. The
    recursive call on a field is made on the field as it is in the tree, and
    the marks are written on the result: the call only writes below the node
    and the marks only on it ([_add_preserved_field_info_eq] shows that the
    function satisfies the equation of the source body). *)
Fixpoint _add_preserved_field_info (structure : node) (examples : list json)
    {struct structure} : node :=
  match structure with
  | Schema t props items po ov =>
      if type_is "object" structure then
        match props with
        | Some properties =>
            Schema t
              (Some (map (fun '(field_name, field_structure) =>
                 (field_name,
                  mark_preserved field_name examples
                    match field_structure with
                    | Schema ct cprops citems cpo cov =>
                        if type_is "object" field_structure then
                          let nested_examples := nested_examples field_name examples in
                          if truthy nested_examples
                          then _add_preserved_field_info field_structure nested_examples
                          else field_structure
                        else if type_is "array" field_structure then
                          let array_examples := array_examples field_name examples in
                          if truthy array_examples then
                            match citems with
                            | Some items_structure =>
                                Schema ct cprops
                                  (Some (_add_preserved_field_info items_structure array_examples))
                                  cpo cov
                            | None => field_structure
                            end
                          else field_structure
                        else field_structure
                    end)) properties))
              items po ov
        | None => structure
        end
      else if type_is "array" structure then
        if truthy examples then
          match items with
          | Some items_structure =>
              Schema t props (Some (_add_preserved_field_info items_structure examples)) po ov
          | None => structure
          end
        else structure
      else structure
  end.

End Preservation.

(** The annotation keys of a node, written together. *)
Definition set_annotation (po : option bool) (ov : option (list json)) (s : node) : node :=
  Schema (s_type s) (s_properties s) (s_items s) po ov.


(** * class MockDataGenerator (mock_data_generator.py) *)

Module MockDataGenerator.

(** The body of [_merge_structures], with the recursive call [self]. *)
Definition merge_body (self : node -> node -> node)
    (structure1 structure2 : node) : node :=
  if type_differs structure1 structure2 then
    (* If types don't match, prefer the more specific one *)
    if negb (type_is "string" structure1) then structure1 else structure2
  else if type_is "object" structure1 then
    let merged_props :=
      fold_left (fun merged_props '(key, value) =>
                   match dict_get key merged_props with
                   | Some m => dict_set key (self m value) merged_props
                   | None => dict_set key value merged_props
                   end)
                (get_properties structure2) (get_properties structure1) in
    object merged_props
  else if type_is "array" structure1 then
    let items1 := get_items (leaf "string") structure1 in
    let items2 := get_items (leaf "string") structure2 in
    array (self items1 items2)
  else structure1.

(** [_merge_structures] by structural recursion on [structure2]: every
    recursive call of the body is on a property value or on the items of
    [structure2], except for the default [{"type": "string"}] of a missing
    ["items"], where the call is unfolded ([_merge_structures_eq] below shows
    that this function satisfies the equation of the source body). *)
Fixpoint _merge_structures (structure1 structure2 : node) {struct structure2} : node :=
  if type_differs structure1 structure2 then
    if negb (type_is "string" structure1) then structure1 else structure2
  else if type_is "object" structure1 then
    let merged_props := get_properties structure1 in
    match structure2 with
    | Schema _ (Some props2) _ _ _ =>
        object
          ((fix loop (props2 : dict node) (merged_props : dict node) :=
              match props2 with
              | [] => merged_props
              | (key, value) :: rest =>
                  loop rest
                    match dict_get key merged_props with
                    | Some m => dict_set key (_merge_structures m value) merged_props
                    | None => dict_set key value merged_props
                    end
              end) props2 merged_props)
    | _ => object merged_props
    end
  else if type_is "array" structure1 then
    let items1 := get_items (leaf "string") structure1 in
    match structure2 with
    | Schema _ _ (Some items2) _ _ => array (_merge_structures items1 items2)
    | _ => array items1   (* the merge of [items1] with [{"type": "string"}] *)
    end
  else structure1.

(** [_analyze_structure(obj, max_depth)]; the default of [max_depth] is 10. *)
Fixpoint _analyze_structure (obj : json) (max_depth : Z) {struct obj} : node :=
  if max_depth <=? 0 then leaf "string"
  else
    match obj with
    | JDict d =>
        object (fold_left (fun properties '(key, value) =>
                             dict_set key (_analyze_structure value (max_depth - 1)) properties)
                          d [])
    | JList l =>
        match l with
        | _ :: _ =>
            let item_structures :=
              map (fun item => _analyze_structure item (max_depth - 1)) l in
            match item_structures with
            | first :: others => array (fold_left _merge_structures others first)
            | [] => array (leaf "string")
            end
        | [] => array (object [])
        end
    | JBool _ => leaf "boolean"
    | JInt _ | JFloat _ => leaf "number"
    | JStr _ => leaf "string"
    | JNull => leaf "string"
    end.

(** [_add_preserved_field_info], with the attribute [self.preserve_fields]. *)
Definition _add_preserved_field_info (preserve_fields : list string)
    (structure : node) (examples : list json) : node :=
  _add_preserved_field_info (fun field_name => existsb (String.eqb field_name) preserve_fields)
                            structure examples.

(** ** The schema of an entity *)

(** The first loop of [_analyze_entity_structure]: the responses of the
    examples that have one with a true truth value. [example.get] raises
    [AttributeError] on an example that is not a mapping. *)
Definition collect_responses (examples : list json) : outcome (list json) :=
  ofold (fun all_responses example =>
           match example with
           | JDict d =>
               let response := default (JDict []) (dict_get "response" d) in
               Returns (if py_truthy response then all_responses ++ [response]
                        else all_responses)
           | _ => Raises "AttributeError"
           end) examples [].

(** The items of all the responses that are lists. *)
Definition flatten_responses (all_responses : list json) : list json :=
  fold_left (fun all_items resp =>
               match resp with
               | JList l => all_items ++ l
               | _ => all_items
               end) all_responses [].

(** The analysis of the first response, merged in turn with the analyses of
    the other responses. *)
Definition unify (first : json) (others : list json) : node :=
  fold_left (fun base_structure response =>
               _merge_structures base_structure (_analyze_structure response 10))
            others (_analyze_structure first 10).

(** [_analyze_entity_structure(examples)], with the attribute
    [self.preserve_fields]. *)
Definition _analyze_entity_structure (preserve_fields : list string)
    (examples : list json) : outcome node :=
  do all_responses <- collect_responses examples;
  match all_responses with
  | [] => Returns (object [])
  | first :: others =>
      let base_structure := unify first others in
      (* If the top-level structure is an array, pass all array items to the
         preserve logic *)
      if type_is "array" base_structure then
        let all_items := flatten_responses all_responses in
        Returns (update_items
                   (fun items_structure =>
                      _add_preserved_field_info preserve_fields items_structure all_items)
                   base_structure)
      else
        Returns (_add_preserved_field_info preserve_fields base_structure all_responses)
  end.

(** ** Example files

    What [open] and [json.load] give for each file of [self.example_files],
    in their order, is a parameter of the two methods that read them: the
    document of the file, or the exception that the [try] catches. *)

(** The loop that loads every example file and skips, with a warning, the
    files that cannot be read. *)
Definition load_examples (example_files : list (outcome json)) : list json :=
  fold_left (fun all_examples example_file =>
               match example_file with
               | Returns example_data => all_examples ++ [example_data]
               | Raises _ => all_examples
               end) example_files [].

(** [isinstance(item, dict) and item.get('id') == insurance_type] *)
Definition has_insurance_type (insurance_type : string) (item : json) : bool :=
  match item with
  | JDict d => py_eq (default JNull (dict_get "id" d)) (JStr insurance_type)
  | _ => false
  end.

(** The body of the [try] of the filtering loop. [example_data.get] raises
    [AttributeError] on a document that is not a mapping. *)
Definition filter_example (insurance_type : string) (filtered_examples : list json)
    (example_file : outcome json) : outcome (list json) :=
  do example_data <- example_file;
  match example_data with
  | JDict d =>
      match default (JDict []) (dict_get "response" d) with
      | JList response =>
          if truthy response then
            let filtered_response :=
              List.filter (has_insurance_type insurance_type) response in
            if truthy filtered_response then
              (* a copy of the example with the filtered response *)
              Returns (filtered_examples
                       ++ [JDict (dict_set "response" (JList filtered_response) d)])
            else Returns filtered_examples
          else Returns filtered_examples
      | _ => Returns filtered_examples
      end
  | _ => Raises "AttributeError"
  end.

(** [filter_examples_by_insurance_type(insurance_type)] *)
Definition filter_examples_by_insurance_type (example_files : list (outcome json))
    (insurance_type : string) : list json :=
  if String.eqb insurance_type "all" then load_examples example_files
  else
    fold_left (fun filtered_examples example_file =>
                 match filter_example insurance_type filtered_examples example_file with
                 | Returns filtered_examples' => filtered_examples'
                 | Raises _ => filtered_examples   (* except Exception: a warning *)
                 end) example_files [].

(** Lists and dicts cannot be keys of a dict: [hash] raises [TypeError]. *)
Definition hashable (v : json) : bool :=
  match v with
  | JList _ | JDict _ => false
  | _ => true
  end.

(** A dict whose keys are documents: a key is found by [==]. *)
Fixpoint jdict_get {A} (k : json) (d : list (json * A)) : option A :=
  match d with
  | [] => None
  | (k', v) :: d' => if py_eq k' k then Some v else jdict_get k d'
  end.

Fixpoint jdict_set {A} (k : json) (v : A) (d : list (json * A)) : list (json * A) :=
  match d with
  | [] => [(k, v)]
  | (k', v') :: d' =>
      if py_eq k' k then (k', v) :: d' else (k', v') :: jdict_set k v d'
  end.

(** [example_data.get('entity', 'UnknownEntity')] *)
Definition entity_of (d : dict json) : json :=
  default (JStr "UnknownEntity") (dict_get "entity" d).

(** The body of the grouping loop of [extract_schemas_from_examples]. *)
Definition group_example (entity_files : list (json * list json)) (example_data : json)
    : outcome (list (json * list json)) :=
  match example_data with
  | JDict d =>
      let entity_name := entity_of d in
      if hashable entity_name then
        let entity_files :=
          match jdict_get entity_name entity_files with
          | None => jdict_set entity_name [] entity_files
          | Some _ => entity_files
          end in
        match jdict_get entity_name entity_files with
        | Some examples =>
            Returns (jdict_set entity_name (examples ++ [example_data]) entity_files)
        | None => Raises "KeyError"
        end
      else Raises "TypeError"
  | _ => Raises "AttributeError"
  end.

(** [extract_schemas_from_examples(filtered_examples)], with the attribute
    [self.preserve_fields]; [None] for the argument loads every example
    file. *)
Definition extract_schemas_from_examples (preserve_fields : list string)
    (example_files : list (outcome json)) (filtered_examples : option (list json))
    : outcome (list (json * node)) :=
  let examples_to_process :=
    match filtered_examples with
    | Some filtered_examples => filtered_examples
    | None => load_examples example_files
    end in
  (* Group examples by entity to analyze multiple examples per entity *)
  do entity_files <- ofold group_example examples_to_process [];
  (* Analyze each entity's structure using all available examples *)
  ofold (fun schema_structures '(entity_name, examples) =>
           do structure <- _analyze_entity_structure preserve_fields examples;
           Returns (jdict_set entity_name structure schema_structures))
        entity_files [].

(** ** Value synthesis

    The methods below draw from the module [random] and from [Faker]. The
    random source is a state [rng]; what is drawn from it is a parameter. The
    two scalar producers [_generate_mock_string] and [_generate_mock_number]
    (a cascade of substring tests on the field name, each returning a value
    from [Faker] or [random]) and [str.lower] are parameters as well. *)

Section Synthesis.

Variable rng : Type.
(** [random._randbelow(n)], the index that [random.choice] draws *)
Variable random_below : nat -> rng -> nat * rng.
(** [random.randint(a, b)] *)
Variable randint : Z -> Z -> rng -> Z * rng.
(** [round(random.uniform(1000, 1000000), 2)] *)
Variable random_amount : rng -> Q * rng.
Variable _generate_mock_string : string -> rng -> json * rng.
Variable _generate_mock_number : string -> rng -> json * rng.
Variable lower : string -> string.

(** A call that reads the random source and may raise. *)
Definition gen (A : Type) : Type := rng -> outcome A * rng.

Definition gret {A} (a : A) : gen A := fun r => (Returns a, r).
Definition graise {A} (e : string) : gen A := fun r => (Raises e, r).
Definition gbind {A B} (m : gen A) (f : A -> gen B) : gen B :=
  fun r => match m r with
           | (Returns a, r') => f a r'
           | (Raises e, r') => (Raises e, r')
           end.
Definition glift {A} (f : rng -> A * rng) : gen A :=
  fun r => let '(a, r') := f r in (Returns a, r').

Notation "'do' x <~ m ; k" := (gbind m (fun x => k))
  (at level 10, x name, m at level 100, k at level 200).

(** [random.choice(seq)]: [IndexError] on an empty sequence. *)
Definition random_choice {A} (seq : list A) : gen A :=
  match seq with
  | [] => graise "IndexError"
  | _ :: _ =>
      do i <~ glift (random_below (length seq));
      match nth_error seq i with
      | Some x => gret x
      | None => graise "IndexError"
      end
  end.

(** [[f() for _ in range(n)]] *)
Fixpoint gtimes {A} (n : nat) (m : gen A) : gen (list A) :=
  match n with
  | O => gret []
  | S n' => do x <~ m; do xs <~ gtimes n' m; gret (x :: xs)
  end.

(** A [for] loop over a list that updates [a]. *)
Fixpoint gfold {A B} (f : A -> B -> gen A) (l : list B) (a : A) : gen A :=
  match l with
  | [] => gret a
  | x :: l' => do a' <~ f a x; gfold f l' a'
  end.

Definition saving_fields : list string :=
  [ "sumsaving"; "summonthchange"; "accumulatechange"; "totalsaving"; "fluentwithdraw";
    "expectedforretirement"; "savingexpectedforretirement"; "savingsum"; "fluentsum" ].

(** [s in l] for a list of strings *)
Definition str_in (s : string) (l : list string) : bool := existsb (String.eqb s) l.

(** The [if] that opens [generate_mock_value] and the loop body of
    [_generate_mock_object]: a preserved field with stored values draws one
    of them, anything else goes on with [otherwise]. *)
Definition preserved_or (schema : node) (otherwise : gen json) : gen json :=
  if default false (s_preserve_original schema) then
    let original_values := default [] (s_original_values schema) in
    if truthy original_values then random_choice original_values
    else otherwise
  else otherwise.

Definition _generate_mock_array (self : node -> string -> gen json)
    (schema : node) (field_name : string) : gen json :=
  let items_schema := get_items (leaf "string") schema in
  do array_length <~ glift (randint 1 5);
  do items <~ gtimes (Z.to_nat array_length) (self items_schema field_name);
  gret (JList items).

(** The value of one property in [_generate_mock_object]. *)
Definition mock_property (self : node -> string -> gen json)
    (field_name prop_name : string) (prop_schema : node) : gen json :=
  preserved_or prop_schema
    (* Handle special cases for common object patterns *)
    (if String.eqb prop_name "value" && str_in (lower field_name) saving_fields then
       do x <~ glift random_amount; gret (JFloat x)
     else if String.eqb prop_name "currency" && str_in (lower field_name) saving_fields then
       random_choice [JStr "â‚ª"; JStr "$"; JStr "â‚¬"; JStr "Â£"]
     else if String.eqb prop_name "sign" && str_in (lower field_name) ["monthchange"] then
       gret (JStr "%")
     else if String.eqb prop_name "status" && str_in (lower field_name) ["status"] then
       do n <~ glift (randint 0 3); gret (JInt n)
     else if String.eqb prop_name "statusDesc" && str_in (lower field_name) ["status"] then
       random_choice [JStr "Active"; JStr "Inactive"; JStr "Pending"; JStr "Expired"]
     else self prop_schema prop_name).

Definition _generate_mock_object (self : node -> string -> gen json)
    (schema : node) (field_name : string) : gen json :=
  let properties := get_properties schema in
  do mock_object <~
    gfold (fun mock_object '(prop_name, prop_schema) =>
             do v <~ mock_property self field_name prop_name prop_schema;
             gret (dict_set prop_name v mock_object))
          properties [];
  gret (JDict mock_object).

(** The body of [generate_mock_value], with the recursive call [self]. *)
Definition generate_body (self : node -> string -> gen json)
    (schema : node) (field_name : string) : gen json :=
  (* Check if this field should preserve original values *)
  preserved_or schema
    (let schema_type := default "string" (s_type schema) in
     (* Handle different data types *)
     if String.eqb schema_type "string" then glift (_generate_mock_string field_name)
     else if String.eqb schema_type "number" then glift (_generate_mock_number field_name)
     else if String.eqb schema_type "boolean" then random_choice [JBool true; JBool false]
     else if String.eqb schema_type "array" then _generate_mock_array self schema field_name
     else if String.eqb schema_type "object" then _generate_mock_object self schema field_name
     else glift (_generate_mock_string field_name)).

(** [generate_mock_value] by structural recursion on the schema: the calls of
    the body are on the property schemas and on the items schema, except for
    the default [{"type": "string"}] of a missing ["items"], where the call
    is unfolded ([generate_mock_value_eq] shows that the function satisfies
    the equation of the source body). *)
Fixpoint generate_mock_value (schema : node) (field_name : string) {struct schema} : gen json :=
  preserved_or schema
    (let schema_type := default "string" (s_type schema) in
     if String.eqb schema_type "string" then glift (_generate_mock_string field_name)
     else if String.eqb schema_type "number" then glift (_generate_mock_number field_name)
     else if String.eqb schema_type "boolean" then random_choice [JBool true; JBool false]
     else if String.eqb schema_type "array" then
       do array_length <~ glift (randint 1 5);
       do items <~
         gtimes (Z.to_nat array_length)
           match schema with
           | Schema _ _ (Some items_schema) _ _ => generate_mock_value items_schema field_name
           | _ => glift (_generate_mock_string field_name)
           end;
       gret (JList items)
     else if String.eqb schema_type "object" then
       match schema with
       | Schema _ (Some properties) _ _ _ =>
           do mock_object <~
             (fix loop (properties : dict node) (mock_object : dict json) : gen (dict json) :=
                match properties with
                | [] => gret mock_object
                | (prop_name, prop_schema) :: rest =>
                    do mock_object <~
                      (do v <~ mock_property generate_mock_value field_name prop_name prop_schema;
                       gret (dict_set prop_name v mock_object));
                    loop rest mock_object
                end) properties [];
           gret (JDict mock_object)
       | _ => do mock_object <~ gret []; gret (JDict mock_object)
       end
     else glift (_generate_mock_string field_name)).

(** The call returns a value, whatever the state of the random source. *)
Definition returns {A} (m : gen A) : Prop :=
  forall r, exists a r', m r = (Returns a, r').

(** [self.faker.iso8601()] *)
Variable iso8601 : rng -> string * rng.

(** The two assignments [mock_record["_mock_id"] = i + 1] and
    [mock_record["_generated_at"] = ...] on a record that is a dict. *)
Definition add_metadata (i : Z) (generated_at : string) (mock_record : dict json)
    : dict json :=
  dict_set "_generated_at" (JStr generated_at)
           (dict_set "_mock_id" (JInt (i + 1)) mock_record).

(** The loop of [generate_mock_data_for_schema] from the index [i], for [n]
    more rounds, on a schema whose root draws no original value: the value
    that [generate_mock_value] returns is then built by the call, and the
    metadata are written into it. *)
Fixpoint fresh_records (schema_name : string) (schema_structure : node)
    (n : nat) (i : Z) : gen (list json) :=
  match n with
  | O => gret []
  | S n' =>
      do mock_record <~ generate_mock_value schema_structure schema_name;
      do mock_record <~
        match mock_record with
        | JDict d => do generated_at <~ glift iso8601; gret (JDict (add_metadata i generated_at d))
        | _ => gret mock_record
        end;
      do mock_records <~ fresh_records schema_name schema_structure n' (i + 1);
      gret (mock_record :: mock_records)
  end.

(** The same loop on a schema whose root draws an original value:
    [random.choice(original_values)] returns the object that the list
    [original_values] holds, so the metadata are written into the stored
    value, and [mock_records] holds that object once for every round that
    drew it. [values] is the state of the stored values (distinct objects)
    and [drawn] the positions drawn so far; the records are read when the
    loop is over. *)
Fixpoint shared_records (n : nat) (i : Z) (values : list json) (drawn : list nat)
    : gen (list json) :=
  match n with
  | O => gret (map (fun j => nth j values JNull) drawn)
  | S n' =>
      do j <~ glift (random_below (length values));
      match nth_error values j with
      | None => graise "IndexError"
      | Some (JDict d) =>
          do generated_at <~ glift iso8601;
          shared_records n' (i + 1)
            (<[j := JDict (add_metadata i generated_at d)]> values) (drawn ++ [j])
      | Some _ => shared_records n' (i + 1) values (drawn ++ [j])
      end
  end.

(** [generate_mock_data_for_schema(schema_name, schema_structure, num_records)] *)
Definition generate_mock_data_for_schema (schema_name : string) (schema_structure : node)
    (num_records : Z) : gen (list json) :=
  if has_originals schema_structure then
    shared_records (Z.to_nat num_records) 0
                   (default [] (s_original_values schema_structure)) []
  else fresh_records schema_name schema_structure (Z.to_nat num_records) 0.

End Synthesis.

End MockDataGenerator.

(** * The synthesizer on schemas as the interpreter has them

    A schema is a dict, and nothing in [generate_mock_value] and its helpers
    checks what the keys of the dict hold. In this module a schema is a
    document: a key holds a value of any type, [.get] and [.items] raise
    [AttributeError] on a value that is not a mapping, and [random.choice]
    raises on a value that is not a sequence. [limit] is the number of
    nested calls of [generate_mock_value] that the recursion limit of the
    interpreter leaves room for: the call at a depth beyond it raises
    [RecursionError]. *)

(** The schema node as the dict that the analyzer and the annotator build:
    the keys that the node has, each with its value. *)
Fixpoint to_document (s : node) : json :=
  match s with
  | Schema t props items po ov =>
      JDict
        (match t with Some t => [("type", JStr t)] | None => [] end
         ++ match props with
            | Some p =>
                [("properties", JDict (map (fun kv => (fst kv, to_document (snd kv))) p))]
            | None => []
            end
         ++ match items with Some i => [("items", to_document i)] | None => [] end
         ++ match po with Some b => [("preserve_original", JBool b)] | None => [] end
         ++ match ov with Some vs => [("original_values", JList vs)] | None => [] end)
  end.

Module Untyped.

Section Synthesis.

Variable rng : Type.
Variable random_below : nat -> rng -> nat * rng.
Variable randint : Z -> Z -> rng -> Z * rng.
Variable random_amount : rng -> Q * rng.
Variable _generate_mock_string : string -> rng -> json * rng.
Variable _generate_mock_number : string -> rng -> json * rng.
Variable lower : string -> string.
Variable iso8601 : rng -> string * rng.
(** [random.choice(s)] on a string that is not empty: one of its characters *)
Variable choice_of_str : string -> rng -> string * rng.

Local Abbreviation gen := (MockDataGenerator.gen rng).
Local Abbreviation gret := (MockDataGenerator.gret rng).
Local Abbreviation graise := (MockDataGenerator.graise rng).
Local Abbreviation gbind := (MockDataGenerator.gbind rng).
Local Abbreviation glift := (MockDataGenerator.glift rng).
Local Abbreviation gtimes := (MockDataGenerator.gtimes rng).
Local Abbreviation gfold := (MockDataGenerator.gfold rng).
Local Abbreviation random_choice := (MockDataGenerator.random_choice rng random_below).

Notation "'do' x <~ m ; k" := (gbind m (fun x => k))
  (at level 10, x name, m at level 100, k at level 200).

(** [obj.get(key, dflt)] *)
Definition get (obj : json) (key : string) (dflt : json) : gen json :=
  match obj with
  | JDict d => gret (default dflt (dict_get key d))
  | _ => graise "AttributeError"
  end.

(** [random.choice(seq)]: an item of a list, a character of a string;
    [seq[i]] on a dict, whose keys are strings, raises [KeyError], and [len]
    of anything else raises [TypeError]. *)
Definition choice (seq : json) : gen json :=
  match seq with
  | JList l => random_choice l
  | JStr s =>
      if String.eqb s "" then graise "IndexError"
      else do c <~ glift (choice_of_str s); gret (JStr c)
  | JDict d =>
      match d with
      | [] => graise "IndexError"
      | _ :: _ => do i <~ glift (random_below (length d)); graise "KeyError"
      end
  | _ => graise "TypeError"
  end.

(** The [if] that opens [generate_mock_value] and the loop body of
    [_generate_mock_object]. *)
Definition drawn_or (schema : json) (otherwise : gen json) : gen json :=
  do preserve_original <~ get schema "preserve_original" (JBool false);
  if py_truthy preserve_original then
    do original_values <~ get schema "original_values" (JList []);
    if py_truthy original_values then choice original_values
    else otherwise
  else otherwise.

Definition _generate_mock_array (self : json -> string -> gen json)
    (schema : json) (field_name : string) : gen json :=
  do items_schema <~ get schema "items" (JDict [("type", JStr "string")]);
  do array_length <~ glift (randint 1 5);
  do items <~ gtimes (Z.to_nat array_length) (self items_schema field_name);
  gret (JList items).

(** The value of one property in [_generate_mock_object]. *)
Definition mock_property (self : json -> string -> gen json)
    (field_name prop_name : string) (prop_schema : json) : gen json :=
  drawn_or prop_schema
    (* Handle special cases for common object patterns *)
    (if String.eqb prop_name "value"
        && MockDataGenerator.str_in (lower field_name) MockDataGenerator.saving_fields then
       do x <~ glift random_amount; gret (JFloat x)
     else if String.eqb prop_name "currency"
             && MockDataGenerator.str_in (lower field_name) MockDataGenerator.saving_fields then
       random_choice [JStr "â‚ª"; JStr "$"; JStr "â‚¬"; JStr "Â£"]
     else if String.eqb prop_name "sign"
             && MockDataGenerator.str_in (lower field_name) ["monthchange"] then
       gret (JStr "%")
     else if String.eqb prop_name "status"
             && MockDataGenerator.str_in (lower field_name) ["status"] then
       do n <~ glift (randint 0 3); gret (JInt n)
     else if String.eqb prop_name "statusDesc"
             && MockDataGenerator.str_in (lower field_name) ["status"] then
       random_choice [JStr "Active"; JStr "Inactive"; JStr "Pending"; JStr "Expired"]
     else self prop_schema prop_name).

Definition _generate_mock_object (self : json -> string -> gen json)
    (schema : json) (field_name : string) : gen json :=
  do properties <~ get schema "properties" (JDict []);
  match properties with
  | JDict properties =>
      do mock_object <~
        gfold (fun mock_object '(prop_name, prop_schema) =>
                 do v <~ mock_property self field_name prop_name prop_schema;
                 gret (dict_set prop_name v mock_object))
              properties [];
      gret (JDict mock_object)
  | _ => graise "AttributeError"   (* [properties.items()] *)
  end.

(** [generate_mock_value(schema, field_name)] *)
Fixpoint generate_mock_value (limit : nat) (schema : json) (field_name : string)
    : gen json :=
  match limit with
  | O => graise "RecursionError"
  | S limit' =>
      (* Check if this field should preserve original values *)
      drawn_or schema
        (do schema_type <~ get schema "type" (JStr "string");
         (* Handle different data types *)
         if py_eq schema_type (JStr "string") then glift (_generate_mock_string field_name)
         else if py_eq schema_type (JStr "number") then
           glift (_generate_mock_number field_name)
         else if py_eq schema_type (JStr "boolean") then
           random_choice [JBool true; JBool false]
         else if py_eq schema_type (JStr "array") then
           _generate_mock_array (generate_mock_value limit') schema field_name
         else if py_eq schema_type (JStr "object") then
           _generate_mock_object (generate_mock_value limit') schema field_name
         else glift (_generate_mock_string field_name))
  end.

(** The list that [random.choice] draws from when the root of the schema
    is marked and holds a list, not empty, of original values. *)
Definition stored_values (schema : json) : option (list json) :=
  match schema with
  | JDict d =>
      if py_truthy (default (JBool false) (dict_get "preserve_original" d)) then
        match default (JList []) (dict_get "original_values" d) with
        | JList (value :: values) => Some (value :: values)
        | _ => None
        end
      else None
  | _ => None
  end.

(** The loop of [generate_mock_data_for_schema] on a schema whose root draws
    no item of a list of stored values: a record that is a dict is built by
    the call, and the metadata are written into it. *)
Fixpoint fresh_records (limit : nat) (schema_name : string) (schema_structure : json)
    (n : nat) (i : Z) : gen (list json) :=
  match n with
  | O => gret []
  | S n' =>
      do mock_record <~ generate_mock_value limit schema_structure schema_name;
      do mock_record <~
        match mock_record with
        | JDict d =>
            do generated_at <~ glift iso8601;
            gret (JDict (MockDataGenerator.add_metadata i generated_at d))
        | _ => gret mock_record
        end;
      do mock_records <~ fresh_records limit schema_name schema_structure n' (i + 1);
      gret (mock_record :: mock_records)
  end.

(** [generate_mock_data_for_schema(schema_name, schema_structure, num_records)];
    when the root draws from its stored values, the records are the stored
    objects themselves ([MockDataGenerator.shared_records]). *)
Definition generate_mock_data_for_schema (limit : nat) (schema_name : string)
    (schema_structure : json) (num_records : Z) : gen (list json) :=
  match stored_values schema_structure with
  | Some values =>
      match limit, Z.to_nat num_records with
      | O, S _ => graise "RecursionError"
      | _, n => MockDataGenerator.shared_records rng random_below iso8601 n 0 values []
      end
  | None => fresh_records limit schema_name schema_structure (Z.to_nat num_records) 0
  end.

End Synthesis.

End Untyped.

(** * class SchemaCache (cache/schema_cache.py) *)

Module SchemaCache.

(** [self._cache], initially [{}] *)
Abbreviation t := (gmap string node).

Definition init : t := ∅.

Definition set_schema (key : string) (schema : node) (self : t) : t :=
  <[key := schema]> self.

(** [self._cache.get(key)]; [None] when the key is absent. *)
Definition get_schema (key : string) (self : t) : option node :=
  self !! key.

End SchemaCache.

(** * class SchemaAnalyzer (schema_analyzer.py) *)

Module SchemaAnalyzer.

(** The attribute [self._merge_structures]. The class defines the method
    [merge_structures] and no attribute of the name [_merge_structures]
    (nor does [__init__] set one), so evaluating the attribute raises
    [AttributeError]; the call sites at lines 46, 71, 79 and 161 evaluate it
    before the arguments of the call. *)
Definition _merge_structures : outcome (node -> node -> outcome node) :=
  Raises "AttributeError".

Definition merge_structures (structure1 structure2 : node) : outcome node :=
  if type_differs structure1 structure2 then
    (* If types don't match, prefer the more specific one *)
    Returns (if negb (type_is "string" structure1) then structure1 else structure2)
  else if type_is "object" structure1 then
    do merged_props <-
      ofold (fun merged_props '(key, value) =>
               match dict_get key merged_props with
               | Some m =>
                   do f <- _merge_structures;
                   do merged <- f m value;
                   Returns (dict_set key merged merged_props)
               | None => Returns (dict_set key value merged_props)
               end)
            (get_properties structure2) (get_properties structure1);
    Returns (object merged_props)
  else if type_is "array" structure1 then
    let items1 := get_items (leaf "string") structure1 in
    let items2 := get_items (leaf "string") structure2 in
    do f <- _merge_structures;
    do merged_items <- f items1 items2;
    Returns (array merged_items)
  else Returns structure1.

(** [_analyze_structure(obj, max_depth)]; the default of [max_depth] is 10. *)
Fixpoint _analyze_structure (obj : json) (max_depth : Z) {struct obj} : outcome node :=
  if max_depth <=? 0 then Returns (leaf "string")
  else
    match obj with
    | JDict d =>
        do properties <-
          ofold (fun properties '(key, value) =>
                   do s <- _analyze_structure value (max_depth - 1);
                   Returns (dict_set key s properties))
                d [];
        Returns (object properties)
    | JList l =>
        match l with
        | _ :: _ =>
            do item_structures <-
              omap (fun item => _analyze_structure item (max_depth - 1)) l;
            match item_structures with
            | first :: others =>
                do merged_items <-
                  ofold (fun merged_items item_structure =>
                           do f <- _merge_structures;
                           f merged_items item_structure)
                        others first;
                Returns (array merged_items)
            | [] => Returns (array (leaf "string"))
            end
        | [] => Returns (array (object []))
        end
    | JBool _ => Returns (leaf "boolean")
    | JInt _ | JFloat _ => Returns (leaf "number")
    | JStr _ => Returns (leaf "string")
    | JNull => Returns (leaf "string")
    end.

Definition preserve_fields : list string :=
  [ "status"; "message"; "transId"; "entity";
    "id";
    "requiredRenewal"; "isExpired"; "isActive"; "isSmart"; "isKlasi"; "isRiziko";
    "isCopyPolicyDoc"; "isPaila"; "isIndependent"; "isNew";
    "sign";
    "eSite";
    "totalPayments";
    "paymentNo";
    "yieldBeginningYear"; "lastDeposit"; "depositedThisYear"; "availableWithdraw";
    "withdrawDate"; "yieldFromYearBeginningTotal";
    "fromDeposit"; "fromSaving"; "yieldUpdateDate"; "dailyYieldUpdateDate";
    "hasProfitsShare"; "updateTo"; "dailyUpdateTo"; "tsuotPopup" ].

Definition _should_preserve_field (field_name : string) : bool :=
  existsb (String.eqb field_name) preserve_fields.

Definition _add_preserved_field_info (structure : node) (examples : list json) : node :=
  _add_preserved_field_info _should_preserve_field structure examples.

Section Cached.

(** [str(hash(str(examples)))]: the key derived from the content when the
    caller gives none. *)
Variable content_key : list json -> string.

(** [cache_key or str(hash(str(examples)))]: [None] and the empty string are
    both false. *)
Definition key_of (examples : list json) (cache_key : option string) : string :=
  match cache_key with
  | Some k => if String.eqb k "" then content_key examples else k
  | None => content_key examples
  end.

(** The pipeline run on a cache miss (lines 43 to 48). *)
Definition compute (examples : list json) : outcome node :=
  match examples with
  | [] => Raises "IndexError"
  | first :: others =>
      (* Analyze the first example as base structure *)
      do base_structure <- _analyze_structure first 10;
      do base_structure <-
        ofold (fun base_structure example =>
                 do f <- _merge_structures;
                 do s <- _analyze_structure example 10;
                 f base_structure s)
              others base_structure;
      Returns (_add_preserved_field_info base_structure examples)
  end.

(** [analyze_structure(examples, cache_key)], with the state of [self.cache]. *)
Definition analyze_structure (examples : list json) (cache_key : option string)
    (cache : SchemaCache.t) : outcome node * SchemaCache.t :=
  if negb (truthy examples) then (Returns (object []), cache)
  else
    let key := key_of examples cache_key in
    match SchemaCache.get_schema key cache with
    | Some cached => (Returns cached, cache)
    | None =>
        match compute examples with
        | Returns base_structure =>
            (Returns base_structure, SchemaCache.set_schema key base_structure cache)
        | Raises e => (Raises e, cache)
        end
    end.

End Cached.

End SchemaAnalyzer.

(** [len(set(keys)) == len(keys)]: the keys of a dict are distinct. *)
Fixpoint keys_unique (keys : list string) : bool :=
  match keys with
  | [] => true
  | k :: keys' => negb (existsb (String.eqb k) keys') && keys_unique keys'
  end.

(** * insurance_schemas.py *)

Module InsuranceSchemas.

(** [class FieldType(Enum)] and the attribute [value] of its members *)
Inductive FieldType : Type := STRING | INTEGER | BOOLEAN | OBJECT | ARRAY | NULL.

Definition value (t : FieldType) : string :=
  match t with
  | STRING => "string"
  | INTEGER => "integer"
  | BOOLEAN => "boolean"
  | OBJECT => "object"
  | ARRAY => "array"
  | NULL => "null"
  end.

Definition FieldType_eqb (t u : FieldType) : bool :=
  String.eqb (value t) (value u).

(** [@dataclass class FieldDefinition] *)
Record FieldDefinition : Type := {
  field_type : FieldType;
  required : bool;                       (* default True *)
  default_value : json;                  (* default None *)
  validation_rules : option (dict json); (* default None *)
  generation_pattern : option string     (* default None *)
}.

(** [class InsuranceSchema] *)
Record InsuranceSchema : Type := {
  insurance_type : string;
  required_fields : dict FieldDefinition;
  optional_fields : dict FieldDefinition   (* [{}] after [__init__] *)
}.

(** [_validate_field_type(value, expected_type)]. [bool] is a subclass of
    [int], so a boolean is an instance of [int]. *)
Definition _validate_field_type (value : json) (expected_type : FieldType) : bool :=
  match value with
  | JNull => FieldType_eqb expected_type NULL
  | _ =>
      match expected_type with
      | STRING => match value with JStr _ => true | _ => false end
      | INTEGER => match value with JInt _ | JBool _ => true | _ => false end
      | BOOLEAN => match value with JBool _ => true | _ => false end
      | OBJECT => match value with JDict _ => true | _ => false end
      | ARRAY => match value with JList _ => true | _ => false end
      | NULL => true
      end
  end.

(** [validate_data(data)]: the list of errors. *)
Definition validate_data (self : InsuranceSchema) (data : dict json) : list string :=
  fold_left (fun errors '(field_name, field_def) =>
               match dict_get field_name data with
               | None =>
                   if required field_def
                   then errors ++ [("Missing required field: " ++ field_name)%string]
                   else errors
               | Some v =>
                   (* Type validation *)
                   if negb (_validate_field_type v (field_type field_def))
                   then errors ++ [("Invalid type for field " ++ field_name
                                    ++ ": expected " ++ value (field_type field_def))%string]
                   else errors
               end)
            (required_fields self) [].

Section Table.

(** The module constant [INSURANCE_SCHEMAS]. *)
Variable INSURANCE_SCHEMAS : dict InsuranceSchema.

Definition get_schema (insurance_type : string) : option InsuranceSchema :=
  dict_get insurance_type INSURANCE_SCHEMAS.

Definition get_available_insurance_types : list string :=
  dict_keys INSURANCE_SCHEMAS.

Definition validate_insurance_data (insurance_type : string) (data : dict json)
    : list string :=
  match get_schema insurance_type with
  | None => [("Unknown insurance type: " ++ insurance_type)%string]
  | Some schema => validate_data schema data
  end.

End Table.

End InsuranceSchemas.

(** One field of a schema, against the data: the field is there when it is
    required, and its value, when it is there, is of the type of the field. *)
Definition field_ok (data : dict json)
    (field : string * InsuranceSchemas.FieldDefinition) : bool :=
  match dict_get (fst field) data with
  | None => negb (InsuranceSchemas.required (snd field))
  | Some v => InsuranceSchemas._validate_field_type v (InsuranceSchemas.field_type (snd field))
  end.

(** The errors that one field of a schema adds. *)
Definition field_errors (data : dict json)
    (field : string * InsuranceSchemas.FieldDefinition) : list string :=
  match dict_get (fst field) data with
  | None =>
      if InsuranceSchemas.required (snd field)
      then [("Missing required field: " ++ fst field)%string]
      else []
  | Some v =>
      if negb (InsuranceSchemas._validate_field_type v
                 (InsuranceSchemas.field_type (snd field)))
      then [("Invalid type for field " ++ fst field ++ ": expected "
             ++ InsuranceSchemas.value (InsuranceSchemas.field_type (snd field)))%string]
      else []
  end.

(** ** Predicates on schema nodes *)

(** A node is well formed when its kind is one of the five that the
    analyzer writes, a node of kind object has the key ["properties"] with
    well-formed values, and a node of kind array has the key ["items"] with a
    well-formed node. *)
Fixpoint well_formed (s : node) : bool :=
  match s with
  | Schema (Some t) props items _ _ =>
      if String.eqb t "object" then
        match props with
        | Some p => forallb (fun kv => well_formed (snd kv)) p
        | None => false
        end
      else if String.eqb t "array" then
        match items with
        | Some i => well_formed i
        | None => false
        end
      else existsb (String.eqb t) ["string"; "number"; "boolean"]
  | Schema None _ _ _ _ => false
  end.

(** The nodes that [{"type": "object", "properties": ...}] and
    [{"type": "array", "items": ...}] can build: a node of kind object has
    the keys ["type"] and ["properties"] and no other, with distinct property
    names; a node of kind array has the keys ["type"] and ["items"] and no
    other. Nodes of another kind are not constrained. *)
Fixpoint plain (s : node) : bool :=
  match s with
  | Schema t props items po ov =>
      if type_is "object" s then
        match props, items, po, ov with
        | Some p, None, None, None =>
            keys_unique (dict_keys p) && forallb (fun kv => plain (snd kv)) p
        | _, _, _, _ => false
        end
      else if type_is "array" s then
        match props, items, po, ov with
        | None, Some i, None, None => plain i
        | _, _, _, _ => false
        end
      else true
  end.

(** Number of property and items links on the longest path from the node
    down; a node without properties and without items, an object without
    properties among them, is at the end of its path. *)
Fixpoint height (s : node) : nat :=
  match s with
  | Schema _ props items _ _ =>
      Nat.max
        match props with
        | Some p => fold_right (fun kv h => Nat.max (S (height (snd kv))) h) O p
        | None => O
        end
        match items with
        | Some i => S (height i)
        | None => O
        end
  end.

(** Values well formed and of height below [n]. *)
Definition low (n : nat) (s : node) : bool :=
  well_formed s && (S (height s) <=? n)%nat.

(** A document nested [n] levels deep: [{"k": {"k": ... None}}]. *)
Fixpoint nest (n : nat) : json :=
  match n with
  | O => JNull
  | S n' => JDict [("k", nest n')]
  end.

(** Number of object and array nodes on the longest path from the node
    down. *)
Fixpoint levels (s : node) : nat :=
  match s with
  | Schema _ props items _ _ =>
      let below :=
        Nat.max
          match props with
          | Some p => fold_right (fun kv h => Nat.max (levels (snd kv)) h) O p
          | None => O
          end
          match items with
          | Some i => levels i
          | None => O
          end in
      if type_is "object" s || type_is "array" s then S below else below
  end.

(** A list without items inside [n] mappings: [{"k": {"k": ... []}}]. *)
Fixpoint deep_empty (n : nat) : json :=
  match n with
  | O => JList []
  | S n' => JDict [("k", deep_empty n')]
  end.

(** ** The stored values, as the specification words them *)

(** The values of the field across all the examples that are mappings. *)
Fixpoint field_values (field_name : string) (examples : list json) : list json :=
  match examples with
  | [] => []
  | JDict d :: rest =>
      match dict_get field_name d with
      | Some v => v :: field_values field_name rest
      | None => field_values field_name rest
      end
  | _ :: rest => field_values field_name rest
  end.

(** Removal of duplicates by [==], keeping the first occurrence: the head
    stays and every later value equal to it goes. *)
Fixpoint dedup_first_fuel (fuel : nat) (values : list json) : list json :=
  match fuel, values with
  | S fuel', v :: rest =>
      v :: dedup_first_fuel fuel' (List.filter (fun w => negb (py_eq v w)) rest)
  | _, _ => []
  end.

Definition dedup_first (values : list json) : list json :=
  dedup_first_fuel (length values) values.

(** ** The loops of the merger and of the extraction, by themselves *)

(** The property loop of [_merge_structures]. *)
Definition merge_loop (props2 merged_props : dict node) : dict node :=
  fold_left (fun merged_props '(key, value) =>
               match dict_get key merged_props with
               | Some m =>
                   dict_set key (MockDataGenerator._merge_structures m value) merged_props
               | None => dict_set key value merged_props
               end) props2 merged_props.

(** What the merged object holds under a name: the merge of the two values
    when both sides have the name, else the value of the side that has it. *)
Definition merged_property (props1 props2 : dict node) (name : string) : option node :=
  match dict_get name props1, dict_get name props2 with
  | Some x, Some y => Some (MockDataGenerator._merge_structures x y)
  | Some x, None => Some x
  | None, Some y => Some y
  | None, None => None
  end.

(** The loop of [_extract_original_values] over values, from [values]. *)
Definition collect (values new : list json) : list json :=
  fold_left (fun values value =>
               if negb (py_in value values) then values ++ [value] else values)
            new values.

(** ** Sample inputs *)



(** A stand-in for [str(hash(str(examples)))] that tells apart corpora whose
    first documents have different field names. *)
Definition first_names_key (examples : list json) : string :=
  match examples with
  | JDict d :: _ => String.concat "," (dict_keys d)
  | _ => "0"
  end.

(** ** Predicates on documents *)

(** Some list of two or more items is met by the analyzer within the depth
    budget: the analyzer descends one level per mapping and per list and
    stops when the budget is used up. *)
Fixpoint long_list_within (obj : json) (max_depth : Z) {struct obj} : bool :=
  if max_depth <=? 0 then false
  else
    match obj with
    | JDict d => existsb (fun kv => long_list_within (snd kv) (max_depth - 1)) d
    | JList l =>
        (2 <=? length l)%nat
        || existsb (fun item => long_list_within item (max_depth - 1)) l
    | _ => false
    end.

(** The node without the keys that the annotator writes, at every level. *)
Fixpoint erase (s : node) : node :=
  match s with
  | Schema t props items _ _ =>
      Schema t
        (option_map (map (fun kv => (fst kv, erase (snd kv)))) props)
        (option_map erase items) None None
  end.

(** ** The two writes of the annotator on a field, apart *)

(** What the loop body of [_add_preserved_field_info] writes below a field:
    the recursive call on an object field with the values found under its
    name, or on the items of an array field with the items of the lists found
    under its name (for an array field this is what the call on the field
    itself with those items does). *)
Definition annotate_below (preserve : string -> bool) (examples : list json)
    (field_name : string) (field_structure : node) : node :=
  if type_is "object" field_structure then
    if truthy (nested_examples field_name examples)
    then _add_preserved_field_info preserve field_structure
           (nested_examples field_name examples)
    else field_structure
  else if type_is "array" field_structure then
    if truthy (array_examples field_name examples)
    then _add_preserved_field_info preserve field_structure
           (array_examples field_name examples)
    else field_structure
  else field_structure.

(** The marks that the loop body writes on the field itself. *)
Definition marked_preserve (preserve : string -> bool) (field_name : string)
    (field_structure : node) : option bool :=
  if preserve field_name then Some true else s_preserve_original field_structure.

Definition marked_values (preserve : string -> bool) (examples : list json)
    (field_name : string) (field_structure : node) : option (list json) :=
  if preserve field_name then
    if truthy (_extract_original_values field_name examples)
    then Some (_extract_original_values field_name examples)
    else s_original_values field_structure
  else s_original_values field_structure.

(** The example is a mapping; it has a response with a true truth value. *)
Definition is_mapping (example : json) : bool :=
  match example with JDict _ => true | _ => false end.

(** [example.get('response', {})] *)
Definition response_of (example : json) : json :=
  match example with
  | JDict d => default (JDict []) (dict_get "response" d)
  | _ => JDict []
  end.

Definition has_response (example : json) : bool :=
  is_mapping example && py_truthy (response_of example).

(** ** Predicates on examples *)

(** The example is a mapping whose response is a list, not empty, of
    mappings that all have the string [insurance_type] under [id]. *)
Definition narrowed_to (insurance_type : string) (example : json) : bool :=
  match example with
  | JDict d =>
      match dict_get "response" d with
      | Some (JList items) =>
          truthy items
          && forallb (fun item =>
                        match item with
                        | JDict it =>
                            match dict_get "id" it with
                            | Some (JStr s) => String.eqb s insurance_type
                            | _ => false
                            end
                        | _ => false
                        end) items
      | _ => false
      end
  | _ => false
  end.

(** The entity of an example, [UnknownEntity] for a mapping without one. *)
Definition entity_name (example : json) : json :=
  match example with
  | JDict d => MockDataGenerator.entity_of d
  | _ => JNull
  end.

(** The example is a mapping and its entity can be a key of a dict. *)
Definition groupable (example : json) : bool :=
  is_mapping example && MockDataGenerator.hashable (entity_name example).

(** The entity of the example equals [k]. *)
Definition same_entity (k : json) (example : json) : bool :=
  py_eq k (entity_name example).

(** What the filtering loop appends for one file. *)
Definition kept (insurance_type : string) (example_file : outcome json) : list json :=
  match MockDataGenerator.filter_example insurance_type [] example_file with
  | Returns filtered_examples => filtered_examples
  | Raises _ => []
  end.

(** What the loading loop appends for one file. *)
Definition loaded (example_file : outcome json) : list json :=
  match example_file with
  | Returns example_data => [example_data]
  | Raises _ => []
  end.

(** No key equals a later key. *)
Fixpoint keys_apart (keys : list json) : bool :=
  match keys with
  | [] => true
  | k :: keys' => forallb (fun k' => negb (py_eq k k')) keys' && keys_apart keys'
  end.

(** The examples of each entity, the entities in the order of their first
    example. *)
Definition grouped (examples : list json) : list (json * list json) :=
  map (fun k => (k, List.filter (same_entity k) examples))
      (collect [] (map entity_name examples)).

(** The entity of the example can be a key, and the items of its response
    that are mappings have distinct keys, as every dict has. *)
Definition well_keyed (example : json) : bool :=
  MockDataGenerator.hashable (entity_name example)
  && match example with
     | JDict d =>
         match dict_get "response" d with
         | Some (JList items) =>
             forallb (fun item =>
                        match item with
                        | JDict it => keys_unique (dict_keys it)
                        | _ => true
                        end) items
         | _ => true
         end
     | _ => true
     end.

(** A mapping with distinct keys that has the string [insurance_type] under
    [id]. *)
Definition typed_item (insurance_type : string) (item : json) : Prop :=
  exists it, item = JDict it /\ dict_get "id" it = Some (JStr insurance_type)
             /\ keys_unique (dict_keys it) = true.

(** A list, not empty, of such mappings. *)
Definition typed_response (insurance_type : string) (response : json) : Prop :=
  exists items, response = JList items /\ items <> []
                /\ Forall (typed_item insurance_type) items.

(** A mapping with such a response. *)
Definition typed_example (insurance_type : string) (example : json) : Prop :=
  exists d response, example = JDict d /\ dict_get "response" d = Some response
                     /\ typed_response insurance_type response.

(** A plain object node whose property [id] is a string leaf. *)
Definition id_string (o : node) : Prop :=
  plain o = true
  /\ exists props, o = object props /\ dict_get "id" props = Some (leaf "string").

(** An array of objects whose property [id] is preserved with
    [insurance_type] as its only original value; neither the array nor the
    object holds original values of its own. *)
Definition id_fixed (insurance_type : string) (schema : node) : Prop :=
  exists items p,
    s_type schema = Some "array" /\ has_originals schema = false
    /\ s_items schema = Some items
    /\ s_type items = Some "object" /\ has_originals items = false
    /\ keys_unique (dict_keys (get_properties items)) = true
    /\ dict_get "id" (get_properties items) = Some p
    /\ s_preserve_original p = Some true
    /\ s_original_values p = Some [JStr insurance_type].

(** ** A deterministic random source, for running the synthesizer

    The state counts the draws; every draw returns the least value. *)
Module FirstChoice.
Definition rng : Type := nat.
Definition random_below (n : nat) (r : rng) : nat * rng := (O, S r).
Definition randint (a b : Z) (r : rng) : Z * rng := (a, S r).
Definition random_amount (r : rng) : Q * rng := (inject_Z 1000, S r).
Definition _generate_mock_string (field_name : string) (r : rng) : json * rng :=
  (JStr ("Mock_" ++ field_name)%string, S r).
Definition _generate_mock_number (field_name : string) (r : rng) : json * rng :=
  (JInt 1, S r).
Definition lower (s : string) : string := s.
Definition generate_mock_value : node -> string -> rng -> outcome json * rng :=
  MockDataGenerator.generate_mock_value rng random_below randint random_amount
    _generate_mock_string _generate_mock_number lower.
End FirstChoice.

(** [generate_mock_data_for_schema] on the deterministic random source. *)
Definition first_choice_iso8601 (r : FirstChoice.rng) : string * FirstChoice.rng :=
  ("2025-07-07T00:00:00", S r).

Definition first_choice_records : string -> node -> Z -> FirstChoice.rng
                                  -> outcome (list json) * FirstChoice.rng :=
  MockDataGenerator.generate_mock_data_for_schema FirstChoice.rng FirstChoice.random_below
    FirstChoice.randint FirstChoice.random_amount FirstChoice._generate_mock_string
    FirstChoice._generate_mock_number FirstChoice.lower first_choice_iso8601.

(** The synthesizer on documents, on the deterministic random source. *)
Definition first_choice_character (s : string) (r : FirstChoice.rng)
    : string * FirstChoice.rng :=
  (String.substring 0 1 s, S r).

Definition first_choice_untyped_value : nat -> json -> string -> FirstChoice.rng
                                        -> outcome json * FirstChoice.rng :=
  Untyped.generate_mock_value FirstChoice.rng FirstChoice.random_below FirstChoice.randint
    FirstChoice.random_amount FirstChoice._generate_mock_string
    FirstChoice._generate_mock_number FirstChoice.lower first_choice_character.

Definition first_choice_untyped_records : nat -> string -> json -> Z -> FirstChoice.rng
                                          -> outcome (list json) * FirstChoice.rng :=
  Untyped.generate_mock_data_for_schema FirstChoice.rng FirstChoice.random_below
    FirstChoice.randint FirstChoice.random_amount FirstChoice._generate_mock_string
    FirstChoice._generate_mock_number FirstChoice.lower first_choice_iso8601
    first_choice_character.

(** * Properties *)

(** ** The structural definitions and the source bodies *)

Section PreservationEquation.

Variable preserve : string -> bool.

Local Abbreviation mark_preserved := (mark_preserved preserve).
Local Abbreviation _add_preserved_field_info := (_add_preserved_field_info preserve).
Local Abbreviation annotate_body := (annotate_body preserve).
Local Abbreviation annotate_field := (annotate_field preserve).

Lemma mark_preserved_annotation field_name examples s :
  exists po ov, mark_preserved field_name examples s = set_annotation po ov s
                /\ forall s', s_preserve_original s' = s_preserve_original s ->
                             s_original_values s' = s_original_values s ->
                             mark_preserved field_name examples s' = set_annotation po ov s'.
Proof.
  unfold mark_preserved.
  destruct (preserve field_name).
  - destruct (truthy _).
    + eexists _, _; split; [reflexivity|]. intros s' _ _. reflexivity.
    + eexists _, _; split; [reflexivity|]. intros s' _ H.
      unfold set_preserve_original, set_annotation. now rewrite H.
  - exists (s_preserve_original s), (s_original_values s). split.
    + now destruct s.
    + intros s' H1 H2. rewrite <- H1, <- H2. now destruct s'.
Qed.

Lemma _add_preserved_field_info_annotation po ov s examples :
  _add_preserved_field_info (set_annotation po ov s) examples
  = set_annotation po ov (_add_preserved_field_info s examples).
Proof.
  destruct s as [t props items po0 ov0].
  unfold set_annotation at 1. cbn [s_type s_properties s_items].
  cbn [_add_preserved_field_info]. unfold type_is. cbn [s_type].
  destruct t as [t|]; [|reflexivity].
  destruct (String.eqb t "object").
  - destruct props; reflexivity.
  - destruct (String.eqb t "array"); [|reflexivity].
    destruct (truthy examples); [|reflexivity].
    destruct items; reflexivity.
Qed.

Lemma _add_preserved_field_info_keeps s examples :
  s_type (_add_preserved_field_info s examples) = s_type s
  /\ s_preserve_original (_add_preserved_field_info s examples) = s_preserve_original s
  /\ s_original_values (_add_preserved_field_info s examples) = s_original_values s.
Proof.
  destruct s as [t props items po ov].
  cbn [_add_preserved_field_info].
  destruct (type_is "object" _); [destruct props; auto|].
  destruct (type_is "array" _); [|auto].
  destruct (truthy examples); [|auto].
  destruct items; auto.
Qed.

(** The structural definition satisfies the equation of the source body. *)
Lemma _add_preserved_field_info_eq structure examples :
  _add_preserved_field_info structure examples
  = annotate_body _add_preserved_field_info structure examples.
Proof.
  unfold annotate_body.
  destruct structure as [t props items po ov]. cbn [_add_preserved_field_info].
  destruct (type_is "object" _).
  - unfold update_properties. cbn [s_properties].
    destruct props as [properties|]; [|reflexivity].
    unfold set_properties; cbn [s_type s_items s_preserve_original s_original_values].
    f_equal. f_equal. apply map_ext. intros [field_name fs].
    f_equal. unfold annotate_field.
    destruct (mark_preserved_annotation field_name examples fs) as (po' & ov' & Hm & Hm').
    assert (Ht : forall k, type_is k (mark_preserved field_name examples fs) = type_is k fs).
    { intros k. rewrite Hm. now destruct fs. }
    rewrite !Ht.
    destruct fs as [ct cprops citems cpo cov].
    destruct (type_is "object" _).
    { destruct (truthy _); [|reflexivity].
      rewrite Hm, _add_preserved_field_info_annotation.
      apply Hm'; apply _add_preserved_field_info_keeps. }
    destruct (type_is "array" _); [|reflexivity].
    destruct (truthy _); [|reflexivity].
    destruct citems as [items_structure|].
    + rewrite (Hm' (Schema ct cprops (Some _) cpo cov)) by reflexivity.
      rewrite Hm. reflexivity.
    + rewrite Hm. reflexivity.
  - destruct (type_is "array" _); [|reflexivity].
    destruct (truthy examples); [|reflexivity].
    unfold update_items. cbn [s_items]. destruct items; reflexivity.
Qed.

End PreservationEquation.

(** The structural definition satisfies the equation of the source body. *)
Lemma _merge_structures_eq (structure1 structure2 : node) :
  MockDataGenerator._merge_structures structure1 structure2
  = MockDataGenerator.merge_body MockDataGenerator._merge_structures structure1 structure2.
Proof.
  unfold MockDataGenerator.merge_body.
  destruct structure2 as [t2 props2 items2 po2 ov2]; cbn [MockDataGenerator._merge_structures].
  destruct (type_differs _ _); [reflexivity|].
  destruct (type_is "object" structure1).
  - destruct props2 as [props2|]; [|reflexivity].
    f_equal. change (get_properties (Schema t2 (Some props2) items2 po2 ov2)) with props2.
    generalize (get_properties structure1) as merged_props.
    induction props2 as [|[key value] rest IH]; intros merged_props; [reflexivity|].
    cbn [fold_left]. apply IH.
  - destruct (type_is "array" structure1) eqn:Harr; [|reflexivity].
    destruct items2 as [items2|]; [reflexivity|].
    change (get_items (leaf "string") (Schema t2 props2 None po2 ov2)) with (leaf "string").
    f_equal.
    generalize (get_items (leaf "string") structure1) as items1.
    intros items1. unfold leaf. cbn [MockDataGenerator._merge_structures].
    unfold type_differs, type_is; cbn [s_type].
    destruct (s_type items1) as [t1|]; [|reflexivity].
    destruct (String.eqb t1 "string") eqn:E; cbn [negb]; [|reflexivity].
    apply String.eqb_eq in E; subst t1. reflexivity.
Qed.


(** ** Dicts *)

Lemma dict_get_set_eq {A} (k : string) (v : A) (d : dict A) :
  dict_get k (dict_set k v d) = Some v.
Proof.
  induction d as [|[k' v'] d IH]; cbn.
  - now rewrite String.eqb_refl.
  - destruct (String.eqb k k') eqn:E; cbn; rewrite E; [reflexivity|exact IH].
Qed.

Lemma dict_get_set_ne {A} (k k' : string) (v : A) (d : dict A) :
  k <> k' -> dict_get k' (dict_set k v d) = dict_get k' d.
Proof.
  intros Hne. induction d as [|[k0 v0] d IH]; cbn.
  - destruct (String.eqb k' k) eqn:E; [|reflexivity].
    apply String.eqb_eq in E. congruence.
  - destruct (String.eqb k k0) eqn:E; cbn.
    + apply String.eqb_eq in E. subst k0.
      destruct (String.eqb k' k) eqn:E'; [|reflexivity].
      apply String.eqb_eq in E'. congruence.
    + now rewrite IH.
Qed.

Lemma dict_set_same {A} (k : string) (v : A) (d : dict A) :
  dict_get k d = Some v -> dict_set k v d = d.
Proof.
  induction d as [|[k' v'] d IH]; cbn; [discriminate|].
  destruct (String.eqb k k') eqn:E.
  - intros [= ->]. reflexivity.
  - intros H. now rewrite IH.
Qed.

Lemma dict_get_Some_keys {A} (k : string) (d : dict A) :
  In k (dict_keys d) <-> exists v, dict_get k d = Some v.
Proof.
  induction d as [|[k' v'] d IH]; cbn.
  - split; [tauto|]. intros [v [=]].
  - destruct (String.eqb k k') eqn:E.
    + apply String.eqb_eq in E. subst k'. split; eauto.
    + apply String.eqb_neq in E. rewrite IH. split; [|tauto].
      intros [H|H]; [congruence|exact H].
Qed.

Lemma dict_get_None_keys {A} (k : string) (d : dict A) :
  ~ In k (dict_keys d) <-> dict_get k d = None.
Proof.
  rewrite dict_get_Some_keys. destruct (dict_get k d); split; intros H.
  - exfalso. eauto.
  - discriminate.
  - reflexivity.
  - intros [v [=]].
Qed.

Lemma existsb_eqb_In (k : string) (l : list string) :
  existsb (String.eqb k) l = true <-> In k l.
Proof.
  rewrite existsb_exists. split.
  - intros (x & Hx & E). apply String.eqb_eq in E. now subst.
  - intros H. exists k. split; [exact H|apply String.eqb_refl].
Qed.

Lemma keys_unique_cons (k : string) (l : list string) :
  keys_unique (k :: l) = true <-> ~ In k l /\ keys_unique l = true.
Proof.
  cbn. rewrite andb_true_iff, negb_true_iff, <- existsb_eqb_In.
  destruct (existsb (String.eqb k) l); intuition congruence.
Qed.

Lemma dict_get_unique {A} (k : string) (v : A) (d : dict A) :
  keys_unique (dict_keys d) = true -> In (k, v) d -> dict_get k d = Some v.
Proof.
  induction d as [|[k' v'] d IH]; cbn [In dict_get]; [tauto|].
  unfold dict_keys. cbn [map fst]. rewrite keys_unique_cons.
  intros [Hnin Hu] [[= -> ->]|Hin].
  - now rewrite String.eqb_refl.
  - destruct (String.eqb k k') eqn:E; [|now apply IH].
    apply String.eqb_eq in E. subst k'. exfalso. apply Hnin.
    change (In k (map fst d)). apply in_map_iff. now exists (k, v).
Qed.

(** ** Kinds *)

Lemma type_differs_spec (s1 s2 : node) :
  type_differs s1 s2 = true <-> s_type s1 <> s_type s2.
Proof.
  unfold type_differs. destruct (s_type s1) as [t1|], (s_type s2) as [t2|];
    try (split; [discriminate|congruence]); try (split; [discriminate|tauto]).
  rewrite negb_true_iff. destruct (String.eqb t1 t2) eqn:E.
  - apply String.eqb_eq in E. subst. split; [discriminate|congruence].
  - apply String.eqb_neq in E. split; [congruence|reflexivity].
Qed.

Lemma type_is_spec (t : string) (s : node) :
  type_is t s = true <-> s_type s = Some t.
Proof.
  unfold type_is. destruct (s_type s) as [t'|]; [|split; discriminate].
  rewrite String.eqb_eq. split; congruence.
Qed.

(** ** The merger on nodes of different kinds *)

Lemma merge_differing_kinds (a b : node) :
  s_type a <> s_type b ->
  MockDataGenerator._merge_structures a b
  = (if negb (type_is "string" a) then a else b)
  /\ SchemaAnalyzer.merge_structures a b
     = Returns (if negb (type_is "string" a) then a else b).
Proof.
  intros Hne. apply type_differs_spec in Hne.
  rewrite _merge_structures_eq.
  unfold MockDataGenerator.merge_body, SchemaAnalyzer.merge_structures.
  now rewrite Hne.
Qed.

(** C4. When the kinds of [a] and [b] differ, both mergers return one of the
    two operands as it is: [a] whenever the kind of [a] is not string (so
    also when neither kind is string), and [b], whose kind is then not
    string, when the kind of [a] is string. *)
Theorem C4_merge_prefers_non_string (a b : node) :
  s_type a <> s_type b ->
  (s_type a <> Some "string" ->
     MockDataGenerator._merge_structures a b = a
     /\ SchemaAnalyzer.merge_structures a b = Returns a)
  /\ (s_type a = Some "string" ->
        s_type b <> Some "string"
        /\ MockDataGenerator._merge_structures a b = b
        /\ SchemaAnalyzer.merge_structures a b = Returns b).
Proof.
  intros Hne. destruct (merge_differing_kinds a b Hne) as [Hm Hs].
  rewrite Hm, Hs. split.
  - intros Ha. destruct (type_is "string" a) eqn:E; [|now split].
    apply type_is_spec in E. contradiction.
  - intros Ha. apply type_is_spec in Ha as E. rewrite E. cbn [negb].
    repeat split. congruence.
Qed.

Lemma C4_merge_prefers_non_string_witness :
  MockDataGenerator._merge_structures (leaf "string") (leaf "number") = leaf "number"
  /\ MockDataGenerator._merge_structures (leaf "number") (leaf "string") = leaf "number"
  /\ SchemaAnalyzer.merge_structures (leaf "boolean") (leaf "number")
     = Returns (leaf "boolean").
Proof.
  assert (H1 : s_type (leaf "string") <> s_type (leaf "number")) by discriminate.
  assert (H2 : s_type (leaf "number") <> s_type (leaf "string")) by discriminate.
  assert (H3 : s_type (leaf "boolean") <> s_type (leaf "number")) by discriminate.
  split; [|split].
  - apply (C4_merge_prefers_non_string _ _ H1). reflexivity.
  - apply (C4_merge_prefers_non_string _ _ H2). discriminate.
  - apply (C4_merge_prefers_non_string _ _ H3). discriminate.
Defined.

(** ** The analyzer of class SchemaAnalyzer *)

Lemma omap_length {A B} (f : A -> outcome B) (l : list A) (ys : list B) :
  omap f l = Returns ys -> length ys = length l.
Proof.
  revert ys. induction l as [|x l IH]; cbn; intros ys.
  - now intros [= <-].
  - destruct (f x); cbn; [|discriminate].
    destruct (omap f l); cbn; [|discriminate].
    intros [= <-]. cbn. f_equal. now apply IH.
Qed.

Lemma omap_raises {A B} (f : A -> outcome B) (l : list A) (e : string) :
  omap f l = Raises e -> exists x, In x l /\ f x = Raises e.
Proof.
  induction l as [|x l IH]; cbn; [discriminate|].
  destruct (f x) eqn:Ex; cbn.
  - destruct (omap f l); cbn; [discriminate|].
    intros [= <-]. destruct IH as (y & Hy & Ey); [reflexivity|]. eauto.
  - intros [= <-]. eauto.
Qed.

Lemma ofold_raises {A B} (f : A -> B -> outcome A) (l : list B) (a : A) (e : string) :
  (forall a' x e', In x l -> f a' x = Raises e' -> e' = e) ->
  forall e', ofold f l a = Raises e' -> e' = e.
Proof.
  revert a. induction l as [|x l IH]; cbn; intros a Hf e'; [discriminate|].
  destruct (f a x) eqn:Ex; cbn.
  - apply IH. intros a' y e'' Hy. apply Hf. now right.
  - intros [= <-]. eapply Hf; [now left|exact Ex].
Qed.

(** The only exception that [_analyze_structure] of class SchemaAnalyzer
    raises is the missing attribute. *)
Lemma SchemaAnalyzer_analyze_raises_AttributeError (obj : json) :
  forall max_depth e,
    SchemaAnalyzer._analyze_structure obj max_depth = Raises e -> e = "AttributeError".
Proof.
  induction obj as [| | | | |l IH|d IH] using json_ind; intros max_depth e;
    cbn [SchemaAnalyzer._analyze_structure]; destruct (max_depth <=? 0); try discriminate.
  - destruct l as [|x l]; [discriminate|].
    destruct (omap _ (x :: l)) as [items|e0] eqn:Eo; cbn [obind].
    + destruct items as [|first others]; [discriminate|].
      destruct (ofold _ others first) eqn:Ef; cbn [obind]; [discriminate|].
      intros [= <-]. revert Ef. apply ofold_raises.
      intros a' y e' _. cbn. now intros [= <-].
    + intros [= <-]. apply omap_raises in Eo as (y & Hy & Ey).
      rewrite List.Forall_forall in IH. exact (IH y Hy _ _ Ey).
  - destruct (ofold _ d []) eqn:Ef; cbn [obind]; [discriminate|].
    intros [= <-]. revert Ef. apply ofold_raises.
    intros a' [k v] e' Hin. rewrite List.Forall_forall in IH.
    specialize (IH (k, v) Hin). cbn [snd] in IH.
    destruct (SchemaAnalyzer._analyze_structure v (max_depth - 1)) eqn:Ev; cbn [obind];
      [discriminate|].
    intros [= <-]. exact (IH _ _ Ev).
Qed.

(** A list of two or more items is never analyzed by class SchemaAnalyzer:
    merging the second item structure into the first evaluates the missing
    attribute. *)
Lemma SchemaAnalyzer_analyze_list_raises (x y : json) (l : list json) (max_depth : Z) :
  0 < max_depth ->
  SchemaAnalyzer._analyze_structure (JList (x :: y :: l)) max_depth = Raises "AttributeError".
Proof.
  intros Hd.
  destruct (SchemaAnalyzer._analyze_structure (JList (x :: y :: l)) max_depth) as [s|e] eqn:E.
  - exfalso. revert E. cbn [SchemaAnalyzer._analyze_structure].
    destruct (max_depth <=? 0) eqn:Hle; [lia|].
    destruct (omap _ (x :: y :: l)) as [items|e0] eqn:Eo; cbn [obind]; [|discriminate].
    apply omap_length in Eo. destruct items as [|first [|second others]]; try discriminate.
  - f_equal. eapply SchemaAnalyzer_analyze_raises_AttributeError. exact E.
Qed.

(** C1. Class SchemaAnalyzer raises on well-formed input: analyzing the list
    [[1, 2]] with the default depth raises [AttributeError], and so does the
    merge of two array nodes, because both evaluate the attribute
    [self._merge_structures], which the class does not define. *)
Theorem C1_schema_analyzer_raises :
  SchemaAnalyzer._analyze_structure (JList [JInt 1; JInt 2]) 10 = Raises "AttributeError"
  /\ SchemaAnalyzer.merge_structures (array (leaf "string")) (array (leaf "string"))
     = Raises "AttributeError".
Proof. split; reflexivity. Qed.

(** ** The analyzer on [None] *)

Lemma analyze_kind_cases (obj : json) (max_depth : Z) :
  In (s_type (MockDataGenerator._analyze_structure obj max_depth))
     [Some "object"; Some "array"; Some "string"; Some "number"; Some "boolean"].
Proof.
  destruct obj as [| | | | |[|x l]|d]; cbn [MockDataGenerator._analyze_structure];
    destruct (max_depth <=? 0); cbn; tauto.
Qed.

(** C2, as the code has it. For every depth budget greater than zero, both
    analyzers classify [None] as a string leaf: the tests are, in order,
    mapping, sequence, boolean, number, string, and every other value falls
    to string. No document is given the kind null. *)
Theorem C2_null_is_string_leaf (max_depth : Z) :
  0 < max_depth ->
  MockDataGenerator._analyze_structure JNull max_depth = leaf "string"
  /\ SchemaAnalyzer._analyze_structure JNull max_depth = Returns (leaf "string")
  /\ forall obj, s_type (MockDataGenerator._analyze_structure obj max_depth) <> Some "null".
Proof.
  intros Hd. cbn. destruct (max_depth <=? 0) eqn:E; [lia|].
  repeat split. intros obj H.
  pose proof (analyze_kind_cases obj max_depth) as Hk. rewrite H in Hk.
  cbn in Hk. intuition discriminate.
Qed.

Lemma C2_null_is_string_leaf_witness :
  MockDataGenerator._analyze_structure JNull 10 = leaf "string"
  /\ SchemaAnalyzer._analyze_structure JNull 10 = Returns (leaf "string")
  /\ forall obj, s_type (MockDataGenerator._analyze_structure obj 10) <> Some "null".
Proof. apply (C2_null_is_string_leaf 10). lia. Defined.

(** C2, as stated, fails: with the default depth budget the analysis of
    [None] is not a leaf of kind null. *)
Lemma C2_null_leaf_counterexample :
  0 < 10
  /\ MockDataGenerator._analyze_structure JNull 10 <> leaf "null"
  /\ SchemaAnalyzer._analyze_structure JNull 10 <> Returns (leaf "null").
Proof. split; [lia|split; discriminate]. Qed.

(** ** The merger on two objects *)

Lemma merge_objects (a b : node) :
  s_type a = Some "object" -> s_type b = Some "object" ->
  MockDataGenerator._merge_structures a b
  = object (merge_loop (get_properties b) (get_properties a)).
Proof.
  intros Ha Hb. rewrite _merge_structures_eq. unfold MockDataGenerator.merge_body.
  assert (Hd : type_differs a b = false).
  { destruct (type_differs a b) eqn:E; [|reflexivity].
    apply type_differs_spec in E. congruence. }
  apply type_is_spec in Ha. now rewrite Hd, Ha.
Qed.

Lemma merge_loop_get (props2 : dict node) :
  keys_unique (dict_keys props2) = true ->
  forall props1 name,
    dict_get name (merge_loop props2 props1) = merged_property props1 props2 name.
Proof.
  unfold merge_loop, merged_property.
  induction props2 as [|[key value] rest IH]; intros Hu props1 name.
  - cbn. now destruct (dict_get name props1).
  - unfold dict_keys in Hu. cbn [map fst] in Hu.
    apply keys_unique_cons in Hu as [Hnin Hu].
    cbn [fold_left]. rewrite (IH Hu). cbn [dict_get].
    destruct (String.eqb name key) eqn:E.
    + apply String.eqb_eq in E. subst name.
      apply dict_get_None_keys in Hnin. rewrite Hnin.
      destruct (dict_get key props1); now rewrite dict_get_set_eq.
    + apply String.eqb_neq in E.
      assert (Hget : forall v, dict_get name (dict_set key v props1) = dict_get name props1)
        by (intros v; apply dict_get_set_ne; congruence).
      destruct (dict_get key props1); now rewrite Hget.
Qed.

(** C5. The merge of two object nodes (the second with distinct property
    names, as every dict has) is an object node; a name is among its
    properties exactly when it is among those of [a] or of [b]; a name of
    both sides maps to the merge of the two values and a name of one side to
    that side's value. The merge of the analyses of [{"a": 1}] and
    [{"b": "x"}] is the object with [a] of kind number and [b] of kind
    string. *)
Theorem C5_merge_objects_union (a b : node) :
  s_type a = Some "object" -> s_type b = Some "object" ->
  keys_unique (dict_keys (get_properties b)) = true ->
  exists merged_props,
    MockDataGenerator._merge_structures a b = object merged_props
    /\ (forall name,
          In name (dict_keys merged_props)
          <-> In name (dict_keys (get_properties a)) \/ In name (dict_keys (get_properties b)))
    /\ (forall name,
          dict_get name merged_props
          = merged_property (get_properties a) (get_properties b) name)
    /\ MockDataGenerator._merge_structures
         (MockDataGenerator._analyze_structure (JDict [("a", JInt 1)]) 10)
         (MockDataGenerator._analyze_structure (JDict [("b", JStr "x")]) 10)
       = object [("a", leaf "number"); ("b", leaf "string")].
Proof.
  intros Ha Hb Hu. exists (merge_loop (get_properties b) (get_properties a)).
  split; [now apply merge_objects|].
  pose proof (merge_loop_get _ Hu (get_properties a)) as Hget.
  split; [|split; [exact Hget|reflexivity]].
  intros name. rewrite !dict_get_Some_keys, Hget. unfold merged_property.
  destruct (dict_get name (get_properties a)) as [x|],
           (dict_get name (get_properties b)) as [y|]; split; eauto;
    try (intros [[v [=]]|[v [=]]]); try (intros [v [=]]).
Qed.

Lemma C5_merge_objects_union_witness :
  exists merged_props,
    MockDataGenerator._merge_structures
      (object [("a", leaf "number"); ("c", leaf "string")])
      (object [("b", leaf "string"); ("c", leaf "boolean")]) = object merged_props
    /\ dict_get "a" merged_props = Some (leaf "number")
    /\ dict_get "b" merged_props = Some (leaf "string")
    /\ dict_get "c" merged_props = Some (leaf "boolean").
Proof.
  destruct (C5_merge_objects_union
              (object [("a", leaf "number"); ("c", leaf "string")])
              (object [("b", leaf "string"); ("c", leaf "boolean")])
              eq_refl eq_refl eq_refl) as (merged_props & Hm & _ & Hget & _).
  exists merged_props. split; [exact Hm|].
  rewrite !Hget. repeat split.
Defined.

(** ** The merge of a node with itself *)

Lemma type_differs_refl (s : node) : type_differs s s = false.
Proof.
  destruct (type_differs s s) eqn:E; [|reflexivity].
  apply type_differs_spec in E. congruence.
Qed.

Lemma merge_loop_fixed (props2 merged_props : dict node) :
  (forall key value, In (key, value) props2 ->
     dict_get key merged_props = Some value
     /\ MockDataGenerator._merge_structures value value = value) ->
  merge_loop props2 merged_props = merged_props.
Proof.
  unfold merge_loop. induction props2 as [|[key value] rest IH]; intros H; [reflexivity|].
  cbn [fold_left]. destruct (H key value) as [Hget Hm]; [now left|].
  rewrite Hget, Hm, (dict_set_same _ _ _ Hget).
  apply IH. intros k v Hin. apply H. now right.
Qed.

(** C6, as the code has it. The merge of a node with itself is that node
    when every object node in it has the keys type and properties only, with
    distinct property names, and every array node the keys type and items
    only: these are the nodes that the analyzer and the merger build. An
    object or array node is rebuilt by the merger from its kind and its
    payload, so the annotations that such a node carries are not in the
    result. *)
Theorem C6_merge_idempotent_on_plain (x : node) :
  plain x = true -> MockDataGenerator._merge_structures x x = x.
Proof.
  induction x as [t po ov|t props po ov IH|t items po ov IH|t props items po ov IH1 IH2]
    using node_ind; intros Hp; rewrite _merge_structures_eq;
    unfold MockDataGenerator.merge_body; rewrite type_differs_refl;
    cbn [plain] in Hp;
    match goal with |- context [type_is "object" ?s] => destruct (type_is "object" s) eqn:Eo end;
    try discriminate;
    try (match goal with |- context [type_is "array" ?s] => destruct (type_is "array" s) eqn:Ea end);
    try discriminate; try reflexivity.
  - destruct po, ov; try discriminate.
    apply andb_true_iff in Hp as [Hu Hall].
    apply type_is_spec in Eo. cbn [s_type] in Eo. subst t.
    unfold object. f_equal. f_equal.
    change (merge_loop props props = props). apply merge_loop_fixed.
    intros key value Hin. split; [now apply dict_get_unique|].
    rewrite List.Forall_forall in IH. apply (IH (key, value) Hin).
    rewrite forallb_forall in Hall. exact (Hall (key, value) Hin).
  - destruct po, ov; try discriminate.
    apply type_is_spec in Ea. cbn [s_type] in Ea. subst t.
    change (get_items (leaf "string") (Schema (Some "array") None (Some items) None None))
      with items.
    now rewrite IH.
Qed.

Lemma C6_merge_idempotent_on_plain_witness :
  MockDataGenerator._merge_structures
    (array (object [("a", leaf "number"); ("b", array (leaf "string"))]))
    (array (object [("a", leaf "number"); ("b", array (leaf "string"))]))
  = array (object [("a", leaf "number"); ("b", array (leaf "string"))]).
Proof. apply C6_merge_idempotent_on_plain. reflexivity. Defined.

(** C6, as stated, fails on an annotated node: with the examples
    [[{"status": {"code": 1}}]], the annotator marks the object under
    [status] as preserved; the merge of the annotated schema with itself
    holds that object without the marks. *)
Lemma C6_merge_idempotent_counterexample :
  let x := SchemaAnalyzer._add_preserved_field_info
             (MockDataGenerator._analyze_structure
                (JDict [("status", JDict [("code", JInt 1)])]) 10)
             [JDict [("status", JDict [("code", JInt 1)])]] in
  x = object [("status",
               Schema (Some "object") (Some [("code", leaf "number")]) None
                      (Some true) (Some [JDict [("code", JInt 1)]]))]
  /\ MockDataGenerator._merge_structures x x
     = object [("status", object [("code", leaf "number")])]
  /\ MockDataGenerator._merge_structures x x <> x.
Proof. cbv zeta. split; [reflexivity|split; [reflexivity|discriminate]]. Qed.

(** ** The stored values are the field values without duplicates *)

Lemma extract_collect (field_name : string) (examples : list json) :
  _extract_original_values field_name examples
  = collect [] (field_values field_name examples).
Proof.
  unfold _extract_original_values.
  enough (H : forall values,
             fold_left (fun values example =>
                          match example with
                          | JDict d =>
                              match dict_get field_name d with
                              | Some value =>
                                  if negb (py_in value values) then values ++ [value]
                                  else values
                              | None => values
                              end
                          | _ => values
                          end) examples values
             = collect values (field_values field_name examples)) by apply H.
  unfold collect.
  induction examples as [|example rest IH]; intros values; [reflexivity|].
  cbn [fold_left field_values].
  destruct example as [| | | | | |d]; try apply IH.
  destruct (dict_get field_name d) as [value|]; [|apply IH].
  cbn [fold_left]. apply IH.
Qed.

Lemma filter_length_le {A} (p : A -> bool) (l : list A) :
  (length (List.filter p l) <= length l)%nat.
Proof.
  induction l as [|x l IH]; cbn; [lia|]. destruct (p x); cbn; lia.
Qed.

Lemma dedup_first_fuel_enough (fuel1 fuel2 : nat) (values : list json) :
  (length values <= fuel1)%nat -> (length values <= fuel2)%nat ->
  dedup_first_fuel fuel1 values = dedup_first_fuel fuel2 values.
Proof.
  revert fuel2 values.
  induction fuel1 as [|fuel1 IH]; intros fuel2 values H1 H2.
  - destruct values; [|cbn in H1; lia]. now destruct fuel2.
  - destruct values as [|v rest]; [now destruct fuel2|].
    destruct fuel2 as [|fuel2]; [cbn in H2; lia|].
    cbn in H1, H2. cbn [dedup_first_fuel]. f_equal.
    pose proof (filter_length_le (fun w => negb (py_eq v w)) rest).
    apply IH; lia.
Qed.

(** The equations of [dedup_first]. *)
Lemma dedup_first_cons (v : json) (rest : list json) :
  dedup_first (v :: rest)
  = v :: dedup_first (List.filter (fun w => negb (py_eq v w)) rest).
Proof.
  unfold dedup_first. cbn [length dedup_first_fuel]. f_equal.
  apply dedup_first_fuel_enough; [apply filter_length_le|lia].
Qed.

Lemma filter_filter {A} (p q : A -> bool) (l : list A) :
  List.filter p (List.filter q l) = List.filter (fun x => q x && p x) l.
Proof.
  induction l as [|x l IH]; [reflexivity|]. cbn.
  destruct (q x); cbn; [destruct (p x)|]; now rewrite IH.
Qed.

Lemma collect_dedup (new values : list json) :
  collect values new
  = values ++ dedup_first (List.filter (fun w => negb (py_in w values)) new).
Proof.
  remember (length new) as n eqn:Hn.
  assert (Hle : (length new <= n)%nat) by lia. clear Hn.
  revert new values Hle.
  induction n as [|n IH]; intros new values Hle.
  - destruct new; [|cbn in Hle; lia]. cbn. now rewrite app_nil_r.
  - destruct new as [|w new]; [cbn; now rewrite app_nil_r|].
    cbn in Hle. unfold collect. cbn [fold_left List.filter].
    destruct (negb (py_in w values)) eqn:Ek.
    + fold (collect (values ++ [w]) new). rewrite IH by lia.
      rewrite dedup_first_cons, filter_filter, <- app_assoc. cbn [app].
      do 3 f_equal. apply List.filter_ext. intros x.
      unfold py_in. rewrite existsb_app. cbn [existsb].
      rewrite orb_false_r, negb_orb. reflexivity.
    + fold (collect values new). apply IH. lia.
Qed.

(** [_extract_original_values] computes the values of the field across the
    mapping examples, without duplicates, in the order of first occurrence. *)
Lemma extract_original_values_dedup (field_name : string) (examples : list json) :
  _extract_original_values field_name examples
  = dedup_first (field_values field_name examples).
Proof.
  rewrite extract_collect, collect_dedup. cbn [app]. f_equal.
  induction (field_values field_name examples) as [|v l IH]; [reflexivity|].
  cbn [List.filter]. unfold py_in at 1. cbn [existsb negb]. now f_equal.
Qed.

(** No stored value equals an earlier stored value. *)
Lemma dedup_first_distinct (values : list json) (i j : nat) (x y : json) :
  nth_error (dedup_first values) i = Some x ->
  nth_error (dedup_first values) j = Some y ->
  (i < j)%nat -> py_eq x y = false.
Proof.
  remember (length values) as n eqn:Hn.
  assert (Hle : (length values <= n)%nat) by lia. clear Hn.
  revert values i j Hle.
  induction n as [|n IH]; intros values i j Hle Hi Hj Hlt.
  - destruct values; [|cbn in Hle; lia]. now destruct i.
  - destruct values as [|v rest]; [now destruct i|].
    rewrite dedup_first_cons in Hi, Hj. cbn in Hle.
    pose proof (filter_length_le (fun w => negb (py_eq v w)) rest) as Hf.
    destruct j as [|j]; [lia|]. cbn [nth_error] in Hj.
    destruct i as [|i]; cbn [nth_error] in Hi.
    + injection Hi as <-. apply nth_error_In in Hj.
      assert (Hsub : forall m z, In z (dedup_first m) -> In z m).
      { clear. intros m. remember (length m) as k eqn:Hk.
        assert (Hle : (length m <= k)%nat) by lia. clear Hk. revert m Hle.
        induction k as [|k IHk]; intros m Hle z.
        - destruct m; [tauto|cbn in Hle; lia].
        - destruct m as [|u m]; [tauto|]. rewrite dedup_first_cons. cbn in Hle.
          intros [->|Hin]; [now left|]. right.
          pose proof (filter_length_le (fun w => negb (py_eq u w)) m).
          apply IHk in Hin; [|lia]. apply filter_In in Hin. tauto. }
      apply Hsub, filter_In in Hj. destruct Hj as [_ Hj].
      now apply negb_true_iff in Hj.
    + apply (IH (List.filter (fun w => negb (py_eq v w)) rest) i j);
        [lia|assumption|assumption|lia].
Qed.

(** ** The annotation of the properties of an object node *)

Lemma annotated_properties (preserve : string -> bool) (structure : node)
    (examples : list json) (properties : dict node) :
  s_type structure = Some "object" -> s_properties structure = Some properties ->
  _add_preserved_field_info preserve structure examples
  = set_properties
      (map (fun '(field_name, field_structure) =>
              (field_name,
               annotate_field preserve (_add_preserved_field_info preserve) examples
                              field_name field_structure)) properties)
      structure.
Proof.
  intros Ht Hp. rewrite _add_preserved_field_info_eq. unfold annotate_body.
  apply type_is_spec in Ht. rewrite Ht. unfold update_properties. now rewrite Hp.
Qed.

Lemma update_items_keeps (f : node -> node) (s : node) :
  s_type (update_items f s) = s_type s
  /\ s_preserve_original (update_items f s) = s_preserve_original s
  /\ s_original_values (update_items f s) = s_original_values s.
Proof. unfold update_items. destruct (s_items s); auto. Qed.

(** The recursive part of the loop body leaves the marks of the field. *)
Lemma annotate_field_keeps (preserve : string -> bool) (examples : list json)
    (field_name : string) (field_structure : node) :
  let marked := mark_preserved preserve field_name examples field_structure in
  let annotated := annotate_field preserve (_add_preserved_field_info preserve) examples
                                  field_name field_structure in
  s_type annotated = s_type field_structure
  /\ s_preserve_original annotated = s_preserve_original marked
  /\ s_original_values annotated = s_original_values marked.
Proof.
  cbv zeta. unfold annotate_field.
  assert (Ht : s_type (mark_preserved preserve field_name examples field_structure)
               = s_type field_structure).
  { unfold mark_preserved. destruct (preserve field_name); [|reflexivity].
    destruct (truthy _); reflexivity. }
  set (marked := mark_preserved preserve field_name examples field_structure) in *.
  destruct (type_is "object" marked).
  - destruct (truthy _); [|auto].
    destruct (_add_preserved_field_info_keeps preserve marked
                (nested_examples field_name examples)) as (H1 & H2 & H3).
    rewrite H1, H2, H3. auto.
  - destruct (type_is "array" marked); [|auto].
    destruct (truthy _); [|auto].
    destruct (update_items_keeps
                (fun items_structure =>
                   _add_preserved_field_info preserve items_structure
                     (array_examples field_name examples)) marked) as (H1 & H2 & H3).
    rewrite H1, H2, H3. auto.
Qed.

(** C7. In the annotation of an object node, the property at every position
    keeps its name; when the name is in the preserve set, the annotated
    child has [preserve_original] true, and its [original_values] are the
    values of the field across the mapping examples, without duplicates by
    [==] and in the order of first occurrence, when there is at least one
    such value; when there is none, the key [original_values] is left as it
    was. With the preserve set [{"status"}] and the examples
    [[{"status": "active"}, {"status": "pending"}, {"status": "active"}]],
    the child [status] of the schema of the examples holds
    [["active", "pending"]]. *)
Theorem C7_preserved_field_annotation (preserve : string -> bool) (structure : node)
    (examples : list json) (properties : dict node) (i : nat) (name : string)
    (child : node) :
  s_type structure = Some "object" -> s_properties structure = Some properties ->
  nth_error properties i = Some (name, child) -> preserve name = true ->
  (exists properties' child',
      s_properties (_add_preserved_field_info preserve structure examples)
      = Some properties'
      /\ nth_error properties' i = Some (name, child')
      /\ s_preserve_original child' = Some true
      /\ s_original_values child'
         = (if truthy (dedup_first (field_values name examples))
            then Some (dedup_first (field_values name examples))
            else s_original_values child))
  /\ (let examples := [JDict [("status", JStr "active")];
                       JDict [("status", JStr "pending")];
                       JDict [("status", JStr "active")]] in
      let annotated :=
        object [("status", Schema (Some "string") None None (Some true)
                                  (Some [JStr "active"; JStr "pending"]))] in
      MockDataGenerator._add_preserved_field_info ["status"]
        (fold_left (fun base example =>
                      MockDataGenerator._merge_structures base
                        (MockDataGenerator._analyze_structure example 10))
                   (tl examples)
                   (MockDataGenerator._analyze_structure (hd JNull examples) 10))
        examples = annotated
      /\ SchemaAnalyzer._add_preserved_field_info
           (object [("status", leaf "string")]) examples = annotated).
Proof.
  intros Ht Hp Hnth Hpres. split; [|split; reflexivity].
  rewrite (annotated_properties _ _ _ _ Ht Hp). unfold set_properties. cbn [s_properties].
  eexists _, _. split; [reflexivity|]. split.
  { rewrite nth_error_map, Hnth. reflexivity. }
  destruct (annotate_field_keeps preserve examples name child) as (_ & H2 & H3).
  rewrite H2, H3. unfold mark_preserved. rewrite Hpres.
  rewrite extract_original_values_dedup.
  destruct (truthy _); split; reflexivity.
Qed.

Lemma C7_preserved_field_annotation_witness :
  exists properties' child',
    s_properties (SchemaAnalyzer._add_preserved_field_info
                    (object [("name", leaf "string"); ("status", leaf "number")])
                    [JDict [("status", JInt 1)]; JStr "x"; JDict [("status", JBool true)];
                     JDict [("name", JStr "n")]; JDict [("status", JInt 2)]])
    = Some properties'
    /\ nth_error properties' 1 = Some ("status", child')
    /\ s_preserve_original child' = Some true
    /\ s_original_values child' = Some [JInt 1; JInt 2].
Proof.
  destruct (C7_preserved_field_annotation SchemaAnalyzer._should_preserve_field
              (object [("name", leaf "string"); ("status", leaf "number")])
              [JDict [("status", JInt 1)]; JStr "x"; JDict [("status", JBool true)];
               JDict [("name", JStr "n")]; JDict [("status", JInt 2)]]
              [("name", leaf "string"); ("status", leaf "number")]
              1%nat "status" (leaf "number") eq_refl eq_refl eq_refl eq_refl)
    as [(properties' & child' & H1 & H2 & H3 & H4) _].
  exists properties', child'. repeat split; assumption.
Defined.

(** ** Nested objects are annotated from the values under their own name *)








(** ** The cache of class SchemaAnalyzer *)

Lemma analyze_structure_stores (content_key : list json -> string)
    (examples : list json) (cache_key : option string)
    (cache cache1 : SchemaCache.t) (stored : node) :
  examples <> [] ->
  SchemaAnalyzer.analyze_structure content_key examples cache_key cache
  = (Returns stored, cache1) ->
  SchemaCache.get_schema (SchemaAnalyzer.key_of content_key examples cache_key) cache1
  = Some stored.
Proof.
  intros Hne. unfold SchemaAnalyzer.analyze_structure.
  destruct examples as [|first others]; [congruence|]. cbn [truthy negb].
  set (key := SchemaAnalyzer.key_of content_key (first :: others) cache_key).
  destruct (SchemaCache.get_schema key cache) as [cached|] eqn:Hget.
  - intros [= <- <-]. exact Hget.
  - destruct (SchemaAnalyzer.compute (first :: others)) as [base|e]; [|discriminate].
    intros [= <- <-]. unfold SchemaCache.get_schema, SchemaCache.set_schema.
    apply lookup_insert_eq.
Qed.

Lemma analyze_structure_hit (content_key : list json -> string)
    (examples : list json) (cache_key : option string)
    (cache : SchemaCache.t) (stored : node) :
  examples <> [] ->
  SchemaCache.get_schema (SchemaAnalyzer.key_of content_key examples cache_key) cache
  = Some stored ->
  SchemaAnalyzer.analyze_structure content_key examples cache_key cache
  = (Returns stored, cache).
Proof.
  intros Hne Hget. unfold SchemaAnalyzer.analyze_structure.
  destruct examples as [|first others]; [congruence|]. cbn [truthy negb].
  now rewrite Hget.
Qed.

(** C9, as the code has it. After a call of [analyze_structure] on a
    non-empty corpus has returned a node, a second call with the same corpus
    and the same key argument (a key, the empty key or none) returns that
    node and leaves the cache as it is; and when the key is not the empty
    string, so does a second call with that key and any other non-empty
    corpus, whatever the pipeline would do on it. An empty key is replaced by
    the key derived from the content of the corpus. *)
Theorem C9_second_call_returns_cached (content_key : list json -> string)
    (examples1 examples2 : list json) (cache_key : option string)
    (cache cache1 : SchemaCache.t) (stored : node) :
  examples1 <> [] -> examples2 <> [] ->
  SchemaAnalyzer.analyze_structure content_key examples1 cache_key cache
  = (Returns stored, cache1) ->
  SchemaAnalyzer.analyze_structure content_key examples1 cache_key cache1
  = (Returns stored, cache1)
  /\ (forall key, cache_key = Some key -> key <> "" ->
        SchemaAnalyzer.analyze_structure content_key examples2 cache_key cache1
        = (Returns stored, cache1)).
Proof.
  intros Hne1 Hne2 Hfirst.
  pose proof (analyze_structure_stores _ _ _ _ _ _ Hne1 Hfirst) as Hget.
  split; [now apply analyze_structure_hit|].
  intros key -> Hkey. apply analyze_structure_hit; [exact Hne2|].
  revert Hget. unfold SchemaAnalyzer.key_of.
  destruct (String.eqb key "") eqn:E; [|tauto].
  apply String.eqb_eq in E. contradiction.
Qed.

Lemma C9_second_call_returns_cached_witness :
  let first := SchemaAnalyzer.analyze_structure first_names_key
                 [JDict [("a", JInt 1)]] (Some "fp") SchemaCache.init in
  fst first = Returns (object [("a", leaf "number")])
  /\ SchemaAnalyzer.compute [JDict [("b", JStr "x")]; JDict [("c", JNull)]]
     = Raises "AttributeError"
  /\ SchemaAnalyzer.analyze_structure first_names_key
       [JDict [("b", JStr "x")]; JDict [("c", JNull)]] (Some "fp") (snd first)
     = (Returns (object [("a", leaf "number")]), snd first).
Proof.
  cbv zeta. split; [reflexivity|]. split; [reflexivity|].
  assert (H1 : [JDict [("a", JInt 1)]] <> []) by discriminate.
  assert (H2 : [JDict [("b", JStr "x")]; JDict [("c", JNull)]] <> []) by discriminate.
  refine (proj2 (C9_second_call_returns_cached first_names_key
                   [JDict [("a", JInt 1)]] _ (Some "fp") SchemaCache.init _ _
                   H1 H2 _) "fp" eq_refl _); [reflexivity|discriminate].
Defined.

(** C9, as stated, fails for the empty key: the first call stores the
    schema of [[{"a": 1}]] under the key of its content, and the second call,
    with the same (empty) key and the corpus [[{"b": "x"}]], computes and
    returns the schema of that corpus. *)
Lemma C9_empty_key_counterexample :
  let first := SchemaAnalyzer.analyze_structure first_names_key
                 [JDict [("a", JInt 1)]] (Some "") SchemaCache.init in
  let second := SchemaAnalyzer.analyze_structure first_names_key
                  [JDict [("b", JStr "x")]] (Some "") (snd first) in
  fst first = Returns (object [("a", leaf "number")])
  /\ fst second = Returns (object [("b", leaf "string")])
  /\ fst second <> fst first.
Proof.
  cbv zeta.
  assert (H1 : fst (SchemaAnalyzer.analyze_structure first_names_key
                      [JDict [("a", JInt 1)]] (Some "") SchemaCache.init)
               = Returns (object [("a", leaf "number")])) by (vm_compute; reflexivity).
  assert (H2 : fst (SchemaAnalyzer.analyze_structure first_names_key
                      [JDict [("b", JStr "x")]] (Some "")
                      (snd (SchemaAnalyzer.analyze_structure first_names_key
                              [JDict [("a", JInt 1)]] (Some "") SchemaCache.init)))
               = Returns (object [("b", leaf "string")])) by (vm_compute; reflexivity).
  rewrite H1, H2. split; [reflexivity|]. split; [reflexivity|discriminate].
Qed.

(** ** Well-formed nodes *)

Lemma forallb_dict_set {A} (p : A -> bool) (k : string) (v : A) (d : dict A) :
  forallb (fun kv => p (snd kv)) d = true -> p v = true ->
  forallb (fun kv => p (snd kv)) (dict_set k v d) = true.
Proof.
  intros Hd Hv. induction d as [|[k' v'] d IH]; cbn.
  - now rewrite Hv.
  - cbn in Hd. apply andb_true_iff in Hd as [H1 H2].
    destruct (String.eqb k k'); cbn; [now rewrite Hv|].
    rewrite H1. now apply IH.
Qed.

Lemma forallb_dict_get {A} (p : A -> bool) (k : string) (v : A) (d : dict A) :
  forallb (fun kv => p (snd kv)) d = true -> dict_get k d = Some v -> p v = true.
Proof.
  induction d as [|[k' v'] d IH]; cbn; [discriminate|].
  intros Hd. apply andb_true_iff in Hd as [H1 H2].
  destruct (String.eqb k k'); [now intros [= <-]|now apply IH].
Qed.

Lemma well_formed_object (s : node) :
  s_type s = Some "object" ->
  well_formed s = match s_properties s with
                  | Some p => forallb (fun kv => well_formed (snd kv)) p
                  | None => false
                  end.
Proof. destruct s as [t props items po ov]. cbn. now intros ->. Qed.

Lemma well_formed_array (s : node) :
  s_type s = Some "array" ->
  well_formed s = match s_items s with Some i => well_formed i | None => false end.
Proof. destruct s as [t props items po ov]. cbn. now intros ->. Qed.

Lemma well_formed_object_node (props : dict node) :
  well_formed (object props) = forallb (fun kv => well_formed (snd kv)) props.
Proof. reflexivity. Qed.

Lemma well_formed_array_node (items : node) :
  well_formed (array items) = well_formed items.
Proof. reflexivity. Qed.

Lemma node_ind_get (P : node -> Prop) :
  (forall s, Forall (fun kv => P (snd kv)) (get_properties s) ->
             (forall i, s_items s = Some i -> P i) -> P s) ->
  forall s, P s.
Proof.
  intros H. induction s using node_ind; apply H; cbn; auto; try discriminate;
    try (intros i [= <-]; assumption).
Qed.

Lemma type_same (s1 s2 : node) : type_differs s1 s2 = false -> s_type s1 = s_type s2.
Proof.
  intros H. destruct (option_eq_dec (s_type s1) (s_type s2)) as [E|E]; [exact E|].
  apply type_differs_spec in E. congruence.
Qed.

Lemma well_formed_properties (s : node) :
  well_formed s = true -> s_type s = Some "object" ->
  forallb (fun kv => well_formed (snd kv)) (get_properties s) = true.
Proof.
  intros Hw Ht. rewrite (well_formed_object s Ht) in Hw. unfold get_properties.
  destruct (s_properties s); [exact Hw|discriminate].
Qed.

Lemma well_formed_items (s : node) :
  well_formed s = true -> s_type s = Some "array" ->
  exists i, s_items s = Some i /\ well_formed i = true.
Proof.
  intros Hw Ht. rewrite (well_formed_array s Ht) in Hw.
  destruct (s_items s) as [i|]; [eauto|discriminate].
Qed.

Lemma merge_loop_well_formed (props2 : dict node) :
  Forall (fun kv => forall a, well_formed a = true -> well_formed (snd kv) = true ->
                  well_formed (MockDataGenerator._merge_structures a (snd kv)) = true)
         props2 ->
  forallb (fun kv => well_formed (snd kv)) props2 = true ->
  forall merged_props,
    forallb (fun kv => well_formed (snd kv)) merged_props = true ->
    forallb (fun kv => well_formed (snd kv)) (merge_loop props2 merged_props) = true.
Proof.
  unfold merge_loop.
  induction props2 as [|[key value] rest IHrest]; intros IH Hpb merged_props Hpa;
    [exact Hpa|].
  cbn [fold_left]. cbn in Hpb. apply andb_true_iff in Hpb as [Hv Hrest].
  apply Forall_cons in IH as [IHv IHr].
  apply IHrest; [exact IHr|exact Hrest|].
  destruct (dict_get key merged_props) as [m|] eqn:Hget.
  - apply forallb_dict_set; [exact Hpa|]. apply IHv; [|exact Hv].
    exact (forallb_dict_get _ _ _ _ Hpa Hget).
  - now apply forallb_dict_set.
Qed.

(** The merger preserves well-formedness. *)
Lemma merge_well_formed (b : node) :
  forall a, well_formed a = true -> well_formed b = true ->
            well_formed (MockDataGenerator._merge_structures a b) = true.
Proof.
  induction b as [b IHp IHi] using node_ind_get. intros a Ha Hb.
  rewrite _merge_structures_eq. unfold MockDataGenerator.merge_body.
  destruct (type_differs a b) eqn:Hd.
  { now destruct (negb (type_is "string" a)). }
  apply type_same in Hd.
  destruct (type_is "object" a) eqn:Ho.
  { apply type_is_spec in Ho. rewrite well_formed_object_node.
    apply merge_loop_well_formed; [exact IHp| |].
    - apply well_formed_properties; congruence.
    - now apply well_formed_properties. }
  destruct (type_is "array" a) eqn:Hr; [|exact Ha].
  apply type_is_spec in Hr. rewrite well_formed_array_node.
  destruct (well_formed_items a Ha Hr) as (ia & Hia & Hwa).
  destruct (well_formed_items b Hb) as (ib & Hib & Hwb); [congruence|].
  unfold get_items. rewrite Hia, Hib. cbn. now apply IHi.
Qed.

Lemma fold_merge_well_formed (others : list node) (first : node) :
  well_formed first = true -> Forall (fun s => well_formed s = true) others ->
  well_formed (fold_left MockDataGenerator._merge_structures others first) = true.
Proof.
  revert first. induction others as [|s others IH]; intros first Hf Ho; [exact Hf|].
  apply Forall_cons in Ho as [Hs Ho]. cbn. apply IH; [|exact Ho].
  now apply merge_well_formed.
Qed.

(** Every node that [_analyze_structure] of class MockDataGenerator returns
    is well formed. *)
Lemma analyze_well_formed (obj : json) :
  forall max_depth,
    well_formed (MockDataGenerator._analyze_structure obj max_depth) = true.
Proof.
  induction obj as [| | | | |l IH|d IH] using json_ind; intros max_depth;
    cbn [MockDataGenerator._analyze_structure]; destruct (max_depth <=? 0);
    try reflexivity.
  - destruct l as [|x l]; [reflexivity|].
    cbn [map]. rewrite well_formed_array_node.
    apply Forall_cons in IH as [Hx Hl].
    apply fold_merge_well_formed; [apply Hx|].
    induction Hl as [|y l Hy Hl IHl]; cbn [map]; constructor; [apply Hy|exact IHl].
  - rewrite well_formed_object_node.
    assert (Hacc : forallb (fun kv => well_formed (snd kv)) (@nil (string * node)) = true)
      by reflexivity.
    revert Hacc. generalize (@nil (string * node)) as properties.
    induction IH as [|[key value] d Hv Hd IHd]; intros properties Hacc; [exact Hacc|].
    cbn [fold_left]. apply IHd. apply forallb_dict_set; [exact Hacc|apply Hv].
Qed.

Lemma ofold_invariant {A B} (Inv : A -> Prop) (f : A -> B -> outcome A)
    (l : list B) (a r : A) :
  Inv a ->
  (forall a x a', In x l -> Inv a -> f a x = Returns a' -> Inv a') ->
  ofold f l a = Returns r -> Inv r.
Proof.
  revert a. induction l as [|x l IH]; cbn; intros a Ha Hf.
  - now intros [= <-].
  - destruct (f a x) as [a'|e] eqn:E; cbn; [|discriminate].
    apply IH; [eapply Hf; eauto|]. intros a0 y a1 Hy. apply Hf. now right.
Qed.

Lemma omap_returns {A B} (P : B -> Prop) (f : A -> outcome B) (l : list A) (ys : list B) :
  (forall x y, In x l -> f x = Returns y -> P y) ->
  omap f l = Returns ys -> Forall P ys.
Proof.
  revert ys. induction l as [|x l IH]; cbn; intros ys Hf.
  - intros [= <-]. constructor.
  - destruct (f x) as [y|] eqn:E; cbn; [|discriminate].
    destruct (omap f l) as [ys'|]; cbn; [|discriminate].
    intros [= <-]. constructor; [eapply Hf; eauto|]. apply IH; [|reflexivity].
    intros x' y' Hx'. apply Hf. now right.
Qed.

(** Every node that [_analyze_structure] of class SchemaAnalyzer returns is
    well formed. *)
Lemma SchemaAnalyzer_analyze_well_formed (obj : json) :
  forall max_depth s,
    SchemaAnalyzer._analyze_structure obj max_depth = Returns s -> well_formed s = true.
Proof.
  induction obj as [|b|n|q|str|l IH|d IH] using json_ind; intros max_depth s;
    cbn [SchemaAnalyzer._analyze_structure]; destruct (max_depth <=? 0);
    try (intros [= <-]; reflexivity).
  - destruct l as [|x l]; [intros [= <-]; reflexivity|].
    destruct (omap _ (x :: l)) as [items|] eqn:Eo; cbn [obind]; [|discriminate].
    apply (omap_returns (fun s => well_formed s = true)) in Eo.
    2:{ intros y sy Hy. rewrite List.Forall_forall in IH. apply (IH y Hy). }
    destruct items as [|first others]; [intros [= <-]; reflexivity|].
    destruct others as [|second others]; [|discriminate].
    cbn. intros [= <-]. rewrite well_formed_array_node.
    now apply Forall_cons in Eo as [Hf _].
  - destruct (ofold _ d []) as [properties|] eqn:Ef; cbn [obind]; [|discriminate].
    intros [= <-]. rewrite well_formed_object_node.
    revert Ef.
    apply (ofold_invariant (fun p => forallb (fun kv => well_formed (snd kv)) p = true));
      [reflexivity|].
    intros acc [key value] acc' Hin Hacc.
    destruct (SchemaAnalyzer._analyze_structure value (max_depth - 1)) as [sv|] eqn:Ev;
      cbn [obind]; [|discriminate].
    intros [= <-]. apply forallb_dict_set; [exact Hacc|].
    rewrite List.Forall_forall in IH. exact (IH (key, value) Hin _ _ Ev).
Qed.

(** Every node that [merge_structures] of class SchemaAnalyzer returns on
    well-formed nodes is well formed. *)
Lemma SchemaAnalyzer_merge_well_formed (a b s : node) :
  well_formed a = true -> well_formed b = true ->
  SchemaAnalyzer.merge_structures a b = Returns s -> well_formed s = true.
Proof.
  intros Ha Hb. unfold SchemaAnalyzer.merge_structures.
  destruct (type_differs a b) eqn:Hd.
  { intros [= <-]. now destruct (negb (type_is "string" a)). }
  apply type_same in Hd.
  destruct (type_is "object" a) eqn:Ho.
  { apply type_is_spec in Ho.
    destruct (ofold _ (get_properties b) (get_properties a)) as [merged_props|] eqn:Ef;
      cbn [obind]; [|discriminate].
    intros [= <-]. rewrite well_formed_object_node.
    revert Ef.
    apply (ofold_invariant (fun p => forallb (fun kv => well_formed (snd kv)) p = true));
      [now apply well_formed_properties|].
    intros acc [key value] acc' Hin Hacc.
    destruct (dict_get key acc); [discriminate|].
    intros [= <-]. apply forallb_dict_set; [exact Hacc|].
    assert (Hpb : forallb (fun kv => well_formed (snd kv)) (get_properties b) = true)
      by (apply well_formed_properties; congruence).
    rewrite forallb_forall in Hpb. exact (Hpb (key, value) Hin). }
  destruct (type_is "array" a); [discriminate|]. now intros [= <-].
Qed.

(** C10. Every node that the analyzers return is well formed, and the
    mergers return a well-formed node on well-formed nodes: the kind is one
    of object, array, string, number, boolean, a node of kind object has
    properties whose values are well formed, and a node of kind array has
    well-formed items. So is the schema that the analysis of the first
    example, merged in turn with the analyses of the other examples, gives:
    no node of it has a kind without its payload. *)
Theorem C10_pipeline_well_formed :
  (forall obj max_depth,
      well_formed (MockDataGenerator._analyze_structure obj max_depth) = true)
  /\ (forall a b, well_formed a = true -> well_formed b = true ->
                  well_formed (MockDataGenerator._merge_structures a b) = true)
  /\ (forall first others max_depth,
        well_formed
          (fold_left (fun base_structure response =>
                        MockDataGenerator._merge_structures base_structure
                          (MockDataGenerator._analyze_structure response max_depth))
                     others (MockDataGenerator._analyze_structure first max_depth)) = true)
  /\ (forall obj max_depth s,
        SchemaAnalyzer._analyze_structure obj max_depth = Returns s -> well_formed s = true)
  /\ (forall a b s, well_formed a = true -> well_formed b = true ->
                    SchemaAnalyzer.merge_structures a b = Returns s ->
                    well_formed s = true).
Proof.
  split; [intros; apply analyze_well_formed|].
  split; [intros; now apply merge_well_formed|].
  split; [|split].
  2:{ intros obj max_depth s. apply SchemaAnalyzer_analyze_well_formed. }
  2:{ intros a b s. apply SchemaAnalyzer_merge_well_formed. }
  intros first others max_depth.
  generalize (analyze_well_formed first max_depth).
  generalize (MockDataGenerator._analyze_structure first max_depth) as base_structure.
  induction others as [|response others IH]; intros base_structure Hb; [exact Hb|].
  cbn [fold_left]. apply IH. apply merge_well_formed; [exact Hb|].
  apply analyze_well_formed.
Qed.

Lemma C10_pipeline_well_formed_witness :
  well_formed (MockDataGenerator._merge_structures
                 (object [("a", array (leaf "number"))])
                 (object [("a", array (leaf "string")); ("b", leaf "boolean")])) = true
  /\ well_formed (array (leaf "number")) = true.
Proof.
  split.
  - apply (proj1 (proj2 C10_pipeline_well_formed)); reflexivity.
  - apply (proj1 (proj2 (proj2 (proj2 C10_pipeline_well_formed)))
             (JList [JInt 1]) 10 (array (leaf "number"))).
    reflexivity.
Defined.

(** ** The value synthesizer *)

Section SynthesisFacts.

Variable rng : Type.
Variable random_below : nat -> rng -> nat * rng.
Variable randint : Z -> Z -> rng -> Z * rng.
Variable random_amount : rng -> Q * rng.
Variable _generate_mock_string : string -> rng -> json * rng.
Variable _generate_mock_number : string -> rng -> json * rng.
Variable lower : string -> string.

(** [random._randbelow(n)] is below [n]. *)
Hypothesis random_below_lt :
  forall n r, (0 < n)%nat -> (fst (random_below n r) < n)%nat.

Local Abbreviation gen := (MockDataGenerator.gen rng).
Local Abbreviation gbind := (MockDataGenerator.gbind rng).
Local Abbreviation gret := (MockDataGenerator.gret rng).
Local Abbreviation glift := (MockDataGenerator.glift rng).
Local Abbreviation random_choice := (MockDataGenerator.random_choice rng random_below).
Local Abbreviation gtimes := (MockDataGenerator.gtimes rng).
Local Abbreviation gfold := (MockDataGenerator.gfold rng).
Local Abbreviation preserved_or := (MockDataGenerator.preserved_or rng random_below).
Local Abbreviation mock_property :=
  (MockDataGenerator.mock_property rng random_below randint random_amount lower).
Local Abbreviation generate_body :=
  (MockDataGenerator.generate_body rng random_below randint random_amount
     _generate_mock_string _generate_mock_number lower).
Local Abbreviation generate_mock_value :=
  (MockDataGenerator.generate_mock_value rng random_below randint random_amount
     _generate_mock_string _generate_mock_number lower).
Local Abbreviation returns := (MockDataGenerator.returns rng).

Lemma gbind_ext {A B} (m1 m2 : gen A) (f g : A -> gen B) (r : rng) :
  m1 r = m2 r -> (forall a r', f a r' = g a r') -> gbind m1 f r = gbind m2 g r.
Proof.
  intros Hm H. unfold MockDataGenerator.gbind. rewrite Hm.
  destruct (m2 r) as [[a|e] r']; [apply H|reflexivity].
Qed.

Lemma gtimes_ext {A} (n : nat) (m1 m2 : gen A) :
  (forall r, m1 r = m2 r) -> forall r, gtimes n m1 r = gtimes n m2 r.
Proof.
  intros H. induction n as [|n IH]; intros r; [reflexivity|].
  cbn [MockDataGenerator.gtimes]. apply gbind_ext; [apply H|].
  intros a r'. apply gbind_ext; [apply IH|reflexivity].
Qed.

(** The structural definition satisfies the equation of the source body. *)
Lemma generate_mock_value_eq (schema : node) (field_name : string) (r : rng) :
  generate_mock_value schema field_name r
  = generate_body generate_mock_value schema field_name r.
Proof.
  destruct schema as [t props items po ov].
  cbn [MockDataGenerator.generate_mock_value]. unfold MockDataGenerator.generate_body.
  unfold MockDataGenerator.preserved_or.
  assert (Hkind :
    (if String.eqb (default "string" t) "string" then glift (_generate_mock_string field_name)
     else if String.eqb (default "string" t) "number" then glift (_generate_mock_number field_name)
     else if String.eqb (default "string" t) "boolean" then random_choice [JBool true; JBool false]
     else if String.eqb (default "string" t) "array" then
       gbind (glift (randint 1 5)) (fun array_length =>
       gbind (gtimes (Z.to_nat array_length)
                match items with
                | Some items_schema => generate_mock_value items_schema field_name
                | None => glift (_generate_mock_string field_name)
                end) (fun items => gret (JList items)))
     else if String.eqb (default "string" t) "object" then
       match props with
       | Some properties =>
           gbind
             ((fix loop (properties : dict node) (mock_object : dict json) : gen (dict json) :=
                 match properties with
                 | [] => gret mock_object
                 | (prop_name, prop_schema) :: rest =>
                     gbind
                       (gbind (mock_property generate_mock_value field_name prop_name prop_schema)
                              (fun v => gret (dict_set prop_name v mock_object)))
                       (fun mock_object => loop rest mock_object)
                 end) properties [])
             (fun mock_object => gret (JDict mock_object))
       | None => gbind (gret []) (fun mock_object => gret (JDict mock_object))
       end
     else glift (_generate_mock_string field_name)) r
    = (if String.eqb (default "string" t) "string" then glift (_generate_mock_string field_name)
       else if String.eqb (default "string" t) "number" then glift (_generate_mock_number field_name)
       else if String.eqb (default "string" t) "boolean" then random_choice [JBool true; JBool false]
       else if String.eqb (default "string" t) "array" then
         MockDataGenerator._generate_mock_array rng randint generate_mock_value
           (Schema t props items po ov) field_name
       else if String.eqb (default "string" t) "object" then
         MockDataGenerator._generate_mock_object rng random_below randint random_amount lower
           generate_mock_value (Schema t props items po ov) field_name
       else glift (_generate_mock_string field_name)) r).
  { destruct (String.eqb _ "string"); [reflexivity|].
    destruct (String.eqb _ "number"); [reflexivity|].
    destruct (String.eqb _ "boolean"); [reflexivity|].
    destruct (String.eqb _ "array").
    { unfold MockDataGenerator._generate_mock_array.
      apply gbind_ext; [reflexivity|]. intros n r'.
      apply gbind_ext; [|reflexivity]. apply gtimes_ext. intros r''. now destruct items. }
    destruct (String.eqb _ "object"); [|reflexivity].
    unfold MockDataGenerator._generate_mock_object.
    destruct props as [properties|]; [|reflexivity].
    apply gbind_ext; [|reflexivity].
    change (get_properties (Schema t (Some properties) items po ov)) with properties.
    generalize (@nil (string * json)) as mock_object. revert r.
    induction properties as [|[prop_name prop_schema] rest IH]; intros r mock_object;
      [reflexivity|].
    cbn [MockDataGenerator.gfold]. apply gbind_ext; [reflexivity|].
    intros a r'. apply IH. }
  cbn [s_preserve_original s_original_values s_type].
  destruct (default false po); [destruct (truthy _); [reflexivity|]|]; exact Hkind.
Qed.

Lemma returns_gret {A} (a : A) : returns (gret a).
Proof. intros r. now exists a, r. Qed.

Lemma returns_glift {A} (f : rng -> A * rng) : returns (glift f).
Proof.
  intros r. unfold MockDataGenerator.glift. destruct (f r) as [a r']. now exists a, r'.
Qed.

Lemma returns_gbind {A B} (m : gen A) (f : A -> gen B) :
  returns m -> (forall a, returns (f a)) -> returns (gbind m f).
Proof.
  intros Hm Hf r. unfold MockDataGenerator.gbind.
  destruct (Hm r) as (a & r' & ->). apply Hf.
Qed.

(** [random.choice] returns an element of a sequence that is not empty. *)
Lemma returns_random_choice {A} (seq : list A) :
  truthy seq = true -> returns (random_choice seq).
Proof.
  destruct seq as [|x seq]; [discriminate|]. intros _ r.
  unfold MockDataGenerator.random_choice, MockDataGenerator.gbind, MockDataGenerator.glift.
  pose proof (random_below_lt (length (x :: seq)) r) as Hlt.
  destruct (random_below (length (x :: seq)) r) as [i r']. cbn [fst] in Hlt.
  destruct (nth_error (x :: seq) i) as [y|] eqn:E.
  - now exists y, r'.
  - apply nth_error_None in E. cbn [length] in *. lia.
Qed.

Lemma returns_gtimes {A} (n : nat) (m : gen A) : returns m -> returns (gtimes n m).
Proof.
  intros Hm. induction n as [|n IH]; [apply returns_gret|].
  cbn [MockDataGenerator.gtimes]. apply returns_gbind; [exact Hm|]. intros a.
  apply returns_gbind; [exact IH|]. intros xs. apply returns_gret.
Qed.

Lemma returns_gfold {A B} (f : A -> B -> gen A) (l : list B) :
  (forall a x, In x l -> returns (f a x)) -> forall a, returns (gfold f l a).
Proof.
  induction l as [|x l IH]; intros Hf a; [apply returns_gret|].
  cbn [MockDataGenerator.gfold]. apply returns_gbind; [apply Hf; now left|].
  intros a'. apply IH. intros a0 y Hy. apply Hf. now right.
Qed.

(** The choice among the stored values is guarded by their truth value. *)
Lemma returns_preserved_or (schema : node) (otherwise : gen json) :
  returns otherwise -> returns (preserved_or schema otherwise).
Proof.
  intros Ho. unfold MockDataGenerator.preserved_or.
  destruct (default false _); [|exact Ho].
  destruct (truthy _) eqn:E; [|exact Ho]. now apply returns_random_choice.
Qed.

Lemma returns_mock_property (self : node -> string -> gen json)
    (field_name prop_name : string) (prop_schema : node) :
  returns (self prop_schema prop_name) ->
  returns (mock_property self field_name prop_name prop_schema).
Proof.
  intros Hs. unfold MockDataGenerator.mock_property. apply returns_preserved_or.
  repeat match goal with
         | |- returns (if ?c then _ else _) => destruct c
         end;
    try exact Hs; try (apply returns_random_choice; reflexivity);
    try apply returns_gret;
    (apply returns_gbind; [apply returns_glift|intros; apply returns_gret]).
Qed.

Lemma returns_ext {A} (m1 m2 : gen A) :
  (forall r, m1 r = m2 r) -> returns m2 -> returns m1.
Proof. intros H Hm r. rewrite H. apply Hm. Qed.

(** [generate_mock_value] returns a value on every node. *)
Lemma generate_mock_value_returns (schema : node) :
  forall field_name, returns (generate_mock_value schema field_name).
Proof.
  induction schema as [schema IHp IHi] using node_ind_get. intros field_name.
  apply (returns_ext _ _ (generate_mock_value_eq schema field_name)).
  unfold MockDataGenerator.generate_body. apply returns_preserved_or.
  repeat match goal with
         | |- returns (if ?c then _ else _) => destruct c
         end;
    try apply returns_glift; try (apply returns_random_choice; reflexivity).
  - unfold MockDataGenerator._generate_mock_array.
    apply returns_gbind; [apply returns_glift|]. intros n.
    apply returns_gbind; [|intros; apply returns_gret].
    apply returns_gtimes. unfold get_items.
    destruct (s_items schema) as [i|] eqn:E; [now apply IHi|].
    apply (returns_ext _ _ (generate_mock_value_eq _ field_name)).
    apply returns_glift.
  - unfold MockDataGenerator._generate_mock_object.
    apply returns_gbind; [|intros; apply returns_gret].
    apply returns_gfold. intros mock_object [prop_name prop_schema] Hin.
    apply returns_gbind; [|intros; apply returns_gret].
    apply returns_mock_property.
    rewrite List.Forall_forall in IHp. apply (IHp (prop_name, prop_schema) Hin).
Qed.

End SynthesisFacts.

(** C3, as stated, fails: the node [{"type": "object"}], of kind object
    without a properties map, is synthesized as the empty mapping; no
    exception is raised. *)
Lemma C3_malformed_object_counterexample :
  s_type (leaf "object") = Some "object"
  /\ s_properties (leaf "object") = None
  /\ well_formed (leaf "object") = false
  /\ FirstChoice.generate_mock_value (leaf "object") "" O = (Returns (JDict []), O)
  /\ fst (FirstChoice.generate_mock_value (leaf "object") "" O)
     <> Raises "SchemaMalformedError".
Proof. repeat split. discriminate. Qed.

(** ** The depth guard *)

Lemma height_properties (s : node) (kv : string * node) :
  In kv (get_properties s) -> (S (height (snd kv)) <= height s)%nat.
Proof.
  destruct s as [t [p|] items po ov]; cbn [get_properties s_properties default];
    [|intros []].
  change (default [] (Some p)) with p. cbn [height].
  intros Hin. apply Nat.le_trans with
    (fold_right (fun kv h => Nat.max (S (height (snd kv))) h) O p); [|apply Nat.le_max_l].
  induction p as [|kv' p IH]; [destruct Hin|].
  cbn [fold_right]. destruct Hin as [->|Hin]; [apply Nat.le_max_l|].
  apply Nat.le_trans with (2 := Nat.le_max_r _ _). now apply IH.
Qed.

Lemma height_items (s i : node) :
  s_items s = Some i -> (S (height i) <= height s)%nat.
Proof.
  destruct s as [t p items po ov]. cbn [s_items]. intros ->. cbn [height].
  apply Nat.le_max_r.
Qed.

Lemma height_object (props : dict node) (n : nat) :
  (forall kv, In kv props -> (S (height (snd kv)) <= n)%nat) ->
  (height (object props) <= n)%nat.
Proof.
  intros H. cbn [height object]. rewrite Nat.max_0_r.
  induction props as [|kv props IH]; cbn [fold_right]; [lia|].
  apply Nat.max_lub; [apply H; now left|]. apply IH. intros kv' Hin. apply H. now right.
Qed.

Lemma height_array (items : node) : height (array items) = S (height items).
Proof. reflexivity. Qed.

Lemma low_spec (n : nat) (s : node) :
  low n s = true <-> well_formed s = true /\ (S (height s) <= n)%nat.
Proof. unfold low. now rewrite andb_true_iff, Nat.leb_le. Qed.

Lemma low_properties (n : nat) (s : node) :
  well_formed s = true -> s_type s = Some "object" -> (height s <= n)%nat ->
  forallb (fun kv => low n (snd kv)) (get_properties s) = true.
Proof.
  intros Hw Ht Hh. pose proof (well_formed_properties s Hw Ht) as Hp.
  rewrite forallb_forall in *. intros kv Hin. apply low_spec. split; [now apply Hp|].
  pose proof (height_properties s kv Hin). lia.
Qed.

(** The merger does not go deeper than its operands. *)
Lemma merge_height (b : node) :
  forall a n, well_formed a = true -> well_formed b = true ->
              (height a <= n)%nat -> (height b <= n)%nat ->
              (height (MockDataGenerator._merge_structures a b) <= n)%nat.
Proof.
  induction b as [b IHp IHi] using node_ind_get. intros a n Ha Hb Hha Hhb.
  rewrite _merge_structures_eq. unfold MockDataGenerator.merge_body.
  destruct (type_differs a b) eqn:Hd.
  { now destruct (negb (type_is "string" a)). }
  apply type_same in Hd.
  destruct (type_is "object" a) eqn:Ho.
  { apply type_is_spec in Ho.
    assert (Hpa := low_properties n a Ha Ho Hha).
    assert (Hpb := low_properties n b Hb ltac:(congruence) Hhb).
    apply height_object.
    enough (Hall : forallb (fun kv => low n (snd kv))
                     (merge_loop (get_properties b) (get_properties a)) = true).
    { intros kv Hin. rewrite forallb_forall in Hall. now apply low_spec, Hall. }
    revert Hpa. unfold merge_loop. generalize (get_properties a) as merged_props.
    induction (get_properties b) as [|[key value] rest IHrest]; intros merged_props Hpa;
      [exact Hpa|].
    cbn [fold_left]. cbn [forallb] in Hpb. apply andb_true_iff in Hpb as [Hv Hrest].
    apply Forall_cons in IHp as [IHv IHr]. cbn [snd] in IHv, Hv.
    apply IHrest; [exact IHr|exact Hrest|].
    destruct (dict_get key merged_props) as [m|] eqn:Hget;
      (apply forallb_dict_set; [exact Hpa|]); [|exact Hv].
    apply (forallb_dict_get (low n) _ _ _ Hpa) in Hget.
    apply low_spec in Hget as [Hwm Hhm]. apply low_spec in Hv as [Hwv Hhv].
    apply low_spec. split; [now apply merge_well_formed|].
    destruct n as [|n]; [lia|]. apply le_n_S. apply IHv; [assumption|assumption|lia|lia]. }
  destruct (type_is "array" a) eqn:Hr; [|exact Hha].
  apply type_is_spec in Hr. rewrite height_array.
  destruct (well_formed_items a Ha Hr) as (ia & Hia & Hwa).
  destruct (well_formed_items b Hb) as (ib & Hib & Hwb); [congruence|].
  unfold get_items. rewrite Hia, Hib. cbn [default].
  pose proof (height_items a ia Hia). pose proof (height_items b ib Hib).
  destruct n as [|n]; [lia|]. apply le_n_S.
  change (from_option id (leaf "string") (Some ia)) with ia.
  change (from_option id (leaf "string") (Some ib)) with ib.
  apply (IHi ib Hib ia n Hwa Hwb); lia.
Qed.

(** Depth guard: the analysis of any document with the depth budget
    [max_depth] is no deeper than [max_depth] levels. *)
Lemma analyze_height (obj : json) :
  forall max_depth,
    (height (MockDataGenerator._analyze_structure obj max_depth) <= Z.to_nat max_depth)%nat.
Proof.
  induction obj as [|b|n|q|str|l IH|d IH] using json_ind; intros max_depth;
    cbn [MockDataGenerator._analyze_structure]; destruct (max_depth <=? 0) eqn:Hd;
    try (cbn; lia).
  - apply Z.leb_gt in Hd.
    destruct l as [|x l]; [cbn; lia|]. cbn [map]. rewrite height_array.
    replace (Z.to_nat max_depth) with (S (Z.to_nat (max_depth - 1))) by lia.
    apply le_n_S. apply Forall_cons in IH as [Hx Hl].
    generalize (Hx (max_depth - 1)) (analyze_well_formed x (max_depth - 1)).
    generalize (MockDataGenerator._analyze_structure x (max_depth - 1)) as first.
    induction Hl as [|y l Hy Hl IHl]; intros first Hh Hw; [exact Hh|].
    cbn [map fold_left]. apply IHl.
    + apply merge_height; [exact Hw|apply analyze_well_formed|exact Hh|apply Hy].
    + apply merge_well_formed; [exact Hw|apply analyze_well_formed].
  - apply Z.leb_gt in Hd. apply height_object.
    replace (Z.to_nat max_depth) with (S (Z.to_nat (max_depth - 1))) by lia.
    enough (Hall : forall properties,
               (forall kv, In kv properties ->
                           (S (height (snd kv)) <= S (Z.to_nat (max_depth - 1)))%nat) ->
               forall kv,
                 In kv (fold_left (fun properties '(key, value) =>
                                     dict_set key
                                       (MockDataGenerator._analyze_structure value (max_depth - 1))
                                       properties) d properties) ->
                 (S (height (snd kv)) <= S (Z.to_nat (max_depth - 1)))%nat).
    { apply Hall. intros kv []. }
    induction IH as [|[key value] d Hv Hd' IHd]; intros properties Hp; [exact Hp|].
    cbn [fold_left]. apply IHd. intros kv Hin.
    assert (Hset : forall (p : dict node) k v kv,
               In kv (dict_set k v p) -> In kv p \/ snd kv = v).
    { clear. induction p as [|[k' v'] p IHp]; cbn; intros k v kv.
      - intros [<-|[]]. now right.
      - destruct (String.eqb k k'); cbn.
        + intros [<-|H]; [now right|left; now right].
        + intros [<-|H]; [left; now left|]. apply IHp in H as [H|H]; [left; now right|now right]. }
    apply Hset in Hin as [Hin | ->]; [now apply Hp|]. apply le_n_S, Hv.
Qed.

(** Where [_analyze_structure] of class SchemaAnalyzer returns, it returns
    what [_analyze_structure] of class MockDataGenerator returns. *)
Lemma SchemaAnalyzer_analyze_agrees (obj : json) :
  forall max_depth s,
    SchemaAnalyzer._analyze_structure obj max_depth = Returns s ->
    s = MockDataGenerator._analyze_structure obj max_depth.
Proof.
  induction obj as [|b|n|q|str|l IH|d IH] using json_ind; intros max_depth s;
    cbn [SchemaAnalyzer._analyze_structure MockDataGenerator._analyze_structure];
    destruct (max_depth <=? 0); try (now intros [= <-]).
  - destruct l as [|x l]; [now intros [= <-]|].
    destruct (omap _ (x :: l)) as [items|] eqn:Eo; cbn [obind]; [|discriminate].
    pose proof (omap_length _ _ _ Eo) as Hlen.
    destruct items as [|first [|second others]]; [discriminate| |discriminate].
    destruct l as [|y l]; [|discriminate].
    cbn in Eo |- *. intros [= <-]. f_equal.
    destruct (SchemaAnalyzer._analyze_structure x (max_depth - 1)) as [sx|] eqn:Ex;
      [|discriminate].
    cbn in Eo. injection Eo as <-. apply Forall_cons in IH as [Hx _]. now apply Hx.
  - destruct (ofold _ d []) as [properties|] eqn:Ef; cbn [obind]; [|discriminate].
    intros [= <-]. f_equal. revert Ef. generalize (@nil (string * node)) as acc.
    induction IH as [|[key value] d Hv Hd IHd]; intros acc; cbn [ofold fold_left].
    + now intros [= <-].
    + destruct (SchemaAnalyzer._analyze_structure value (max_depth - 1)) as [sv|] eqn:Ev;
        cbn [obind]; [|discriminate].
      apply Hv in Ev. cbn [snd] in Ev. subst sv. apply IHd.
Qed.

(** Depth guard, class SchemaAnalyzer: a returned node is no deeper than the
    depth budget. *)
Lemma SchemaAnalyzer_analyze_height (obj : json) (max_depth : Z) (s : node) :
  SchemaAnalyzer._analyze_structure obj max_depth = Returns s ->
  (height s <= Z.to_nat max_depth)%nat.
Proof.
  intros H. apply SchemaAnalyzer_analyze_agrees in H. subst s. apply analyze_height.
Qed.

(** A document nested 1000 levels deep, analyzed with the budget 10. *)
Example analyze_nest_1000 :
  SchemaAnalyzer._analyze_structure (nest 1000) 10
  = Returns (MockDataGenerator._analyze_structure (nest 1000) 10)
  /\ height (MockDataGenerator._analyze_structure (nest 1000) 10) = 10%nat.
Proof. split; vm_compute; reflexivity. Qed.

(** ** The synthesizer on documents and on nodes *)

Section UntypedFacts.

Variable rng : Type.
Variable random_below : nat -> rng -> nat * rng.
Variable randint : Z -> Z -> rng -> Z * rng.
Variable random_amount : rng -> Q * rng.
Variable _generate_mock_string : string -> rng -> json * rng.
Variable _generate_mock_number : string -> rng -> json * rng.
Variable lower : string -> string.
Variable iso8601 : rng -> string * rng.
Variable choice_of_str : string -> rng -> string * rng.

(** [random._randbelow(n)] is below [n]. *)
Hypothesis random_below_lt :
  forall n r, (0 < n)%nat -> (fst (random_below n r) < n)%nat.

Local Abbreviation gen := (MockDataGenerator.gen rng).
Local Abbreviation on_nodes :=
  (MockDataGenerator.generate_mock_value rng random_below randint random_amount
     _generate_mock_string _generate_mock_number lower).
Local Abbreviation on_documents :=
  (Untyped.generate_mock_value rng random_below randint random_amount
     _generate_mock_string _generate_mock_number lower choice_of_str).
Local Abbreviation drawn_or := (Untyped.drawn_or rng random_below choice_of_str).
Local Abbreviation preserved_or := (MockDataGenerator.preserved_or rng random_below).

Lemma to_document_keys (s : node) :
  exists d,
    to_document s = JDict d
    /\ dict_get "type" d = option_map JStr (s_type s)
    /\ dict_get "properties" d
       = option_map (fun p => JDict (map (fun kv => (fst kv, to_document (snd kv))) p))
                    (s_properties s)
    /\ dict_get "items" d = option_map to_document (s_items s)
    /\ dict_get "preserve_original" d = option_map JBool (s_preserve_original s)
    /\ dict_get "original_values" d = option_map JList (s_original_values s).
Proof.
  destruct s as [t p i po ov]. eexists. split; [reflexivity|].
  destruct t, p, i, po, ov; repeat split; reflexivity.
Qed.

Lemma drawn_or_to_document (s : node) (otherwise : gen json) (r : rng) :
  drawn_or (to_document s) otherwise r = preserved_or s otherwise r.
Proof.
  destruct (to_document_keys s) as (d & -> & _ & _ & _ & Hpo & Hov).
  unfold Untyped.drawn_or, Untyped.get, MockDataGenerator.preserved_or.
  unfold MockDataGenerator.gbind at 1. cbn [MockDataGenerator.gret]. rewrite Hpo.
  destruct (s_preserve_original s) as [[|]|]; cbn [option_map from_option id py_truthy];
    try reflexivity.
  unfold MockDataGenerator.gbind at 1. cbn [MockDataGenerator.gret]. rewrite Hov.
  destruct (s_original_values s) as [[|v l]|]; reflexivity.
Qed.

Lemma preserved_or_ext (s : node) (o1 o2 : gen json) (r : rng) :
  (forall r, o1 r = o2 r) -> preserved_or s o1 r = preserved_or s o2 r.
Proof.
  intros H. unfold MockDataGenerator.preserved_or.
  destruct (default false _); [|apply H]. destruct (truthy _); [reflexivity|apply H].
Qed.

Lemma gfold_map_ext {A B C} (g : B -> C) (f1 : A -> C -> gen A) (f2 : A -> B -> gen A)
    (l : list B) :
  (forall a x r, In x l -> f1 a (g x) r = f2 a x r) ->
  forall a r,
    MockDataGenerator.gfold rng f1 (map g l) a r = MockDataGenerator.gfold rng f2 l a r.
Proof.
  induction l as [|x l IH]; intros H a r; [reflexivity|].
  cbn [map MockDataGenerator.gfold]. unfold MockDataGenerator.gbind.
  rewrite (H a x r (or_introl eq_refl)). destruct (f2 a x r) as [[a'|e] r']; [|reflexivity].
  apply IH. intros a0 y r0 Hy. apply H. now right.
Qed.

(** On the document of a node, within the recursion limit, the synthesizer
    is what [MockDataGenerator.generate_mock_value] is on the node. *)
Lemma untyped_agrees (s : node) :
  forall limit field_name r,
    (height s + 2 <= limit)%nat ->
    on_documents limit (to_document s) field_name r = on_nodes s field_name r.
Proof.
  induction s as [s IHp IHi] using node_ind_get. intros limit field_name r Hl.
  destruct limit as [|limit]; [lia|].
  cbn [Untyped.generate_mock_value].
  rewrite (generate_mock_value_eq rng random_below randint random_amount
             _generate_mock_string _generate_mock_number lower).
  unfold MockDataGenerator.generate_body.
  rewrite drawn_or_to_document. apply preserved_or_ext. clear r. intros r.
  destruct (to_document_keys s) as (d & Hd & Ht & Hp & Hi & _ & _).
  rewrite Hd. unfold Untyped.get at 1. unfold MockDataGenerator.gbind at 1.
  cbn [MockDataGenerator.gret]. rewrite Ht.
  assert (Hkind : default (JStr "string") (option_map JStr (s_type s))
                  = JStr (default "string" (s_type s))) by (now destruct (s_type s)).
  rewrite Hkind. cbn [py_eq].
  destruct (String.eqb _ "string"); [reflexivity|].
  destruct (String.eqb _ "number"); [reflexivity|].
  destruct (String.eqb _ "boolean"); [reflexivity|].
  destruct (String.eqb _ "array").
  { unfold Untyped._generate_mock_array, MockDataGenerator._generate_mock_array.
    unfold Untyped.get. unfold MockDataGenerator.gbind at 1. cbn [MockDataGenerator.gret].
    rewrite Hi.
    apply gbind_ext; [reflexivity|]. intros n r1.
    apply gbind_ext; [|reflexivity]. apply gtimes_ext. intros r2.
    unfold get_items. destruct (s_items s) as [i|] eqn:Ei; cbn [option_map from_option id].
    - apply (IHi i eq_refl). pose proof (height_items s i Ei). lia.
    - destruct limit as [|limit]; [lia|]. reflexivity. }
  destruct (String.eqb _ "object"); [|reflexivity].
  unfold Untyped._generate_mock_object, MockDataGenerator._generate_mock_object.
  unfold Untyped.get. unfold MockDataGenerator.gbind at 1. cbn [MockDataGenerator.gret].
  rewrite Hp. unfold get_properties.
  assert (Hprops : default (JDict []) (option_map
                     (fun p => JDict (map (fun kv => (fst kv, to_document (snd kv))) p))
                     (s_properties s))
                   = JDict (map (fun kv => (fst kv, to_document (snd kv)))
                                (default [] (s_properties s))))
    by (now destruct (s_properties s)).
  rewrite Hprops. apply gbind_ext; [|reflexivity].
  apply gfold_map_ext. intros mock_object [prop_name prop_schema] r2 Hin. cbn [fst snd].
  apply gbind_ext; [|reflexivity].
  unfold Untyped.mock_property, MockDataGenerator.mock_property.
  rewrite drawn_or_to_document. apply preserved_or_ext. intros r4.
  repeat match goal with
         | |- (if ?c then _ else _) _ = _ => destruct c; [reflexivity|]
         end.
  rewrite List.Forall_forall in IHp. apply (IHp (prop_name, prop_schema) Hin).
  pose proof (height_properties s (prop_name, prop_schema) Hin) as Hh.
  cbn [snd] in Hh |- *. lia.
Qed.

Lemma untyped_not_mapping (limit : nat) (document : json) (field_name : string) (r : rng) :
  is_mapping document = false ->
  on_documents (S limit) document field_name r = (Raises "AttributeError", r).
Proof. destruct document; try discriminate; reflexivity. Qed.

Lemma untyped_properties_not_mapping (limit : nat) (payload : json) (field_name : string)
    (r : rng) :
  is_mapping payload = false ->
  on_documents (S limit) (JDict [("type", JStr "object"); ("properties", payload)])
               field_name r
  = (Raises "AttributeError", r).
Proof. destruct payload; try discriminate; reflexivity. Qed.

Lemma untyped_items_not_mapping (limit : nat) (payload : json) (field_name : string)
    (r : rng) :
  is_mapping payload = false -> 1 <= fst (randint 1 5 r) ->
  on_documents (S (S limit)) (JDict [("type", JStr "array"); ("items", payload)])
               field_name r
  = (Raises "AttributeError", snd (randint 1 5 r)).
Proof.
  intros Hp Hn. cbn [Untyped.generate_mock_value].
  unfold Untyped.drawn_or, Untyped.get. unfold MockDataGenerator.gbind at 1.
  cbn [MockDataGenerator.gret dict_get String.eqb Ascii.eqb Bool.eqb from_option id
       py_truthy].
  unfold MockDataGenerator.gbind at 1.
  cbn [MockDataGenerator.gret dict_get String.eqb Ascii.eqb Bool.eqb from_option id py_eq].
  unfold Untyped._generate_mock_array, Untyped.get.
  unfold MockDataGenerator.gbind at 1.
  cbn [MockDataGenerator.gret dict_get String.eqb Ascii.eqb Bool.eqb from_option id].
  unfold MockDataGenerator.gbind at 1. unfold MockDataGenerator.glift.
  destruct (randint 1 5 r) as [array_length r1]. cbn [fst snd] in *.
  destruct (Z.to_nat array_length) as [|n] eqn:E; [lia|].
  cbn [MockDataGenerator.gtimes]. destruct payload; try discriminate; reflexivity.
Qed.

Lemma untyped_values_number (limit : nat) (n : Z) (field_name : string) (r : rng) :
  n <> 0 ->
  on_documents (S limit)
    (JDict [("preserve_original", JBool true); ("original_values", JInt n)]) field_name r
  = (Raises "TypeError", r).
Proof.
  intros Hn. cbn [Untyped.generate_mock_value].
  unfold Untyped.drawn_or, Untyped.get. unfold MockDataGenerator.gbind at 1.
  cbn [MockDataGenerator.gret dict_get String.eqb Ascii.eqb Bool.eqb from_option id
       py_truthy].
  unfold MockDataGenerator.gbind at 1.
  cbn [MockDataGenerator.gret dict_get String.eqb Ascii.eqb Bool.eqb from_option id
       py_truthy].
  destruct (n =? 0) eqn:E; [apply Z.eqb_eq in E; contradiction|]. reflexivity.
Qed.

(** C3, as the code has it. The synthesizer checks nothing and has no
    [SchemaMalformedError]. A missing key never makes it raise: on the dict
    of every node whose keys, where present, hold a value of their type
    ([type] a string, [properties] a mapping from names to such nodes,
    [items] such a node, [preserve_original] a boolean, [original_values] a
    list), nested within the recursion limit, it returns a value, the one
    that [MockDataGenerator.generate_mock_value] describes; a node of kind
    object without properties (and without stored values to draw from)
    gives the empty mapping, and a node of kind array without items gives
    what the same node with items of kind string gives. A key that holds a
    value of another type is not checked either and fails where it is used:
    a schema, or the [properties] of an object, that is no mapping raises
    [AttributeError]; so do [items] that are no mapping, once an item is
    drawn; [original_values] that are a number raise [TypeError]. *)
Theorem C3_synthesizer_tolerates_missing_keys (schema : node) (limit : nat)
    (field_name : string) (r : rng) :
  (height schema + 2 <= limit)%nat ->
  (exists value r',
      on_documents limit (to_document schema) field_name r = (Returns value, r'))
  /\ on_documents limit (to_document schema) field_name r = on_nodes schema field_name r
  /\ (s_type schema = Some "object" -> s_properties schema = None ->
      s_preserve_original schema = None ->
      on_documents limit (to_document schema) field_name r = (Returns (JDict []), r))
  /\ (s_type schema = Some "array" -> s_items schema = None ->
      on_documents limit (to_document schema) field_name r
      = on_documents limit (to_document (set_items (leaf "string") schema)) field_name r)
  /\ (forall document,
        is_mapping document = false ->
        on_documents limit document field_name r = (Raises "AttributeError", r))
  /\ (forall payload,
        is_mapping payload = false ->
        on_documents limit (JDict [("type", JStr "object"); ("properties", payload)])
                     field_name r
        = (Raises "AttributeError", r))
  /\ (forall payload,
        is_mapping payload = false -> 1 <= fst (randint 1 5 r) ->
        on_documents limit (JDict [("type", JStr "array"); ("items", payload)])
                     field_name r
        = (Raises "AttributeError", snd (randint 1 5 r)))
  /\ (forall n,
        n <> 0 ->
        on_documents limit
          (JDict [("preserve_original", JBool true); ("original_values", JInt n)])
          field_name r
        = (Raises "TypeError", r)).
Proof.
  intros Hl. pose proof (untyped_agrees schema limit field_name r Hl) as Hagree.
  split.
  { rewrite Hagree.
    apply (generate_mock_value_returns rng random_below randint random_amount
             _generate_mock_string _generate_mock_number lower random_below_lt). }
  split; [exact Hagree|]. split; [|split].
  - intros Ht Hp Hpo. rewrite Hagree. destruct schema as [t props items po ov].
    cbn [s_type s_properties s_preserve_original] in Ht, Hp, Hpo. subst. reflexivity.
  - intros Ht Hi. clear Hagree Hl. destruct schema as [t props items po ov].
    cbn [s_type s_items] in Ht, Hi. subst.
    destruct limit as [|limit]; [reflexivity|]. destruct props, po, ov; reflexivity.
  - destruct limit as [|[|limit]]; [lia|lia|].
    split; [intros document; apply untyped_not_mapping|].
    split; [intros payload; apply untyped_properties_not_mapping|].
    split; [intros payload; apply untyped_items_not_mapping|].
    intros n. apply untyped_values_number.
Qed.

End UntypedFacts.

Lemma C3_synthesizer_tolerates_missing_keys_witness :
  (exists value r',
      first_choice_untyped_value 3
        (to_document (Schema (Some "object") None None (Some true) (Some [JStr "kept"])))
        "policy" O
      = (Returns value, r'))
  /\ first_choice_untyped_value 2 (to_document (leaf "object")) "policy" O
     = (Returns (JDict []), O)
  /\ first_choice_untyped_value 2
       (JDict [("type", JStr "object"); ("properties", JNull)]) "policy" O
     = (Raises "AttributeError", O).
Proof.
  assert (Hlt : forall n r, (0 < n)%nat -> (fst (FirstChoice.random_below n r) < n)%nat)
    by (intros n r H; exact H).
  assert (H3 : (height (Schema (Some "object") None None (Some true) (Some [JStr "kept"]))
                + 2 <= 3)%nat) by (cbn; lia).
  assert (H2 : (height (leaf "object") + 2 <= 2)%nat) by (cbn; lia).
  split; [|split].
  - apply (proj1 (C3_synthesizer_tolerates_missing_keys FirstChoice.rng
                    FirstChoice.random_below FirstChoice.randint FirstChoice.random_amount
                    FirstChoice._generate_mock_string FirstChoice._generate_mock_number
                    FirstChoice.lower first_choice_character Hlt
                    (Schema (Some "object") None None (Some true) (Some [JStr "kept"]))
                    3 "policy" O H3)).
  - apply (proj1 (proj2 (proj2 (C3_synthesizer_tolerates_missing_keys FirstChoice.rng
                    FirstChoice.random_below FirstChoice.randint FirstChoice.random_amount
                    FirstChoice._generate_mock_string FirstChoice._generate_mock_number
                    FirstChoice.lower first_choice_character Hlt
                    (leaf "object") 2 "policy" O H2)))); reflexivity.
  - apply (proj1 (proj2 (proj2 (proj2 (proj2 (proj2
             (C3_synthesizer_tolerates_missing_keys FirstChoice.rng
                FirstChoice.random_below FirstChoice.randint FirstChoice.random_amount
                FirstChoice._generate_mock_string FirstChoice._generate_mock_number
                FirstChoice.lower first_choice_character Hlt
                (leaf "object") 2 "policy" O H2))))))). reflexivity.
Defined.

(** * Further properties of the pipeline *)

(** ** Where class SchemaAnalyzer returns *)

Lemma ofold_returns {A B} (f : A -> B -> outcome A) (l : list B) :
  (forall a x, In x l -> exists a', f a x = Returns a') ->
  forall a, exists r, ofold f l a = Returns r.
Proof.
  induction l as [|x l IH]; intros Hf a; cbn; [eauto|].
  destruct (Hf a x) as [a' ->]; [now left|]. cbn.
  apply IH. intros a0 y Hy. apply Hf. now right.
Qed.

Lemma ofold_raises_at {A B} (f : A -> B -> outcome A) (l : list B) (x : B) :
  In x l -> (forall a, exists e, f a x = Raises e) ->
  forall a, exists e, ofold f l a = Raises e.
Proof.
  induction l as [|y l IH]; intros Hin Hx a; [destruct Hin|]. cbn.
  destruct (f a y) as [a'|e] eqn:E; cbn; [|eauto].
  destruct Hin as [->|Hin]; [|now apply IH].
  destruct (Hx a) as [e He]. congruence.
Qed.

Lemma omap_raises_at {A B} (f : A -> outcome B) (l : list A) (x : A) :
  In x l -> (exists e, f x = Raises e) -> exists e, omap f l = Raises e.
Proof.
  induction l as [|y l IH]; intros Hin Hx; [destruct Hin|]. cbn.
  destruct (f y) as [b|e] eqn:E; cbn; [|eauto].
  destruct Hin as [->|Hin]; [destruct Hx as [e He]; congruence|].
  destruct (IH Hin Hx) as [e ->]. cbn. eauto.
Qed.

Lemma SchemaAnalyzer_analyze_returns (obj : json) :
  forall max_depth,
    long_list_within obj max_depth = false ->
    exists s, SchemaAnalyzer._analyze_structure obj max_depth = Returns s.
Proof.
  induction obj as [|b|n|q|str|l IH|d IH] using json_ind; intros max_depth;
    cbn [long_list_within SchemaAnalyzer._analyze_structure];
    destruct (max_depth <=? 0); eauto.
  - intros H. apply orb_false_iff in H as [Hlen Hall].
    destruct l as [|x [|y l]]; [eauto| |discriminate].
    cbn in Hall. apply orb_false_iff in Hall as [Hx _].
    apply Forall_cons in IH as [IHx _]. destruct (IHx _ Hx) as [sx Hsx].
    cbn. rewrite Hsx. cbn. eauto.
  - intros H.
    destruct (ofold_returns
                (fun properties '(key, value) =>
                   do s <- SchemaAnalyzer._analyze_structure value (max_depth - 1);
                   Returns (dict_set key s properties)) d) with (a := @nil (string * node))
      as [properties Hp].
    + intros acc [key value] Hin. rewrite List.Forall_forall in IH.
      destruct (IH (key, value) Hin (max_depth - 1)) as [sv Hsv].
      * cbn [snd]. destruct (long_list_within value (max_depth - 1)) eqn:E; [|reflexivity].
        exfalso. apply not_true_iff_false in H. apply H. apply existsb_exists.
        exists (key, value). now split.
      * cbn [snd] in Hsv. rewrite Hsv. cbn. eauto.
    + rewrite Hp. cbn. eauto.
Qed.

Lemma SchemaAnalyzer_analyze_raises (obj : json) :
  forall max_depth,
    long_list_within obj max_depth = true ->
    exists e, SchemaAnalyzer._analyze_structure obj max_depth = Raises e.
Proof.
  induction obj as [|b|n|q|str|l IH|d IH] using json_ind; intros max_depth;
    cbn [long_list_within]; destruct (max_depth <=? 0) eqn:Hd; try discriminate.
  - apply Z.leb_gt in Hd. intros H. apply orb_true_iff in H as [Hlen|Hex].
    + destruct l as [|x [|y l]]; try discriminate.
      exists "AttributeError". now apply SchemaAnalyzer_analyze_list_raises.
    + apply existsb_exists in Hex as (item & Hin & Hitem).
      rewrite List.Forall_forall in IH. specialize (IH item Hin _ Hitem).
      cbn [SchemaAnalyzer._analyze_structure].
      destruct (max_depth <=? 0) eqn:Hd'; [lia|].
      destruct l as [|x l]; [destruct Hin|].
      destruct (omap_raises_at
                  (fun item => SchemaAnalyzer._analyze_structure item (max_depth - 1))
                  (x :: l) item Hin IH) as [e ->].
      cbn. eauto.
  - intros Hex. apply existsb_exists in Hex as ([key value] & Hin & Hv).
    rewrite List.Forall_forall in IH. specialize (IH (key, value) Hin _ Hv).
    cbn [snd] in IH. cbn [SchemaAnalyzer._analyze_structure]. rewrite Hd.
    destruct (ofold_raises_at
                (fun properties '(key, value) =>
                   do s <- SchemaAnalyzer._analyze_structure value (max_depth - 1);
                   Returns (dict_set key s properties)) d (key, value) Hin) with (a := @nil (string * node))
      as [e ->]; [|cbn; eauto].
    intros acc. destruct IH as [e ->]. cbn. eauto.
Qed.

Lemma levels_height (s : node) : (levels s <= S (height s))%nat.
Proof.
  induction s as [s IHp IHi] using node_ind_get.
  destruct s as [t props items po ov]. cbn [levels height].
  set (lp := match props with
             | Some p => fold_right (fun kv h => Nat.max (levels (snd kv)) h) O p
             | None => O
             end).
  set (hp := match props with
             | Some p => fold_right (fun kv h => Nat.max (S (height (snd kv))) h) O p
             | None => O
             end).
  set (li := match items with Some i => levels i | None => O end).
  set (hi := match items with Some i => S (height i) | None => O end).
  assert (Hp : (lp <= hp)%nat).
  { subst lp hp. destruct props as [p|]; [|lia].
    change (get_properties (Schema t (Some p) items po ov)) with p in IHp.
    clear -IHp. induction IHp as [|kv p Hkv _ IH]; cbn [fold_right]; [lia|].
    cbv beta in Hkv. lia. }
  assert (Hi : (li <= hi)%nat).
  { subst li hi. destruct items as [i|]; [|lia]. exact (IHi i eq_refl). }
  destruct (_ || _); lia.
Qed.

Lemma analyze_no_budget (obj : json) (max_depth : Z) :
  max_depth <= 0 -> MockDataGenerator._analyze_structure obj max_depth = leaf "string".
Proof.
  intros H. apply Z.leb_le in H.
  destruct obj; cbn [MockDataGenerator._analyze_structure]; now rewrite H.
Qed.

Lemma analyze_deep_empty (n : nat) :
  levels (MockDataGenerator._analyze_structure (deep_empty n) (Z.of_nat n + 1))
  = (n + 2)%nat.
Proof.
  induction n as [|n IH]; [reflexivity|].
  cbn [deep_empty MockDataGenerator._analyze_structure].
  destruct (Z.of_nat (S n) + 1 <=? 0) eqn:E; [apply Z.leb_le in E; lia|].
  replace (Z.of_nat (S n) + 1 - 1) with (Z.of_nat n + 1) by lia.
  cbn [fold_left dict_set]. cbn [levels object fold_right snd].
  rewrite IH. cbn. lia.
Qed.

(** X1. Depth guard of [_analyze_structure] of class MockDataGenerator. With
    a budget of zero or less the result is the string leaf, whatever the
    document. Otherwise every path of the returned schema goes down through
    at most [max_depth] property or items links, so through at most
    [max_depth + 1] nested object and array nodes; [max_depth + 1] is
    reached for every budget greater than zero, because a list without items
    is analysed as an array of objects without properties, at no cost to the
    budget. The returned schema is well formed. *)
Theorem X1_analysis_depth_bounded (obj : json) (max_depth : Z) :
  (max_depth <= 0 ->
   MockDataGenerator._analyze_structure obj max_depth = leaf "string")
  /\ (height (MockDataGenerator._analyze_structure obj max_depth)
      <= Z.to_nat max_depth)%nat
  /\ (levels (MockDataGenerator._analyze_structure obj max_depth)
      <= S (Z.to_nat max_depth))%nat
  /\ (forall n,
        levels (MockDataGenerator._analyze_structure (deep_empty n) (Z.of_nat n + 1))
        = S (Z.to_nat (Z.of_nat n + 1)))
  /\ well_formed (MockDataGenerator._analyze_structure obj max_depth) = true.
Proof.
  split; [apply analyze_no_budget|]. split; [apply analyze_height|].
  split; [|split; [|apply analyze_well_formed]].
  - pose proof (levels_height (MockDataGenerator._analyze_structure obj max_depth)).
    pose proof (analyze_height obj max_depth). lia.
  - intros n. rewrite analyze_deep_empty. lia.
Qed.

(** The outcome of [_analyze_structure] of class SchemaAnalyzer. *)
Lemma SchemaAnalyzer_analyze_outcome (obj : json) (max_depth : Z) :
  SchemaAnalyzer._analyze_structure obj max_depth
  = if long_list_within obj max_depth then Raises "AttributeError"
    else Returns (MockDataGenerator._analyze_structure obj max_depth).
Proof.
  destruct (long_list_within obj max_depth) eqn:E.
  - destruct (SchemaAnalyzer_analyze_raises obj max_depth E) as [e He].
    rewrite He. f_equal. now apply SchemaAnalyzer_analyze_raises_AttributeError in He.
  - destruct (SchemaAnalyzer_analyze_returns obj max_depth E) as [s Hs].
    rewrite Hs. f_equal. now apply SchemaAnalyzer_analyze_agrees in Hs.
Qed.

(** X2. [_analyze_structure] of class SchemaAnalyzer raises [AttributeError]
    exactly on the documents that hold a list of two or more items within
    the depth budget; on every other document it returns the schema that
    [_analyze_structure] of class MockDataGenerator returns. *)
Theorem X2_schema_analyzer_outcome (obj : json) (max_depth : Z) :
  SchemaAnalyzer._analyze_structure obj max_depth
  = if long_list_within obj max_depth then Raises "AttributeError"
    else Returns (MockDataGenerator._analyze_structure obj max_depth).
Proof. apply SchemaAnalyzer_analyze_outcome. Qed.

(** ** What the annotator writes and what it keeps *)

Lemma set_annotation_same (s : node) :
  set_annotation (s_preserve_original s) (s_original_values s) s = s.
Proof. now destruct s. Qed.

Lemma mark_preserved_marks (preserve : string -> bool) (examples : list json)
    (field_name : string) (fs : node) :
  mark_preserved preserve field_name examples fs
  = set_annotation (marked_preserve preserve field_name fs)
                   (marked_values preserve examples field_name fs) fs.
Proof.
  unfold mark_preserved, marked_preserve, marked_values.
  destruct (preserve field_name); [|now rewrite set_annotation_same].
  now destruct (truthy _).
Qed.

Lemma type_is_set_annotation (k : string) po ov (s : node) :
  type_is k (set_annotation po ov s) = type_is k s.
Proof. reflexivity. Qed.

Lemma update_items_array (preserve : string -> bool) (examples : list json) (s : node) :
  type_is "array" s = true -> truthy examples = true ->
  update_items (fun items_structure =>
                  _add_preserved_field_info preserve items_structure examples) s
  = _add_preserved_field_info preserve s examples.
Proof.
  intros Ha He. rewrite (_add_preserved_field_info_eq preserve s). unfold annotate_body.
  assert (Ho : type_is "object" s = false).
  { apply type_is_spec in Ha. unfold type_is. now rewrite Ha. }
  now rewrite Ho, Ha, He.
Qed.

(** The loop body, as the marks on the field over what is written below it. *)
Lemma annotate_field_normal (preserve : string -> bool) (examples : list json)
    (field_name : string) (fs : node) :
  annotate_field preserve (_add_preserved_field_info preserve) examples field_name fs
  = set_annotation (marked_preserve preserve field_name fs)
                   (marked_values preserve examples field_name fs)
                   (annotate_below preserve examples field_name fs).
Proof.
  unfold annotate_field, annotate_below. rewrite mark_preserved_marks.
  set (po := marked_preserve preserve field_name fs).
  set (ov := marked_values preserve examples field_name fs).
  rewrite !type_is_set_annotation.
  destruct (type_is "object" fs).
  { destruct (truthy _); [|reflexivity]. apply _add_preserved_field_info_annotation. }
  destruct (type_is "array" fs) eqn:Ha; [|reflexivity].
  destruct (truthy _) eqn:He; [|reflexivity].
  rewrite <- (update_items_array preserve _ fs Ha He).
  clearbody po ov. clear Ha He.
  destruct fs as [t p [i|] po0 ov0]; reflexivity.
Qed.

Lemma erase_set_annotation po ov (s : node) : erase (set_annotation po ov s) = erase s.
Proof. now destruct s. Qed.

Lemma annotate_erase (preserve : string -> bool) (s : node) :
  forall examples, erase (_add_preserved_field_info preserve s examples) = erase s.
Proof.
  induction s as [s IHp IHi] using node_ind_get. intros examples.
  rewrite _add_preserved_field_info_eq. unfold annotate_body.
  destruct (type_is "object" s).
  - unfold update_properties. destruct s as [t [p|] items po ov]; cbn [s_properties];
      [|reflexivity].
    unfold set_properties. cbn [erase s_type s_items s_preserve_original s_original_values
                                option_map].
    f_equal. f_equal. rewrite map_map.
    change (get_properties (Schema t (Some p) items po ov)) with p in IHp. clear IHi.
    induction IHp as [|[name child] p Hc Hp IH]; [reflexivity|].
    cbn [map fst snd]. f_equal; [|exact IH]. f_equal.
    rewrite annotate_field_normal, erase_set_annotation. unfold annotate_below.
    cbn [snd] in Hc.
    destruct (type_is "object" child); [destruct (truthy _); [apply Hc|reflexivity]|].
    destruct (type_is "array" child); [|reflexivity].
    destruct (truthy _); [apply Hc|reflexivity].
  - destruct (type_is "array" s); [|reflexivity].
    destruct (truthy examples); [|reflexivity].
    unfold update_items. destruct s as [t p [i|] po ov]; cbn [s_items]; [|reflexivity].
    unfold set_items. cbn [erase s_type s_properties s_preserve_original s_original_values
                           option_map].
    f_equal. f_equal. now apply IHi.
Qed.

Lemma well_formed_erase (s : node) : well_formed (erase s) = well_formed s.
Proof.
  induction s as [t po ov|t props po ov IH|t items po ov IH|t props items po ov IH1 IH2]
    using node_ind; cbn [erase option_map well_formed]; destruct t as [t|]; try reflexivity;
    destruct (String.eqb t "object"); try reflexivity;
    try (destruct (String.eqb t "array"); try reflexivity; assumption).
  - induction IH as [|[k v] p Hv Hp IHp]; [reflexivity|].
    cbn [map forallb fst snd]. cbn [snd] in Hv. now rewrite Hv, IHp.
  - induction IH1 as [|[k v] p Hv Hp IHp]; [reflexivity|].
    cbn [map forallb fst snd]. cbn [snd] in Hv. now rewrite Hv, IHp.
Qed.

(** X3. The annotator writes marks only: apart from the keys
    [preserve_original] and [original_values], the schema after
    [_add_preserved_field_info] is the schema before it, at every level (same
    kinds, same property names in the same order, same items), whatever the
    examples and the preserve set; with it, a well-formed schema stays well
    formed. *)
Theorem X3_annotation_keeps_structure (preserve : string -> bool) (s : node)
    (examples : list json) :
  erase (_add_preserved_field_info preserve s examples) = erase s
  /\ well_formed (_add_preserved_field_info preserve s examples) = well_formed s.
Proof.
  split; [apply annotate_erase|].
  rewrite <- (well_formed_erase (_add_preserved_field_info preserve s examples)).
  rewrite annotate_erase. apply well_formed_erase.
Qed.

Lemma annotate_type_is (preserve : string -> bool) (k : string) (s : node)
    (examples : list json) :
  type_is k (_add_preserved_field_info preserve s examples) = type_is k s.
Proof.
  unfold type_is.
  now destruct (_add_preserved_field_info_keeps preserve s examples) as (-> & _).
Qed.

Lemma annotate_below_set_annotation (preserve : string -> bool) (examples : list json)
    (field_name : string) po ov (fs : node) :
  annotate_below preserve examples field_name (set_annotation po ov fs)
  = set_annotation po ov (annotate_below preserve examples field_name fs).
Proof.
  unfold annotate_below. rewrite !type_is_set_annotation.
  destruct (type_is "object" fs).
  { destruct (truthy _); [apply _add_preserved_field_info_annotation|reflexivity]. }
  destruct (type_is "array" fs); [|reflexivity].
  destruct (truthy _); [apply _add_preserved_field_info_annotation|reflexivity].
Qed.

Lemma annotate_below_twice (preserve : string -> bool) (examples : list json)
    (field_name : string) (fs : node) :
  (forall examples,
      _add_preserved_field_info preserve
        (_add_preserved_field_info preserve fs examples) examples
      = _add_preserved_field_info preserve fs examples) ->
  annotate_below preserve examples field_name
    (annotate_below preserve examples field_name fs)
  = annotate_below preserve examples field_name fs.
Proof.
  intros IH. unfold annotate_below.
  destruct (type_is "object" fs) eqn:Ho.
  { destruct (truthy _) eqn:Et.
    - now rewrite annotate_type_is, Ho, ?Et, IH.
    - now rewrite Ho, ?Et. }
  destruct (type_is "array" fs) eqn:Ha.
  { destruct (truthy _) eqn:Et.
    - now rewrite !annotate_type_is, Ho, Ha, ?Et, IH.
    - now rewrite Ho, Ha, ?Et. }
  now rewrite Ho, Ha.
Qed.

Lemma annotate_field_twice (preserve : string -> bool) (examples : list json)
    (field_name : string) (fs : node) :
  (forall examples,
      _add_preserved_field_info preserve
        (_add_preserved_field_info preserve fs examples) examples
      = _add_preserved_field_info preserve fs examples) ->
  annotate_field preserve (_add_preserved_field_info preserve) examples field_name
    (annotate_field preserve (_add_preserved_field_info preserve) examples field_name fs)
  = annotate_field preserve (_add_preserved_field_info preserve) examples field_name fs.
Proof.
  intros IH. rewrite (annotate_field_normal preserve examples field_name fs).
  set (po := marked_preserve preserve field_name fs).
  set (ov := marked_values preserve examples field_name fs).
  rewrite annotate_field_normal, annotate_below_set_annotation.
  rewrite (annotate_below_twice _ _ _ _ IH).
  assert (Hpo : marked_preserve preserve field_name
                  (set_annotation po ov (annotate_below preserve examples field_name fs))
                = po).
  { unfold marked_preserve, po, marked_preserve. cbn [set_annotation s_preserve_original].
    now destruct (preserve field_name). }
  assert (Hov : marked_values preserve examples field_name
                  (set_annotation po ov (annotate_below preserve examples field_name fs))
                = ov).
  { unfold marked_values, ov, marked_values. cbn [set_annotation s_original_values].
    destruct (preserve field_name); [|reflexivity]. now destruct (truthy _). }
  rewrite Hpo, Hov. reflexivity.
Qed.

(** X4. Annotating twice with the same examples gives what annotating once
    gives: [_add_preserved_field_info] leaves a schema that it has annotated
    with these examples as it is. *)
Theorem X4_annotation_idempotent (preserve : string -> bool) (s : node) :
  forall examples,
    _add_preserved_field_info preserve
      (_add_preserved_field_info preserve s examples) examples
    = _add_preserved_field_info preserve s examples.
Proof.
  induction s as [s IHp IHi] using node_ind_get. intros examples.
  rewrite (_add_preserved_field_info_eq preserve s). unfold annotate_body.
  destruct (type_is "object" s) eqn:Ho.
  - unfold update_properties.
    destruct s as [t [p|] items po ov]; cbn [s_properties].
    2:{ rewrite _add_preserved_field_info_eq. unfold annotate_body, update_properties.
        now rewrite Ho. }
    rewrite _add_preserved_field_info_eq. unfold annotate_body, update_properties.
    assert (Ho' : type_is "object"
                    (set_properties
                       (map (fun '(field_name, field_structure) =>
                               (field_name,
                                annotate_field preserve (_add_preserved_field_info preserve)
                                  examples field_name field_structure)) p)
                       (Schema t (Some p) items po ov)) = true) by exact Ho.
    rewrite Ho'. unfold set_properties at 1 2. cbn [s_properties].
    unfold set_properties. cbn [s_type s_items s_preserve_original s_original_values].
    f_equal. f_equal. rewrite map_map.
    change (get_properties (Schema t (Some p) items po ov)) with p in IHp. clear IHi Ho Ho'.
    induction IHp as [|[name child] p Hc Hp IH]; [reflexivity|].
    cbn [map]. f_equal; [|exact IH]. f_equal.
    apply annotate_field_twice. exact Hc.
  - destruct (type_is "array" s) eqn:Ha.
    2:{ rewrite _add_preserved_field_info_eq. unfold annotate_body. now rewrite Ho, Ha. }
    destruct (truthy examples) eqn:Et.
    2:{ rewrite _add_preserved_field_info_eq. unfold annotate_body. now rewrite Ho, Ha, Et. }
    unfold update_items. destruct s as [t p [i|] po ov]; cbn [s_items].
    2:{ rewrite _add_preserved_field_info_eq. unfold annotate_body, update_items.
        now rewrite Ho, Ha, Et. }
    rewrite _add_preserved_field_info_eq. unfold annotate_body, update_items.
    assert (Ho' : type_is "object"
                    (set_items (_add_preserved_field_info preserve i examples)
                               (Schema t p (Some i) po ov)) = false) by exact Ho.
    assert (Ha' : type_is "array"
                    (set_items (_add_preserved_field_info preserve i examples)
                               (Schema t p (Some i) po ov)) = true) by exact Ha.
    rewrite Ho', Ha', Et. unfold set_items. cbn [s_items s_type s_properties
                                                 s_preserve_original s_original_values].
    f_equal. f_equal. now apply IHi.
Qed.

(** X5. With a preserve set that holds no name, the annotator changes
    nothing: the schema after [_add_preserved_field_info] is the schema
    before it. *)
Theorem X5_annotation_without_preserved_names (preserve : string -> bool) (s : node) :
  (forall field_name, preserve field_name = false) ->
  forall examples, _add_preserved_field_info preserve s examples = s.
Proof.
  intros Hnone. induction s as [s IHp IHi] using node_ind_get. intros examples.
  rewrite _add_preserved_field_info_eq. unfold annotate_body.
  destruct (type_is "object" s).
  - unfold update_properties. destruct s as [t [p|] items po ov]; cbn [s_properties];
      [|reflexivity].
    unfold set_properties. cbn [s_type s_items s_preserve_original s_original_values].
    f_equal. f_equal.
    change (get_properties (Schema t (Some p) items po ov)) with p in IHp. clear IHi.
    induction IHp as [|[name child] p Hc Hp IH]; [reflexivity|].
    cbn [map]. f_equal; [|exact IH]. f_equal. cbn [snd] in Hc.
    rewrite annotate_field_normal. unfold marked_preserve, marked_values, annotate_below.
    rewrite Hnone.
    assert (Hb : (if type_is "object" child
                  then if truthy (nested_examples name examples)
                       then _add_preserved_field_info preserve child
                              (nested_examples name examples)
                       else child
                  else if type_is "array" child
                       then if truthy (array_examples name examples)
                            then _add_preserved_field_info preserve child
                                   (array_examples name examples)
                            else child
                       else child) = child).
    { destruct (type_is "object" child); [destruct (truthy _); [apply Hc|reflexivity]|].
      destruct (type_is "array" child); [|reflexivity].
      destruct (truthy _); [apply Hc|reflexivity]. }
    rewrite Hb. apply set_annotation_same.
  - destruct (type_is "array" s); [|reflexivity].
    destruct (truthy examples); [|reflexivity].
    unfold update_items. destruct s as [t p [i|] po ov]; cbn [s_items]; [|reflexivity].
    unfold set_items. cbn [s_type s_properties s_preserve_original s_original_values].
    f_equal. f_equal. now apply IHi.
Qed.

Lemma X5_annotation_without_preserved_names_witness :
  MockDataGenerator._add_preserved_field_info []
    (object [("status", leaf "string"); ("items", array (object [("id", leaf "number")]))])
    [JDict [("status", JStr "active"); ("items", JList [JDict [("id", JInt 7)]])]]
  = object [("status", leaf "string"); ("items", array (object [("id", leaf "number")]))].
Proof.
  apply (X5_annotation_without_preserved_names
           (fun field_name => existsb (String.eqb field_name) [])).
  reflexivity.
Defined.

(** ** Dicts built by assignments to new keys *)

Lemma dict_set_fresh {A} (k : string) (v : A) (d : dict A) :
  dict_get k d = None -> dict_set k v d = d ++ [(k, v)].
Proof.
  induction d as [|[k' v'] d IH]; cbn; [reflexivity|].
  destruct (String.eqb k k'); [discriminate|]. intros H. now rewrite IH.
Qed.

Lemma dict_keys_set_present {A} (k : string) (v w : A) (d : dict A) :
  dict_get k d = Some w -> dict_keys (dict_set k v d) = dict_keys d.
Proof.
  unfold dict_keys. induction d as [|[k' v'] d IH]; cbn; [discriminate|].
  destruct (String.eqb k k'); cbn; [reflexivity|]. intros H. now rewrite IH.
Qed.

Lemma keys_unique_snoc (k : string) (l : list string) :
  keys_unique l = true -> ~ In k l -> keys_unique (l ++ [k]) = true.
Proof.
  induction l as [|x l IH]; intros Hu Hn; [reflexivity|].
  apply keys_unique_cons in Hu as [Hx Hu]. cbn [app]. apply keys_unique_cons. split.
  - rewrite in_app_iff. cbn. intros [H|[H|[]]]; [contradiction|].
    apply Hn. left. congruence.
  - apply IH; [exact Hu|]. intros H. apply Hn. now right.
Qed.

Lemma keys_unique_set {A} (k : string) (v : A) (d : dict A) :
  keys_unique (dict_keys d) = true -> keys_unique (dict_keys (dict_set k v d)) = true.
Proof.
  intros Hu. destruct (dict_get k d) as [w|] eqn:E.
  - now rewrite (dict_keys_set_present k v w d E).
  - rewrite (dict_set_fresh k v d E). unfold dict_keys in *. rewrite map_app. cbn [map fst].
    apply keys_unique_snoc; [exact Hu|]. now apply dict_get_None_keys.
Qed.

(** The loop of the merger over properties whose names are all new. *)
Lemma merge_loop_disjoint (props2 : dict node) :
  keys_unique (dict_keys props2) = true ->
  forall merged_props,
    (forall name, In name (dict_keys props2) -> ~ In name (dict_keys merged_props)) ->
    merge_loop props2 merged_props = merged_props ++ props2.
Proof.
  unfold merge_loop.
  induction props2 as [|[key value] rest IH]; intros Hu merged_props Hd.
  - cbn. now rewrite app_nil_r.
  - unfold dict_keys in Hu. cbn [map fst] in Hu. apply keys_unique_cons in Hu as [Hk Hu].
    cbn [fold_left].
    assert (Hget : dict_get key merged_props = None).
    { apply dict_get_None_keys, Hd. now left. }
    rewrite Hget, (dict_set_fresh key value merged_props Hget), IH; [| exact Hu |].
    + now rewrite <- app_assoc.
    + intros name Hin. unfold dict_keys. rewrite map_app, in_app_iff. cbn [map fst In].
      intros [H|[H|[]]]; [apply (Hd name); [now right|exact H]|].
      subst name. contradiction.
Qed.

(** The loop of the analyzer over a mapping with distinct keys. *)
Lemma analyze_loop_unique (f : json -> node) (d : dict json) :
  keys_unique (dict_keys d) = true ->
  forall properties,
    (forall name, In name (dict_keys d) -> ~ In name (dict_keys properties)) ->
    fold_left (fun properties '(key, value) => dict_set key (f value) properties) d properties
    = properties ++ map (fun kv => (fst kv, f (snd kv))) d.
Proof.
  induction d as [|[key value] rest IH]; intros Hu properties Hd.
  - cbn. now rewrite app_nil_r.
  - unfold dict_keys in Hu. cbn [map fst] in Hu. apply keys_unique_cons in Hu as [Hk Hu].
    cbn [fold_left map fst snd].
    assert (Hget : dict_get key properties = None).
    { apply dict_get_None_keys, Hd. now left. }
    rewrite (dict_set_fresh key (f value) properties Hget), IH; [| exact Hu |].
    + now rewrite <- app_assoc.
    + intros name Hin. unfold dict_keys. rewrite map_app, in_app_iff. cbn [map fst In].
      intros [H|[H|[]]]; [apply (Hd name); [now right|exact H]|].
      subst name. contradiction.
Qed.

(** X6. The analysis of a mapping with distinct keys, with a depth budget
    greater than zero, is an object node with the keys of the mapping in
    their order, each with the analysis of its value with the budget less
    one. *)
Theorem X6_analysis_of_mapping (d : dict json) (max_depth : Z) :
  0 < max_depth -> keys_unique (dict_keys d) = true ->
  MockDataGenerator._analyze_structure (JDict d) max_depth
  = object (map (fun kv => (fst kv,
                            MockDataGenerator._analyze_structure (snd kv) (max_depth - 1)))
                d).
Proof.
  intros Hd Hu. cbn [MockDataGenerator._analyze_structure].
  destruct (max_depth <=? 0) eqn:E; [lia|]. f_equal.
  rewrite (analyze_loop_unique
             (fun value => MockDataGenerator._analyze_structure value (max_depth - 1)) d Hu []);
    [reflexivity|].
  intros name _ [].
Qed.

Lemma X6_analysis_of_mapping_witness :
  MockDataGenerator._analyze_structure
    (JDict [("name", JStr "n"); ("age", JInt 30); ("tags", JList [])]) 1
  = object [("name", leaf "string"); ("age", leaf "string"); ("tags", leaf "string")].
Proof.
  assert (H : 0 < 1) by lia.
  apply (X6_analysis_of_mapping
           [("name", JStr "n"); ("age", JInt 30); ("tags", JList [])] 1 H).
  reflexivity.
Defined.

(** X7. Two object nodes without a property name in common (the names of
    the second distinct): both mergers return the object node whose
    properties are those of the first operand followed by those of the
    second, each value as it was. In particular the merge of the empty
    object node, which stands for the items of an empty list, with an object
    node holds the properties of that node. *)
Theorem X7_merge_disjoint_objects (a b : node) :
  s_type a = Some "object" -> s_type b = Some "object" ->
  keys_unique (dict_keys (get_properties b)) = true ->
  (forall name, In name (dict_keys (get_properties b)) ->
                ~ In name (dict_keys (get_properties a))) ->
  MockDataGenerator._merge_structures a b = object (get_properties a ++ get_properties b)
  /\ SchemaAnalyzer.merge_structures a b
     = Returns (object (get_properties a ++ get_properties b)).
Proof.
  intros Ha Hb Hu Hd. split.
  - rewrite (merge_objects a b Ha Hb). f_equal. now apply merge_loop_disjoint.
  - unfold SchemaAnalyzer.merge_structures.
    assert (Hsame : type_differs a b = false).
    { destruct (type_differs a b) eqn:E; [|reflexivity].
      apply type_differs_spec in E. congruence. }
    apply type_is_spec in Ha. rewrite Hsame, Ha.
    enough (H : forall props2 merged_props,
               keys_unique (dict_keys props2) = true ->
               (forall name, In name (dict_keys props2) ->
                             ~ In name (dict_keys merged_props)) ->
               ofold (fun merged_props '(key, value) =>
                        match dict_get key merged_props with
                        | Some m =>
                            do f <- SchemaAnalyzer._merge_structures;
                            do merged <- f m value;
                            Returns (dict_set key merged merged_props)
                        | None => Returns (dict_set key value merged_props)
                        end) props2 merged_props
               = Returns (merged_props ++ props2)).
    { now rewrite (H _ _ Hu Hd). }
    clear. induction props2 as [|[key value] rest IH]; intros merged_props Hu Hd.
    + cbn. now rewrite app_nil_r.
    + unfold dict_keys in Hu. cbn [map fst] in Hu. apply keys_unique_cons in Hu as [Hk Hu].
      cbn [ofold].
      assert (Hget : dict_get key merged_props = None).
      { apply dict_get_None_keys, Hd. now left. }
      rewrite Hget, (dict_set_fresh key value merged_props Hget). cbn [obind].
      rewrite IH; [now rewrite <- app_assoc|exact Hu|].
      intros name Hin. unfold dict_keys. rewrite map_app, in_app_iff. cbn [map fst In].
      intros [H|[H|[]]]; [apply (Hd name); [now right|exact H]|].
      subst name. contradiction.
Qed.

Lemma X7_merge_disjoint_objects_witness :
  MockDataGenerator._merge_structures
    (object []) (object [("name", leaf "string"); ("age", leaf "number")])
  = object [("name", leaf "string"); ("age", leaf "number")]
  /\ SchemaAnalyzer.merge_structures
       (object [("name", leaf "string")]) (object [("age", leaf "number")])
     = Returns (object [("name", leaf "string"); ("age", leaf "number")]).
Proof.
  split.
  - apply (X7_merge_disjoint_objects
             (object []) (object [("name", leaf "string"); ("age", leaf "number")])
             eq_refl eq_refl eq_refl).
    intros name _ [].
  - apply (X7_merge_disjoint_objects
             (object [("name", leaf "string")]) (object [("age", leaf "number")])
             eq_refl eq_refl eq_refl).
    intros name [<-|[]] [H|[]]. discriminate.
Defined.

(** X8. [merge_structures] of class SchemaAnalyzer raises [AttributeError]
    on two nodes of kind array, and on two nodes of kind object that have a
    property name in common: both cases evaluate the attribute
    [self._merge_structures], which the class does not have. *)
Theorem X8_schema_analyzer_merge_raises (a b : node) :
  s_type a = s_type b ->
  (s_type a = Some "array"
   \/ (s_type a = Some "object"
       /\ exists name, In name (dict_keys (get_properties a))
                       /\ In name (dict_keys (get_properties b)))) ->
  SchemaAnalyzer.merge_structures a b = Raises "AttributeError".
Proof.
  intros Hsame Hcase. unfold SchemaAnalyzer.merge_structures.
  assert (Hd : type_differs a b = false).
  { destruct (type_differs a b) eqn:E; [|reflexivity].
    apply type_differs_spec in E. contradiction. }
  rewrite Hd. destruct Hcase as [Ha|(Ha & name & Hina & Hinb)].
  - assert (Ho : type_is "object" a = false) by (unfold type_is; now rewrite Ha).
    apply type_is_spec in Ha. now rewrite Ho, Ha.
  - apply type_is_spec in Ha. rewrite Ha.
    enough (H : forall props2 merged_props,
               In name (dict_keys props2) -> In name (dict_keys merged_props) ->
               ofold (fun merged_props '(key, value) =>
                        match dict_get key merged_props with
                        | Some m =>
                            do f <- SchemaAnalyzer._merge_structures;
                            do merged <- f m value;
                            Returns (dict_set key merged merged_props)
                        | None => Returns (dict_set key value merged_props)
                        end) props2 merged_props
               = Raises "AttributeError").
    { now rewrite (H _ _ Hinb Hina). }
    clear. induction props2 as [|[key value] rest IH]; intros merged_props H2 H1;
      [destruct H2|].
    cbn [ofold]. destruct (dict_get key merged_props) as [m|] eqn:Hget; [reflexivity|].
    cbn [obind]. apply IH.
    + destruct H2 as [H2|H2]; [|exact H2]. cbn [fst] in H2. subst key.
      apply dict_get_None_keys in Hget. contradiction.
    + rewrite (dict_set_fresh key value merged_props Hget). unfold dict_keys.
      rewrite map_app, in_app_iff. now left.
Qed.

Lemma X8_schema_analyzer_merge_raises_witness :
  SchemaAnalyzer.merge_structures
    (object [("name", leaf "string"); ("age", leaf "number")])
    (object [("city", leaf "string"); ("age", leaf "number")])
  = Raises "AttributeError".
Proof.
  apply X8_schema_analyzer_merge_raises; [reflexivity|].
  right. split; [reflexivity|]. exists "age". split; cbn; tauto.
Defined.

(** ** The schemas that the analyzer and the merger build *)

Lemma plain_object_inv (s : node) :
  plain s = true -> type_is "object" s = true ->
  exists props, s = object props
                /\ keys_unique (dict_keys props) = true
                /\ forallb (fun kv => plain (snd kv)) props = true.
Proof.
  intros Hp Ho. destruct s as [t props items po ov]. cbn [plain] in Hp. rewrite Ho in Hp.
  apply type_is_spec in Ho. cbn [s_type] in Ho. subst t.
  destruct props as [p|], items, po, ov; try discriminate.
  apply andb_true_iff in Hp. exists p. now split.
Qed.

Lemma plain_array_inv (s : node) :
  plain s = true -> type_is "object" s = false -> type_is "array" s = true ->
  exists items, s = array items /\ plain items = true.
Proof.
  intros Hp Ho Ha. destruct s as [t props items po ov]. cbn [plain] in Hp.
  rewrite Ho, Ha in Hp. apply type_is_spec in Ha. cbn [s_type] in Ha. subst t.
  destruct props, items as [i|], po, ov; try discriminate. now exists i.
Qed.

Lemma plain_object_node (props : dict node) :
  plain (object props)
  = keys_unique (dict_keys props) && forallb (fun kv => plain (snd kv)) props.
Proof. reflexivity. Qed.

Lemma plain_array_node (items : node) : plain (array items) = plain items.
Proof. reflexivity. Qed.

(** The merger builds plain nodes from plain nodes. *)
Lemma merge_plain (b : node) :
  forall a, plain a = true -> plain b = true ->
            plain (MockDataGenerator._merge_structures a b) = true.
Proof.
  induction b as [b IHp IHi] using node_ind_get. intros a Ha Hb.
  rewrite _merge_structures_eq. unfold MockDataGenerator.merge_body.
  destruct (type_differs a b) eqn:Hd.
  { now destruct (negb (type_is "string" a)). }
  apply type_same in Hd.
  assert (Hty : forall k, type_is k b = type_is k a) by (intros k; unfold type_is; now rewrite Hd).
  destruct (type_is "object" a) eqn:Ho.
  { destruct (plain_object_inv a Ha Ho) as (pa & -> & Hua & Hpa).
    destruct (plain_object_inv b Hb) as (pb & -> & Hub & Hpb); [now rewrite Hty|].
    change (get_properties (object pb)) with pb in *.
    change (get_properties (object pa)) with pa.
    rewrite plain_object_node. change (fold_left _ pb pa) with (merge_loop pb pa).
    clear Ha Hb Hd Hty Ho IHi Hub. unfold merge_loop.
    revert pa Hua Hpa.
    induction pb as [|[key value] rest IHrest]; intros pa Hua Hpa.
    - cbn [fold_left]. now rewrite Hua, Hpa.
    - cbn [fold_left]. cbn [forallb snd] in Hpb. apply andb_true_iff in Hpb as [Hv Hrest].
      apply Forall_cons in IHp as [IHv IHr]. cbn [snd] in IHv.
      apply IHrest; [exact IHr|exact Hrest| |].
      + destruct (dict_get key pa); now apply keys_unique_set.
      + destruct (dict_get key pa) as [m|] eqn:Hget;
          (apply forallb_dict_set; [exact Hpa|]); [|exact Hv].
        apply IHv; [|exact Hv]. exact (forallb_dict_get plain _ _ _ Hpa Hget). }
  destruct (type_is "array" a) eqn:Hr; [|exact Ha].
  destruct (plain_array_inv a Ha Ho Hr) as (ia & -> & Hia).
  destruct (plain_array_inv b Hb) as (ib & -> & Hib); [now rewrite Hty|now rewrite Hty|].
  rewrite plain_array_node. now apply (IHi ib eq_refl ia).
Qed.

Lemma analyze_plain (obj : json) :
  forall max_depth, plain (MockDataGenerator._analyze_structure obj max_depth) = true.
Proof.
  induction obj as [|b|n|q|str|l IH|d IH] using json_ind; intros max_depth;
    cbn [MockDataGenerator._analyze_structure]; destruct (max_depth <=? 0);
    try reflexivity.
  - destruct l as [|x l]; [reflexivity|].
    cbn [map]. rewrite plain_array_node. apply Forall_cons in IH as [Hx Hl].
    generalize (Hx (max_depth - 1)).
    generalize (MockDataGenerator._analyze_structure x (max_depth - 1)) as first.
    induction Hl as [|y l Hy Hl IHl]; intros first Hf; [exact Hf|].
    cbn [map fold_left]. apply IHl. apply merge_plain; [exact Hf|apply Hy].
  - rewrite plain_object_node.
    enough (H : forall properties,
               keys_unique (dict_keys properties)
               && forallb (fun kv => plain (snd kv)) properties = true ->
               keys_unique
                 (dict_keys
                    (fold_left (fun properties '(key, value) =>
                                  dict_set key
                                    (MockDataGenerator._analyze_structure value (max_depth - 1))
                                    properties) d properties))
               && forallb (fun kv => plain (snd kv))
                    (fold_left (fun properties '(key, value) =>
                                  dict_set key
                                    (MockDataGenerator._analyze_structure value (max_depth - 1))
                                    properties) d properties) = true)
      by (apply H; reflexivity).
    induction IH as [|[key value] d Hv Hd IHd]; intros properties Hp; [exact Hp|].
    cbn [fold_left]. apply IHd. apply andb_true_iff in Hp as [Hu Hall].
    apply andb_true_iff. split; [now apply keys_unique_set|].
    apply forallb_dict_set; [exact Hall|apply Hv].
Qed.

(** The merge of a plain node with itself is the node. *)
Lemma merge_self_plain (x : node) :
  plain x = true -> MockDataGenerator._merge_structures x x = x.
Proof.
  induction x as [x IHp IHi] using node_ind_get. intros Hp.
  rewrite _merge_structures_eq. unfold MockDataGenerator.merge_body.
  rewrite type_differs_refl.
  destruct (type_is "object" x) eqn:Ho.
  { destruct (plain_object_inv x Hp Ho) as (props & -> & Hu & Hall).
    change (get_properties (object props)) with props in *.
    f_equal. change (merge_loop props props = props). apply merge_loop_fixed.
    intros key value Hin. split; [now apply dict_get_unique|].
    rewrite List.Forall_forall in IHp. apply (IHp (key, value) Hin).
    rewrite forallb_forall in Hall. exact (Hall (key, value) Hin). }
  destruct (type_is "array" x) eqn:Ha; [|reflexivity].
  destruct (plain_array_inv x Hp Ho Ha) as (items & -> & Hi).
  change (get_items (leaf "string") (array items)) with items.
  f_equal. now apply (IHi items eq_refl).
Qed.

(** X9. Idempotence on what the pipeline builds. The analysis of any
    document, and the schema of any corpus (the analysis of the first
    document merged in turn with the analyses of the others), merged with
    itself, is that same schema. *)
Theorem X9_merge_idempotent_on_analysis (first : json) (others : list json)
    (max_depth : Z) :
  let analysis := MockDataGenerator._analyze_structure first max_depth in
  let unified :=
    fold_left (fun base_structure response =>
                 MockDataGenerator._merge_structures base_structure
                   (MockDataGenerator._analyze_structure response max_depth))
              others analysis in
  MockDataGenerator._merge_structures analysis analysis = analysis
  /\ MockDataGenerator._merge_structures unified unified = unified.
Proof.
  cbv zeta. split; [apply merge_self_plain, analyze_plain|].
  apply merge_self_plain.
  generalize (analyze_plain first max_depth).
  generalize (MockDataGenerator._analyze_structure first max_depth) as base_structure.
  induction others as [|response others IH]; intros base_structure Hb; [exact Hb|].
  cbn [fold_left]. apply IH. apply merge_plain; [exact Hb|apply analyze_plain].
Qed.

(** ** The stored values of a preserved field *)

Lemma field_values_In (field_name : string) (examples : list json) (v : json) :
  In v (field_values field_name examples)
  <-> exists d, In (JDict d) examples /\ dict_get field_name d = Some v.
Proof.
  induction examples as [|example rest IH]; cbn [field_values In].
  - split; [tauto|]. intros (d & [] & _).
  - assert (Hskip : (forall d, example <> JDict d) ->
                    (In v (field_values field_name rest)
                     <-> exists d, (example = JDict d \/ In (JDict d) rest)
                                   /\ dict_get field_name d = Some v)).
    { intros Hne. rewrite IH. split.
      - intros (d & Hin & Hget). exists d. tauto.
      - intros (d & [Heq|Hin] & Hget); [now apply Hne in Heq|eauto]. }
    destruct example as [| | | | | |d0]; try (apply Hskip; discriminate).
    destruct (dict_get field_name d0) as [v0|] eqn:E.
    + cbn [In]. rewrite IH. split.
      * intros [<-|(d & Hin & Hget)]; [exists d0; tauto|exists d; tauto].
      * intros (d & [[= <-]|Hin] & Hget); [left; congruence|right; eauto].
    + rewrite IH. split.
      * intros (d & Hin & Hget). exists d. tauto.
      * intros (d & [[= <-]|Hin] & Hget); [congruence|eauto].
Qed.

Lemma dedup_first_In (values : list json) (v : json) :
  In v (dedup_first values) -> In v values.
Proof.
  remember (length values) as n eqn:Hn.
  assert (Hle : (length values <= n)%nat) by lia. clear Hn. revert values Hle.
  induction n as [|n IH]; intros values Hle.
  - destruct values; [tauto|cbn in Hle; lia].
  - destruct values as [|u values]; [tauto|]. rewrite dedup_first_cons. cbn in Hle.
    intros [->|Hin]; [now left|]. right.
    pose proof (filter_length_le (fun w => negb (py_eq u w)) values).
    apply IH in Hin; [|lia]. apply filter_In in Hin. tauto.
Qed.

Lemma dedup_first_covers (values : list json) (v : json) :
  In v values ->
  In v (dedup_first values) \/ exists x, In x (dedup_first values) /\ py_eq x v = true.
Proof.
  remember (length values) as n eqn:Hn.
  assert (Hle : (length values <= n)%nat) by lia. clear Hn. revert values Hle.
  induction n as [|n IH]; intros values Hle.
  - destruct values; [tauto|cbn in Hle; lia].
  - destruct values as [|u values]; [tauto|]. rewrite dedup_first_cons. cbn in Hle.
    intros [->|Hin]; [left; now left|].
    destruct (py_eq u v) eqn:E.
    + right. exists u. split; [now left|exact E].
    + pose proof (filter_length_le (fun w => negb (py_eq u w)) values).
      destruct (IH (List.filter (fun w => negb (py_eq u w)) values)) as [H1|(x & Hx & Ex)];
        [lia|apply filter_In; split; [exact Hin|now rewrite E]| |].
      * left. now right.
      * right. exists x. split; [now right|exact Ex].
Qed.

(** X10. The values that [_extract_original_values] returns for a field: no
    value is equal ([==]) to a value before it in the list; every returned
    value is the value of the field in some mapping example; and the value
    of the field in every mapping example is in the list or equal ([==]) to
    a value of the list. *)
Theorem X10_original_values_distinct_and_complete (field_name : string)
    (examples : list json) :
  let stored := _extract_original_values field_name examples in
  (forall i j x y,
      nth_error stored i = Some x -> nth_error stored j = Some y -> (i < j)%nat ->
      py_eq x y = false)
  /\ (forall v, In v stored ->
                exists d, In (JDict d) examples /\ dict_get field_name d = Some v)
  /\ (forall d v, In (JDict d) examples -> dict_get field_name d = Some v ->
                  In v stored \/ py_in v stored = true).
Proof.
  cbv zeta. rewrite extract_original_values_dedup. split; [|split].
  - intros i j x y. apply dedup_first_distinct.
  - intros v Hin. apply field_values_In. now apply dedup_first_In.
  - intros d v Hin Hget.
    destruct (dedup_first_covers (field_values field_name examples) v) as [H|(x & Hx & E)].
    + apply field_values_In. eauto.
    + now left.
    + right. unfold py_in. apply existsb_exists. eauto.
Qed.

Lemma X10_original_values_distinct_and_complete_witness :
  _extract_original_values "paymentNo"
    [JDict [("paymentNo", JNull)]; JList []; JDict [("paymentNo", JInt 1)];
     JDict [("other", JInt 5)]; JDict [("paymentNo", JBool true)];
     JDict [("paymentNo", JNull)]]
  = [JNull; JInt 1]
  /\ py_eq JNull (JInt 1) = false.
Proof.
  split; [reflexivity|].
  apply (proj1 (X10_original_values_distinct_and_complete "paymentNo"
                  [JDict [("paymentNo", JNull)]; JList []; JDict [("paymentNo", JInt 1)];
                   JDict [("other", JInt 5)]; JDict [("paymentNo", JBool true)];
                   JDict [("paymentNo", JNull)]]) 0%nat 1%nat);
    [reflexivity|reflexivity|lia].
Defined.

(** ** The cache across a call of [analyze_structure] *)

(** X11. A call of [analyze_structure] never changes or removes an entry of
    the cache: every key keeps its schema, and the only key that can be new
    is the key of the call. A call that raises, and a call on an empty
    corpus (which returns the empty object schema), leave the cache as it
    was. *)
Theorem X11_cache_only_grows (content_key : list json -> string)
    (examples : list json) (cache_key : option string)
    (cache cache1 : SchemaCache.t) (result : outcome node) :
  SchemaAnalyzer.analyze_structure content_key examples cache_key cache
  = (result, cache1) ->
  (forall key stored, SchemaCache.get_schema key cache = Some stored ->
                      SchemaCache.get_schema key cache1 = Some stored)
  /\ (forall key, key <> SchemaAnalyzer.key_of content_key examples cache_key ->
                  SchemaCache.get_schema key cache1 = SchemaCache.get_schema key cache)
  /\ (forall e, result = Raises e -> cache1 = cache)
  /\ (examples = [] -> result = Returns (object []) /\ cache1 = cache).
Proof.
  unfold SchemaAnalyzer.analyze_structure.
  destruct examples as [|first others]; cbn [truthy negb].
  { intros [= <- <-]. repeat split; auto. }
  set (key := SchemaAnalyzer.key_of content_key (first :: others) cache_key).
  destruct (SchemaCache.get_schema key cache) as [cached|] eqn:Hget.
  { intros [= <- <-]. repeat split; auto; discriminate. }
  destruct (SchemaAnalyzer.compute (first :: others)) as [base|e].
  - intros [= <- <-]. unfold SchemaCache.get_schema, SchemaCache.set_schema in *.
    split; [|split; [|split]]; try discriminate.
    + intros k stored Hk. rewrite lookup_insert_ne; [exact Hk|]. congruence.
    + intros k Hk. now rewrite lookup_insert_ne.
  - intros [= <- <-]. repeat split; auto; discriminate.
Qed.

Lemma X11_cache_only_grows_witness :
  let cache := SchemaCache.set_schema "old" (leaf "number") SchemaCache.init in
  let call := SchemaAnalyzer.analyze_structure first_names_key
                [JDict [("a", JInt 1)]] (Some "new") cache in
  SchemaCache.get_schema "old" (snd call) = Some (leaf "number")
  /\ SchemaCache.get_schema "new" (snd call) = Some (object [("a", leaf "number")]).
Proof.
  cbv zeta. split; [|reflexivity].
  apply (proj1 (X11_cache_only_grows first_names_key [JDict [("a", JInt 1)]] (Some "new")
                  (SchemaCache.set_schema "old" (leaf "number") SchemaCache.init)
                  _ _ (surjective_pairing _))).
  reflexivity.
Defined.

(** X12. On a cache miss, [analyze_structure] raises [AttributeError] and
    stores nothing when the corpus has two or more examples, or when its one
    example holds a list of two or more items within the depth 10; on a
    corpus of one example without such a list it returns the annotated
    analysis of that example and stores it under the key of the call. *)
Theorem X12_analyze_structure_on_miss (content_key : list json -> string)
    (first : json) (others : list json) (cache_key : option string)
    (cache : SchemaCache.t) :
  let key := SchemaAnalyzer.key_of content_key (first :: others) cache_key in
  SchemaCache.get_schema key cache = None ->
  SchemaAnalyzer.analyze_structure content_key (first :: others) cache_key cache
  = if truthy others || long_list_within first 10
    then (Raises "AttributeError", cache)
    else
      let schema := SchemaAnalyzer._add_preserved_field_info
                      (MockDataGenerator._analyze_structure first 10) [first] in
      (Returns schema, SchemaCache.set_schema key schema cache).
Proof.
  cbv zeta. intros Hmiss. unfold SchemaAnalyzer.analyze_structure. cbn [truthy negb].
  rewrite Hmiss. unfold SchemaAnalyzer.compute.
  rewrite (SchemaAnalyzer_analyze_outcome first 10).
  destruct (long_list_within first 10).
  - cbn [obind]. now rewrite orb_true_r.
  - cbn [obind]. rewrite orb_false_r. destruct others as [|second others]; reflexivity.
Qed.

Lemma X12_analyze_structure_on_miss_witness :
  SchemaAnalyzer.analyze_structure first_names_key
    [JDict [("a", JInt 1)]; JDict [("a", JInt 2)]] (Some "fp") SchemaCache.init
  = (Raises "AttributeError", SchemaCache.init)
  /\ SchemaAnalyzer.analyze_structure first_names_key
       [JDict [("status", JStr "active")]] None SchemaCache.init
     = (Returns (object [("status", Schema (Some "string") None None (Some true)
                                            (Some [JStr "active"]))]),
        SchemaCache.set_schema "status"
          (object [("status", Schema (Some "string") None None (Some true)
                                     (Some [JStr "active"]))])
          SchemaCache.init).
Proof.
  split.
  - apply (X12_analyze_structure_on_miss first_names_key
             (JDict [("a", JInt 1)]) [JDict [("a", JInt 2)]] (Some "fp") SchemaCache.init).
    reflexivity.
  - apply (X12_analyze_structure_on_miss first_names_key
             (JDict [("status", JStr "active")]) [] None SchemaCache.init).
    reflexivity.
Defined.

(** ** What the synthesizer returns *)

Section SynthesisResults.

Variable rng : Type.
Variable random_below : nat -> rng -> nat * rng.
Variable randint : Z -> Z -> rng -> Z * rng.
Variable random_amount : rng -> Q * rng.
Variable _generate_mock_string : string -> rng -> json * rng.
Variable _generate_mock_number : string -> rng -> json * rng.
Variable lower : string -> string.

(** [random._randbelow(n)] is below [n]. *)
Hypothesis random_below_lt :
  forall n r, (0 < n)%nat -> (fst (random_below n r) < n)%nat.

Local Abbreviation gen := (MockDataGenerator.gen rng).
Local Abbreviation generate_mock_value :=
  (MockDataGenerator.generate_mock_value rng random_below randint random_amount
     _generate_mock_string _generate_mock_number lower).
Local Abbreviation generate_body :=
  (MockDataGenerator.generate_body rng random_below randint random_amount
     _generate_mock_string _generate_mock_number lower).
Local Abbreviation mock_property :=
  (MockDataGenerator.mock_property rng random_below randint random_amount lower).

Lemma random_choice_In {A} (seq : list A) (r : rng) :
  truthy seq = true ->
  exists x r', MockDataGenerator.random_choice rng random_below seq r = (Returns x, r')
               /\ In x seq.
Proof.
  destruct seq as [|x0 seq]; [discriminate|]. intros _.
  unfold MockDataGenerator.random_choice, MockDataGenerator.gbind, MockDataGenerator.glift.
  pose proof (random_below_lt (length (x0 :: seq)) r) as Hlt.
  destruct (random_below (length (x0 :: seq)) r) as [i r']. cbn [fst] in Hlt.
  destruct (nth_error (x0 :: seq) i) as [y|] eqn:E.
  - exists y, r'. split; [reflexivity|]. now apply nth_error_In in E.
  - apply nth_error_None in E. cbn [length] in *. lia.
Qed.

(** X13. A node marked [preserve_original] that holds at least one original
    value is synthesized as one of its original values, whatever its kind,
    the field name and the state of the random source: nothing is
    fabricated for it. *)
Theorem X13_preserved_node_draws_original (schema : node) (field_name : string)
    (r : rng) (original_values : list json) :
  s_preserve_original schema = Some true ->
  s_original_values schema = Some original_values ->
  original_values <> [] ->
  exists value r',
    generate_mock_value schema field_name r = (Returns value, r')
    /\ In value original_values.
Proof.
  intros Hp Hv Hne. rewrite generate_mock_value_eq.
  destruct schema as [t p i po ov]. cbn [s_preserve_original s_original_values] in Hp, Hv.
  subst po ov.
  unfold MockDataGenerator.generate_body, MockDataGenerator.preserved_or.
  cbn [s_preserve_original s_original_values from_option id].
  assert (Ht : truthy original_values = true)
    by (destruct original_values; [contradiction|reflexivity]).
  rewrite Ht. now apply random_choice_In.
Qed.

Lemma preserved_or_otherwise (schema : node) (otherwise : gen json) (r : rng) :
  has_originals schema = false ->
  MockDataGenerator.preserved_or rng random_below schema otherwise r = otherwise r.
Proof.
  unfold has_originals, MockDataGenerator.preserved_or.
  destruct (default false _); [|reflexivity]. cbn [andb]. now intros ->.
Qed.

Lemma gfold_properties_keys (self : node -> string -> gen json) (field_name : string)
    (properties : dict node) :
  (forall prop_name prop_schema, In (prop_name, prop_schema) properties ->
     MockDataGenerator.returns rng (mock_property self field_name prop_name prop_schema)) ->
  keys_unique (dict_keys properties) = true ->
  forall mock_object r,
    (forall name, In name (dict_keys properties) -> ~ In name (dict_keys mock_object)) ->
    exists mock_object' r',
      MockDataGenerator.gfold rng
        (fun mock_object '(prop_name, prop_schema) =>
           MockDataGenerator.gbind rng
             (mock_property self field_name prop_name prop_schema)
             (fun v => MockDataGenerator.gret rng (dict_set prop_name v mock_object)))
        properties mock_object r
      = (Returns mock_object', r')
      /\ dict_keys mock_object' = dict_keys mock_object ++ dict_keys properties.
Proof.
  induction properties as [|[prop_name prop_schema] rest IH]; intros Hret Hu mock_object r Hd.
  - exists mock_object, r. split; [reflexivity|]. cbn. now rewrite app_nil_r.
  - unfold dict_keys in Hu. cbn [map fst] in Hu. apply keys_unique_cons in Hu as [Hk Hu].
    cbn [MockDataGenerator.gfold]. unfold MockDataGenerator.gbind at 1 2.
    destruct (Hret prop_name prop_schema (or_introl eq_refl) r) as (v & r1 & ->).
    cbn [MockDataGenerator.gret].
    assert (Hget : dict_get prop_name mock_object = None).
    { apply dict_get_None_keys, Hd. now left. }
    rewrite (dict_set_fresh prop_name v mock_object Hget).
    destruct (IH (fun n s0 Hin => Hret n s0 (or_intror Hin)) Hu
                 (mock_object ++ [(prop_name, v)]) r1) as (m' & r' & Hm & Hkeys).
    + intros name Hin. unfold dict_keys. rewrite map_app, in_app_iff. cbn [map fst In].
      intros [H|[H|[]]]; [apply (Hd name); [now right|exact H]|].
      subst name. contradiction.
    + exists m', r'. split; [exact Hm|]. rewrite Hkeys. unfold dict_keys.
      rewrite map_app, <- app_assoc. reflexivity.
Qed.

(** X14. A node of kind object that draws no original value is synthesized
    as a mapping that has exactly the property names of the node, in their
    order (the names being distinct). *)
Theorem X14_object_synthesis_keys (schema : node) (field_name : string) (r : rng) :
  s_type schema = Some "object" -> has_originals schema = false ->
  keys_unique (dict_keys (get_properties schema)) = true ->
  exists mock_object r',
    generate_mock_value schema field_name r = (Returns (JDict mock_object), r')
    /\ dict_keys mock_object = dict_keys (get_properties schema).
Proof.
  intros Ht Hno Hu. rewrite generate_mock_value_eq.
  unfold MockDataGenerator.generate_body. rewrite (preserved_or_otherwise _ _ _ Hno).
  rewrite Ht. cbn [from_option id String.eqb Ascii.eqb Bool.eqb].
  unfold MockDataGenerator._generate_mock_object. unfold MockDataGenerator.gbind at 1.
  destruct (gfold_properties_keys generate_mock_value field_name (get_properties schema))
    with (mock_object := @nil (string * json)) (r := r) as (m & r' & -> & Hkeys).
  - intros prop_name prop_schema _.
    apply (returns_mock_property rng random_below randint random_amount lower random_below_lt).
    apply (generate_mock_value_returns rng random_below randint random_amount
             _generate_mock_string _generate_mock_number lower random_below_lt).
  - exact Hu.
  - intros name _ [].
  - exists m, r'. split; [reflexivity|exact Hkeys].
Qed.

Lemma gtimes_length {A} (n : nat) (m : gen A) :
  MockDataGenerator.returns rng m ->
  forall r, exists xs r',
    MockDataGenerator.gtimes rng n m r = (Returns xs, r') /\ length xs = n.
Proof.
  intros Hm. induction n as [|n IH]; intros r.
  - exists [], r. now split.
  - cbn [MockDataGenerator.gtimes]. unfold MockDataGenerator.gbind at 1.
    destruct (Hm r) as (x & r1 & ->). unfold MockDataGenerator.gbind at 1.
    destruct (IH r1) as (xs & r' & -> & Hlen). exists (x :: xs), r'.
    split; [reflexivity|]. cbn. now rewrite Hlen.
Qed.

(** X15. A node of kind array that draws no original value is synthesized
    as a list whose length is the number that [random.randint(1, 5)]
    returns: between one and five items when that number is within its
    bounds. *)
Theorem X15_array_synthesis_length (schema : node) (field_name : string) (r : rng) :
  s_type schema = Some "array" -> has_originals schema = false ->
  exists items r',
    generate_mock_value schema field_name r = (Returns (JList items), r')
    /\ length items = Z.to_nat (fst (randint 1 5 r))
    /\ (1 <= fst (randint 1 5 r) <= 5 -> (1 <= length items <= 5)%nat).
Proof.
  intros Ht Hno. rewrite generate_mock_value_eq.
  unfold MockDataGenerator.generate_body. rewrite (preserved_or_otherwise _ _ _ Hno).
  rewrite Ht. cbn [from_option id String.eqb Ascii.eqb Bool.eqb].
  unfold MockDataGenerator._generate_mock_array.
  unfold MockDataGenerator.gbind at 1. unfold MockDataGenerator.glift.
  destruct (randint 1 5 r) as [array_length r1]. cbn [fst].
  unfold MockDataGenerator.gbind at 1.
  destruct (gtimes_length (Z.to_nat array_length)
              (generate_mock_value (get_items (leaf "string") schema) field_name)) with (r := r1)
    as (items & r' & -> & Hlen).
  - apply (generate_mock_value_returns rng random_below randint random_amount
             _generate_mock_string _generate_mock_number lower random_below_lt).
  - exists items, r'. split; [reflexivity|]. split; [exact Hlen|]. lia.
Qed.

End SynthesisResults.

Lemma X13_preserved_node_draws_original_witness :
  exists value r',
    FirstChoice.generate_mock_value
      (Schema (Some "object") (Some [("code", leaf "number")]) None (Some true)
              (Some [JNull; JDict [("code", JInt 1)]])) "status" O
    = (Returns value, r')
    /\ In value [JNull; JDict [("code", JInt 1)]].
Proof.
  assert (Hlt : forall n r, (0 < n)%nat -> (fst (FirstChoice.random_below n r) < n)%nat)
    by (intros n r H; exact H).
  assert (Hne : [JNull; JDict [("code", JInt 1)]] <> []) by discriminate.
  apply (X13_preserved_node_draws_original _ _ _ _ _ _ _ Hlt
           (Schema (Some "object") (Some [("code", leaf "number")]) None (Some true)
                   (Some [JNull; JDict [("code", JInt 1)]]))
           "status" O [JNull; JDict [("code", JInt 1)]] eq_refl eq_refl Hne).
Defined.

Lemma X14_object_synthesis_keys_witness :
  exists mock_object r',
    FirstChoice.generate_mock_value
      (object [("policyId", leaf "string"); ("amount", leaf "number");
               ("tags", array (leaf "string"))]) "policy" O
    = (Returns (JDict mock_object), r')
    /\ dict_keys mock_object = ["policyId"; "amount"; "tags"].
Proof.
  assert (Hlt : forall n r, (0 < n)%nat -> (fst (FirstChoice.random_below n r) < n)%nat)
    by (intros n r H; exact H).
  apply (X14_object_synthesis_keys FirstChoice.rng FirstChoice.random_below FirstChoice.randint
           FirstChoice.random_amount FirstChoice._generate_mock_string
           FirstChoice._generate_mock_number FirstChoice.lower Hlt
           (object [("policyId", leaf "string"); ("amount", leaf "number");
                    ("tags", array (leaf "string"))]) "policy" O);
    reflexivity.
Defined.

Lemma X15_array_synthesis_length_witness :
  exists items r',
    FirstChoice.generate_mock_value (array (leaf "number")) "amounts" O
    = (Returns (JList items), r')
    /\ length items = 1%nat.
Proof.
  assert (Hlt : forall n r, (0 < n)%nat -> (fst (FirstChoice.random_below n r) < n)%nat)
    by (intros n r H; exact H).
  destruct (X15_array_synthesis_length FirstChoice.rng FirstChoice.random_below FirstChoice.randint
           FirstChoice.random_amount FirstChoice._generate_mock_string
           FirstChoice._generate_mock_number FirstChoice.lower Hlt
              (array (leaf "number")) "amounts" O eq_refl eq_refl)
    as (items & r' & H & Hlen & _).
  exists items, r'. split; [exact H|exact Hlen].
Defined.

(** X16. The merger does not deepen a schema: the merge of two well-formed
    nodes has no more levels of objects and arrays than the deeper of the
    two. *)
Theorem X16_merge_no_deeper (a b : node) :
  well_formed a = true -> well_formed b = true ->
  (height (MockDataGenerator._merge_structures a b) <= Nat.max (height a) (height b))%nat.
Proof.
  intros Ha Hb. apply merge_height; [exact Ha|exact Hb|apply Nat.le_max_l|apply Nat.le_max_r].
Qed.

Lemma X16_merge_no_deeper_witness :
  (height (MockDataGenerator._merge_structures
             (object [("a", array (leaf "number"))])
             (object [("a", array (object [("b", leaf "string")])); ("c", leaf "string")]))
   <= 3)%nat.
Proof.
  apply (X16_merge_no_deeper
           (object [("a", array (leaf "number"))])
           (object [("a", array (object [("b", leaf "string")])); ("c", leaf "string")]));
    reflexivity.
Defined.

(** ** The schema of an entity *)

Lemma collect_responses_from (examples : list json) :
  forall acc,
    ofold (fun all_responses example =>
             match example with
             | JDict d =>
                 let response := default (JDict []) (dict_get "response" d) in
                 Returns (if py_truthy response then all_responses ++ [response]
                          else all_responses)
             | _ => Raises "AttributeError"
             end) examples acc
    = if forallb is_mapping examples
      then Returns (acc ++ map response_of (List.filter has_response examples))
      else Raises "AttributeError".
Proof.
  induction examples as [|example rest IH]; intros acc.
  - cbn. now rewrite app_nil_r.
  - cbn [ofold forallb List.filter].
    destruct example as [| | | | | |d]; try reflexivity.
    cbn [obind is_mapping andb]. rewrite IH. unfold has_response at 2.
    cbn [is_mapping andb response_of].
    destruct (forallb is_mapping rest); [|reflexivity].
    destruct (py_truthy _); [|reflexivity].
    cbn [map response_of]. now rewrite <- app_assoc.
Qed.

Lemma collect_responses_spec (examples : list json) :
  MockDataGenerator.collect_responses examples
  = if forallb is_mapping examples
    then Returns (map response_of (List.filter has_response examples))
    else Raises "AttributeError".
Proof. unfold MockDataGenerator.collect_responses. now rewrite collect_responses_from. Qed.

Lemma filter_has_response_mapping (examples : list json) :
  forallb is_mapping (List.filter has_response examples) = true.
Proof.
  induction examples as [|example rest IH]; [reflexivity|]. cbn [List.filter].
  destruct (has_response example) eqn:E; [|exact IH].
  cbn [forallb]. unfold has_response in E. apply andb_true_iff in E as [-> _]. exact IH.
Qed.

Lemma filter_has_response_twice (examples : list json) :
  List.filter has_response (List.filter has_response examples)
  = List.filter has_response examples.
Proof.
  induction examples as [|example rest IH]; [reflexivity|]. cbn [List.filter].
  destruct (has_response example) eqn:E; [|exact IH].
  cbn [List.filter]. now rewrite E, IH.
Qed.

Lemma unify_well_formed (first : json) (others : list json) :
  well_formed (MockDataGenerator.unify first others) = true.
Proof.
  unfold MockDataGenerator.unify. generalize (analyze_well_formed first 10).
  generalize (MockDataGenerator._analyze_structure first 10) as base_structure.
  induction others as [|response others IH]; intros base_structure Hb; [exact Hb|].
  cbn [fold_left]. apply IH. apply merge_well_formed; [exact Hb|apply analyze_well_formed].
Qed.

Lemma annotate_well_formed (preserve : string -> bool) (s : node) (examples : list json) :
  well_formed (_add_preserved_field_info preserve s examples) = well_formed s.
Proof.
  rewrite <- (well_formed_erase (_add_preserved_field_info preserve s examples)).
  rewrite annotate_erase. apply well_formed_erase.
Qed.

(** X17. [_analyze_entity_structure] raises [AttributeError] exactly when
    some example is not a mapping. On mappings it returns a well-formed
    schema, and the examples without a response, or with a response of false
    truth value ([None], [[]], [{}], [""], [0]), count for nothing: the
    schema is that of the examples that have a response, and the empty
    object schema when no example has one. *)
Theorem X17_entity_schema_outcome (preserve_fields : list string) (examples : list json) :
  (forallb is_mapping examples = false ->
   MockDataGenerator._analyze_entity_structure preserve_fields examples
   = Raises "AttributeError")
  /\ (forallb is_mapping examples = true ->
      (exists schema,
          MockDataGenerator._analyze_entity_structure preserve_fields examples
          = Returns schema
          /\ well_formed schema = true)
      /\ MockDataGenerator._analyze_entity_structure preserve_fields examples
         = MockDataGenerator._analyze_entity_structure preserve_fields
             (List.filter has_response examples)
      /\ (List.filter has_response examples = [] ->
          MockDataGenerator._analyze_entity_structure preserve_fields examples
          = Returns (object []))).
Proof.
  unfold MockDataGenerator._analyze_entity_structure.
  rewrite !collect_responses_spec, filter_has_response_mapping, filter_has_response_twice.
  split; [now intros ->|]. intros ->. cbn [obind]. split; [|split; [reflexivity|]].
  - destruct (map response_of (List.filter has_response examples)) as [|first others];
      [now exists (object [])|].
    assert (Hw : well_formed (MockDataGenerator.unify first others) = true)
      by apply unify_well_formed.
    destruct (type_is "array" _) eqn:Ha; eexists; (split; [reflexivity|]).
    + unfold update_items.
      destruct (MockDataGenerator.unify first others) as [t p [i|] po ov] eqn:Eu;
        cbn [s_items]; [|exact Hw].
      apply type_is_spec in Ha. cbn [s_type] in Ha. subst t.
      cbn in Hw |- *. unfold MockDataGenerator._add_preserved_field_info.
      now rewrite annotate_well_formed.
    + unfold MockDataGenerator._add_preserved_field_info. now rewrite annotate_well_formed.
  - now intros ->.
Qed.

Lemma X17_entity_schema_outcome_witness :
  MockDataGenerator._analyze_entity_structure ["id"]
    [JDict [("entity", JStr "E"); ("response", JList [])]; JDict [("entity", JStr "E")]]
  = Returns (object [])
  /\ MockDataGenerator._analyze_entity_structure ["id"]
       [JDict [("response", JDict [("id", JStr "life")])]; JList []]
     = Raises "AttributeError".
Proof.
  split.
  - apply (proj2 (X17_entity_schema_outcome ["id"]
                    [JDict [("entity", JStr "E"); ("response", JList [])];
                     JDict [("entity", JStr "E")]])); reflexivity.
  - apply (proj1 (X17_entity_schema_outcome ["id"]
                    [JDict [("response", JDict [("id", JStr "life")])]; JList []])).
    reflexivity.
Defined.

Lemma merge_type (a b : node) :
  s_type (MockDataGenerator._merge_structures a b) = s_type a
  \/ s_type (MockDataGenerator._merge_structures a b) = s_type b.
Proof.
  rewrite _merge_structures_eq. unfold MockDataGenerator.merge_body.
  destruct (type_differs a b); [destruct (negb _); auto|].
  destruct (type_is "object" a) eqn:Ho; [apply type_is_spec in Ho; now left|].
  destruct (type_is "array" a) eqn:Ha; [apply type_is_spec in Ha; now left|now left].
Qed.

Lemma unify_type (first : json) (others : list json) :
  exists response,
    In response (first :: others)
    /\ s_type (MockDataGenerator.unify first others)
       = s_type (MockDataGenerator._analyze_structure response 10).
Proof.
  unfold MockDataGenerator.unify.
  enough (H : forall base_structure,
             s_type (fold_left (fun base_structure response =>
                                  MockDataGenerator._merge_structures base_structure
                                    (MockDataGenerator._analyze_structure response 10))
                               others base_structure) = s_type base_structure
             \/ exists response,
                 In response others
                 /\ s_type (fold_left (fun base_structure response =>
                                         MockDataGenerator._merge_structures base_structure
                                           (MockDataGenerator._analyze_structure response 10))
                                      others base_structure)
                    = s_type (MockDataGenerator._analyze_structure response 10)).
  { destruct (H (MockDataGenerator._analyze_structure first 10)) as [E|(r & Hin & E)].
    - exists first. split; [now left|exact E].
    - exists r. split; [now right|exact E]. }
  induction others as [|response others IH]; intros base_structure; [now left|].
  cbn [fold_left].
  destruct (IH (MockDataGenerator._merge_structures base_structure
                  (MockDataGenerator._analyze_structure response 10)))
    as [E|(r & Hin & E)].
  - rewrite E.
    destruct (merge_type base_structure (MockDataGenerator._analyze_structure response 10))
      as [E'|E']; [now left|].
    right. exists response. split; [now left|exact E'].
  - right. exists r. split; [now right|exact E].
Qed.

Lemma analyze_array_is_list (obj : json) (max_depth : Z) :
  s_type (MockDataGenerator._analyze_structure obj max_depth) = Some "array" ->
  exists l, obj = JList l.
Proof.
  destruct obj as [| | | | |l|d]; cbn [MockDataGenerator._analyze_structure];
    destruct (max_depth <=? 0); try discriminate. eauto.
Qed.

Lemma flatten_responses_truthy (all_responses : list json) (l : list json) :
  In (JList l) all_responses -> truthy l = true ->
  truthy (MockDataGenerator.flatten_responses all_responses) = true.
Proof.
  unfold MockDataGenerator.flatten_responses. intros Hin Hl.
  enough (H : forall acc,
             (truthy acc = true \/ In (JList l) all_responses) ->
             truthy (fold_left (fun all_items resp =>
                                  match resp with
                                  | JList l => all_items ++ l
                                  | _ => all_items
                                  end) all_responses acc) = true)
    by (apply H; now right).
  clear Hin. induction all_responses as [|resp rest IH]; intros acc [Ha|Hin].
  - exact Ha.
  - destruct Hin.
  - cbn [fold_left]. apply IH. left.
    destruct resp; try exact Ha. destruct acc; [discriminate|reflexivity].
  - cbn [fold_left]. apply IH. destruct Hin as [->|Hin]; [left|now right].
    destruct acc, l; try discriminate; reflexivity.
Qed.

Lemma responses_truthy (examples : list json) (response : json) :
  In response (map response_of (List.filter has_response examples)) ->
  py_truthy response = true.
Proof.
  rewrite in_map_iff. intros (example & <- & Hin).
  apply filter_In in Hin as [_ H]. unfold has_response in H.
  now apply andb_true_iff in H.
Qed.

(** X18. When some example has a response, the schema of the entity is the
    unified schema of the responses, annotated with the responses; when the
    unified schema is of kind array, it is annotated with the items of all
    the responses that are lists, of which there is at least one: the
    annotation of a top-level array is the annotation that an array node
    gets anywhere else. *)
Theorem X18_entity_schema_annotated (preserve_fields : list string)
    (examples : list json) (first : json) (others : list json) :
  MockDataGenerator.collect_responses examples = Returns (first :: others) ->
  let base_structure := MockDataGenerator.unify first others in
  MockDataGenerator._analyze_entity_structure preserve_fields examples
  = Returns (MockDataGenerator._add_preserved_field_info preserve_fields base_structure
               (if type_is "array" base_structure
                then MockDataGenerator.flatten_responses (first :: others)
                else first :: others))
  /\ (type_is "array" base_structure = true ->
      MockDataGenerator.flatten_responses (first :: others) <> []).
Proof.
  intros Hc. cbv zeta. unfold MockDataGenerator._analyze_entity_structure.
  rewrite Hc. cbn [obind].
  assert (Hitems : type_is "array" (MockDataGenerator.unify first others) = true ->
                   truthy (MockDataGenerator.flatten_responses (first :: others)) = true).
  { intros Ha. apply type_is_spec in Ha.
    destruct (unify_type first others) as (response & Hin & E).
    rewrite E in Ha. apply analyze_array_is_list in Ha as [l ->].
    apply (flatten_responses_truthy _ l Hin).
    rewrite collect_responses_spec in Hc.
    destruct (forallb is_mapping examples); [|discriminate].
    injection Hc as Hc. rewrite <- Hc in Hin. exact (responses_truthy _ _ Hin). }
  split.
  - destruct (type_is "array" _) eqn:Ha; [|reflexivity].
    f_equal. unfold MockDataGenerator._add_preserved_field_info.
    apply update_items_array; [exact Ha|now apply Hitems].
  - intros Ha. specialize (Hitems Ha).
    destruct (MockDataGenerator.flatten_responses (first :: others)); discriminate.
Qed.

Lemma X18_entity_schema_annotated_witness :
  MockDataGenerator._analyze_entity_structure ["id"]
    [JDict [("response", JList [JDict [("id", JStr "life")]])];
     JDict [("response", JList [JDict [("id", JStr "travel")]])]]
  = Returns (array (object [("id", Schema (Some "string") None None (Some true)
                                          (Some [JStr "life"; JStr "travel"]))])).
Proof.
  apply (proj1 (X18_entity_schema_annotated ["id"]
                  [JDict [("response", JList [JDict [("id", JStr "life")]])];
                   JDict [("response", JList [JDict [("id", JStr "travel")]])]]
                  (JList [JDict [("id", JStr "life")]])
                  [JList [JDict [("id", JStr "travel")]]] eq_refl)).
Defined.

(** ** The validation of a record against an insurance schema *)

Lemma validate_data_errors (self : InsuranceSchemas.InsuranceSchema) (data : dict json) :
  InsuranceSchemas.validate_data self data
  = flat_map (field_errors data) (InsuranceSchemas.required_fields self).
Proof.
  unfold InsuranceSchemas.validate_data.
  enough (H : forall fields errors,
             fold_left (fun errors '(field_name, field_def) =>
                          match dict_get field_name data with
                          | None =>
                              if InsuranceSchemas.required field_def
                              then errors ++ [("Missing required field: " ++ field_name)%string]
                              else errors
                          | Some v =>
                              if negb (InsuranceSchemas._validate_field_type v
                                         (InsuranceSchemas.field_type field_def))
                              then errors
                                   ++ [("Invalid type for field " ++ field_name
                                        ++ ": expected "
                                        ++ InsuranceSchemas.value
                                             (InsuranceSchemas.field_type field_def))%string]
                              else errors
                          end) fields errors
             = errors ++ flat_map (field_errors data) fields) by apply H.
  induction fields as [|[field_name field_def] fields IH]; intros errors.
  - cbn. now rewrite app_nil_r.
  - cbn [fold_left flat_map]. rewrite IH. unfold field_errors at 2. cbn [fst snd].
    destruct (dict_get field_name data) as [v|].
    + destruct (negb _); [now rewrite <- app_assoc|reflexivity].
    + destruct (InsuranceSchemas.required field_def); [now rewrite <- app_assoc|reflexivity].
Qed.

Lemma field_errors_ok (data : dict json)
    (field : string * InsuranceSchemas.FieldDefinition) :
  field_errors data field = [] <-> field_ok data field = true.
Proof.
  unfold field_errors, field_ok. destruct (dict_get (fst field) data) as [v|].
  - destruct (InsuranceSchemas._validate_field_type v _); cbn; split; congruence.
  - destruct (InsuranceSchemas.required (snd field)); cbn; split; congruence.
Qed.

(** X19. [validate_data] returns no error exactly when every field of the
    schema that is required is in the data, and every field of the schema
    that is in the data has a value of its type. *)
Theorem X19_validate_data_no_error (self : InsuranceSchemas.InsuranceSchema)
    (data : dict json) :
  InsuranceSchemas.validate_data self data = []
  <-> forall field_name field_def,
        In (field_name, field_def) (InsuranceSchemas.required_fields self) ->
        (InsuranceSchemas.required field_def = true ->
         exists v, dict_get field_name data = Some v)
        /\ (forall v, dict_get field_name data = Some v ->
                      InsuranceSchemas._validate_field_type v
                        (InsuranceSchemas.field_type field_def) = true).
Proof.
  rewrite validate_data_errors. split.
  - intros H field_name field_def Hin.
    assert (Hok : field_ok data (field_name, field_def) = true).
    { apply field_errors_ok.
      destruct (field_errors data (field_name, field_def)) as [|e es] eqn:E; [reflexivity|].
      exfalso. assert (Hine : In e (flat_map (field_errors data)
                                      (InsuranceSchemas.required_fields self))).
      { apply in_flat_map. exists (field_name, field_def). split; [exact Hin|].
        rewrite E. now left. }
      rewrite H in Hine. destruct Hine. }
    unfold field_ok in Hok. cbn [fst snd] in Hok.
    destruct (dict_get field_name data) as [v|].
    + split; [eauto|]. now intros v' [= <-].
    + split; [|discriminate]. intros Hr. rewrite Hr in Hok. discriminate.
  - intros H. induction (InsuranceSchemas.required_fields self) as [|[name def] fields IH];
      [reflexivity|].
    cbn [flat_map]. rewrite IH; [|intros n d Hin; apply H; now right].
    rewrite app_nil_r. apply field_errors_ok. unfold field_ok. cbn [fst snd].
    destruct (H name def (or_introl eq_refl)) as [Hreq Hty].
    destruct (dict_get name data) as [v|].
    + now apply Hty.
    + destruct (InsuranceSchemas.required def); [|reflexivity].
      destruct Hreq as [v Hv]; [reflexivity|discriminate].
Qed.

(** X20. [validate_data] reports at most one error for each field of the
    schema, and on empty data exactly the missing-field error of every
    required field, in the order of the schema. *)
Theorem X20_validate_data_errors_bounded (self : InsuranceSchemas.InsuranceSchema)
    (data : dict json) :
  (length (InsuranceSchemas.validate_data self data)
   <= length (InsuranceSchemas.required_fields self))%nat
  /\ InsuranceSchemas.validate_data self []
     = map (fun field => ("Missing required field: " ++ fst field)%string)
           (List.filter (fun field => InsuranceSchemas.required (snd field))
                        (InsuranceSchemas.required_fields self)).
Proof.
  rewrite !validate_data_errors. split.
  - induction (InsuranceSchemas.required_fields self) as [|field fields IH]; [cbn; lia|].
    cbn [flat_map length]. rewrite length_app.
    assert (Hone : (length (field_errors data field) <= 1)%nat).
    { unfold field_errors. destruct (dict_get (fst field) data).
      - destruct (negb _); cbn; lia.
      - destruct (InsuranceSchemas.required (snd field)); cbn; lia. }
    lia.
  - induction (InsuranceSchemas.required_fields self) as [|field fields IH]; [reflexivity|].
    cbn [flat_map List.filter]. rewrite IH. unfold field_errors at 1. cbn [dict_get].
    now destruct (InsuranceSchemas.required (snd field)).
Qed.

(** X21. [validate_data] reads the fields of the schema only: a key of the
    data that is no field of the schema changes no error, whatever its
    value. *)
Theorem X21_validate_data_ignores_other_keys (self : InsuranceSchemas.InsuranceSchema)
    (data : dict json) (key : string) (v : json) :
  ~ In key (dict_keys (InsuranceSchemas.required_fields self)) ->
  InsuranceSchemas.validate_data self (dict_set key v data)
  = InsuranceSchemas.validate_data self data.
Proof.
  intros Hnot. rewrite !validate_data_errors.
  induction (InsuranceSchemas.required_fields self) as [|[name def] fields IH];
    [reflexivity|].
  cbn [flat_map]. rewrite IH.
  - f_equal. unfold field_errors. cbn [fst snd].
    rewrite dict_get_set_ne; [reflexivity|]. intros ->. apply Hnot. now left.
  - intros H. apply Hnot. now right.
Qed.

Lemma X21_validate_data_ignores_other_keys_witness :
  let schema :=
    InsuranceSchemas.Build_InsuranceSchema "vehicle"
      [("policyId", InsuranceSchemas.Build_FieldDefinition InsuranceSchemas.STRING true
                      JNull None (Some "policy_id"));
       ("isActive", InsuranceSchemas.Build_FieldDefinition InsuranceSchemas.BOOLEAN true
                      JNull None None)] [] in
  InsuranceSchemas.validate_data schema
    (dict_set "_mock_id" (JInt 1) [("policyId", JInt 7)])
  = ["Invalid type for field policyId: expected string";
     "Missing required field: isActive"].
Proof.
  cbv zeta.
  rewrite X21_validate_data_ignores_other_keys; [reflexivity|].
  cbn. intuition discriminate.
Defined.

(** ** The records of [generate_mock_data_for_schema] *)

Section Records.

Variable rng : Type.
Variable random_below : nat -> rng -> nat * rng.
Variable randint : Z -> Z -> rng -> Z * rng.
Variable random_amount : rng -> Q * rng.
Variable _generate_mock_string : string -> rng -> json * rng.
Variable _generate_mock_number : string -> rng -> json * rng.
Variable lower : string -> string.
Variable iso8601 : rng -> string * rng.

(** [random._randbelow(n)] is below [n]. *)
Hypothesis random_below_lt :
  forall n r, (0 < n)%nat -> (fst (random_below n r) < n)%nat.

Local Abbreviation generate_mock_value :=
  (MockDataGenerator.generate_mock_value rng random_below randint random_amount
     _generate_mock_string _generate_mock_number lower).
Local Abbreviation fresh_records :=
  (MockDataGenerator.fresh_records rng random_below randint random_amount
     _generate_mock_string _generate_mock_number lower iso8601).
Local Abbreviation shared_records :=
  (MockDataGenerator.shared_records rng random_below iso8601).
Local Abbreviation generate_mock_data_for_schema :=
  (MockDataGenerator.generate_mock_data_for_schema rng random_below randint random_amount
     _generate_mock_string _generate_mock_number lower iso8601).

Lemma generate_returns (schema : node) (field_name : string) (r : rng) :
  exists value r', generate_mock_value schema field_name r = (Returns value, r').
Proof.
  apply (generate_mock_value_returns rng random_below randint random_amount
           _generate_mock_string _generate_mock_number lower random_below_lt).
Qed.

Lemma fresh_records_length (schema_name : string) (schema_structure : node) (n : nat) :
  forall i r, exists records r',
    fresh_records schema_name schema_structure n i r = (Returns records, r')
    /\ length records = n.
Proof.
  induction n as [|n IH]; intros i r.
  - exists [], r. now split.
  - cbn [MockDataGenerator.fresh_records]. unfold MockDataGenerator.gbind at 1.
    destruct (generate_returns schema_structure schema_name r) as (v & r1 & ->).
    unfold MockDataGenerator.gbind at 1.
    assert (Hrec : exists record r2,
               match v with
               | JDict d =>
                   MockDataGenerator.gbind rng (MockDataGenerator.glift rng iso8601)
                     (fun generated_at =>
                        MockDataGenerator.gret rng
                          (JDict (MockDataGenerator.add_metadata i generated_at d)))
               | _ => MockDataGenerator.gret rng v
               end r1 = (Returns record, r2)).
    { destruct v; try (eexists _, _; reflexivity).
      unfold MockDataGenerator.gbind, MockDataGenerator.glift.
      destruct (iso8601 r1). eexists _, _; reflexivity. }
    destruct Hrec as (record & r2 & ->). unfold MockDataGenerator.gbind at 1.
    destruct (IH (i + 1) r2) as (records & r' & -> & Hlen).
    exists (record :: records), r'. split; [reflexivity|]. cbn. now rewrite Hlen.
Qed.

Lemma shared_records_length (n : nat) :
  forall i values drawn r,
    values <> [] ->
    exists records r',
      shared_records n i values drawn r = (Returns records, r')
      /\ length records = (length drawn + n)%nat.
Proof.
  induction n as [|n IH]; intros i values drawn r Hne.
  - eexists _, r. split; [reflexivity|]. rewrite length_map. lia.
  - cbn [MockDataGenerator.shared_records].
    unfold MockDataGenerator.gbind at 1. unfold MockDataGenerator.glift at 1.
    assert (Hpos : (0 < length values)%nat) by (destruct values; [congruence|cbn; lia]).
    pose proof (random_below_lt (length values) r Hpos) as Hlt.
    destruct (random_below (length values) r) as [j r1]. cbn [fst] in Hlt.
    destruct (nth_error values j) as [v|] eqn:E;
      [|apply nth_error_None in E; lia].
    assert (Hgoal : forall values',
               values' <> [] ->
               exists records r',
                 shared_records n (i + 1) values' (drawn ++ [j]) r1 = (Returns records, r')
                 /\ length records = (length drawn + S n)%nat).
    { intros values' Hne'. destruct (IH (i + 1) values' (drawn ++ [j]) r1 Hne')
        as (records & r' & Hr & Hlen).
      exists records, r'. split; [exact Hr|]. rewrite Hlen, length_app. cbn. lia. }
    destruct v; try (apply Hgoal; exact Hne).
    unfold MockDataGenerator.gbind, MockDataGenerator.glift.
    destruct (iso8601 r1) as [generated_at r2].
    destruct (IH (i + 1) (<[j := JDict (MockDataGenerator.add_metadata i generated_at d)]> values)
                 (drawn ++ [j]) r2) as (records & r' & Hr & Hlen).
    + intros Hnil. apply (f_equal length) in Hnil. rewrite length_insert in Hnil.
      cbn in Hnil. lia.
    + exists records, r'. split; [exact Hr|]. rewrite Hlen, length_app. cbn. lia.
Qed.

Lemma add_metadata_mock_id (i : Z) (generated_at : string) (mock_record : dict json) :
  dict_get "_mock_id" (MockDataGenerator.add_metadata i generated_at mock_record)
  = Some (JInt (i + 1)).
Proof.
  unfold MockDataGenerator.add_metadata.
  rewrite dict_get_set_ne by discriminate. apply dict_get_set_eq.
Qed.

Lemma add_metadata_generated_at (i : Z) (generated_at : string) (mock_record : dict json) :
  dict_get "_generated_at" (MockDataGenerator.add_metadata i generated_at mock_record)
  = Some (JStr generated_at).
Proof. apply dict_get_set_eq. Qed.

Lemma object_returns_mapping (schema : node) (field_name : string) (r : rng) :
  s_type schema = Some "object" -> has_originals schema = false ->
  exists mock_object r',
    generate_mock_value schema field_name r = (Returns (JDict mock_object), r').
Proof.
  intros Ht Hno.
  rewrite (generate_mock_value_eq rng random_below randint random_amount
             _generate_mock_string _generate_mock_number lower).
  unfold MockDataGenerator.generate_body.
  rewrite (preserved_or_otherwise rng random_below _ _ _ Hno).
  rewrite Ht. cbn [from_option id String.eqb Ascii.eqb Bool.eqb].
  unfold MockDataGenerator._generate_mock_object. unfold MockDataGenerator.gbind at 1.
  destruct (returns_gfold rng
              (fun mock_object '(prop_name, prop_schema) =>
                 MockDataGenerator.gbind rng
                   (MockDataGenerator.mock_property rng random_below randint random_amount lower
                      generate_mock_value field_name prop_name prop_schema)
                   (fun v => MockDataGenerator.gret rng (dict_set prop_name v mock_object)))
              (get_properties schema)) with (a := @nil (string * json)) (r := r)
    as (m & r' & ->).
  - intros a [prop_name prop_schema] _. apply returns_gbind.
    + apply (returns_mock_property rng random_below randint random_amount lower
               random_below_lt).
      apply (generate_mock_value_returns rng random_below randint random_amount
               _generate_mock_string _generate_mock_number lower random_below_lt).
    + intros v. apply returns_gret.
  - now exists m, r'.
Qed.

Lemma fresh_records_metadata (schema_name : string) (schema_structure : node) (n : nat) :
  forall i r mock_records r',
    fresh_records schema_name schema_structure n i r = (Returns mock_records, r') ->
    forall k mock_record,
      nth_error mock_records k = Some (JDict mock_record) ->
      dict_get "_mock_id" mock_record = Some (JInt (i + Z.of_nat k + 1))
      /\ exists generated_at,
           dict_get "_generated_at" mock_record = Some (JStr generated_at).
Proof.
  induction n as [|n IH]; intros i r mock_records r' Hr k mock_record Hk.
  - injection Hr as <- _. now destruct k.
  - cbn [MockDataGenerator.fresh_records] in Hr. unfold MockDataGenerator.gbind at 1 in Hr.
    destruct (generate_mock_value schema_structure schema_name r) as [[v|e] r1];
      [|discriminate].
    unfold MockDataGenerator.gbind at 1 in Hr.
    destruct (match v with
              | JDict d =>
                  MockDataGenerator.gbind rng (MockDataGenerator.glift rng iso8601)
                    (fun generated_at =>
                       MockDataGenerator.gret rng
                         (JDict (MockDataGenerator.add_metadata i generated_at d)))
              | _ => MockDataGenerator.gret rng v
              end r1) as [[record|e] r2] eqn:Estamp; [|discriminate].
    unfold MockDataGenerator.gbind at 1 in Hr.
    destruct (fresh_records schema_name schema_structure n (i + 1) r2)
      as [[rest|e] r3] eqn:Erest; [|discriminate].
    injection Hr as <- _.
    destruct k as [|k].
    + cbn in Hk. injection Hk as Hk. subst record.
      destruct v; try (cbn in Estamp; discriminate).
      unfold MockDataGenerator.gbind, MockDataGenerator.glift in Estamp.
      destruct (iso8601 r1) as [generated_at r1'].
      cbn in Estamp. injection Estamp as Estamp _. subst mock_record.
      rewrite add_metadata_mock_id, add_metadata_generated_at.
      split; [f_equal; f_equal; lia|now exists generated_at].
    + cbn in Hk. destruct (IH (i + 1) r2 rest r3 Erest k mock_record Hk) as [Hid Hat].
      split; [rewrite Hid; f_equal; f_equal; lia|exact Hat].
Qed.

Lemma fresh_records_mappings (schema_name : string) (schema_structure : node) (n : nat) :
  s_type schema_structure = Some "object" -> has_originals schema_structure = false ->
  forall i r mock_records r',
    fresh_records schema_name schema_structure n i r = (Returns mock_records, r') ->
    forallb is_mapping mock_records = true.
Proof.
  intros Ht Hno. induction n as [|n IH]; intros i r mock_records r' Hr.
  - now injection Hr as <- _.
  - cbn [MockDataGenerator.fresh_records] in Hr. unfold MockDataGenerator.gbind at 1 in Hr.
    destruct (object_returns_mapping schema_structure schema_name r Ht Hno)
      as (d & r1 & Hd).
    rewrite Hd in Hr. unfold MockDataGenerator.gbind at 1 2 in Hr.
    unfold MockDataGenerator.glift in Hr. destruct (iso8601 r1) as [generated_at r2].
    cbn [MockDataGenerator.gret] in Hr. unfold MockDataGenerator.gbind at 1 in Hr.
    destruct (fresh_records schema_name schema_structure n (i + 1) r2)
      as [[rest|e] r3] eqn:Erest; [|discriminate].
    injection Hr as <- _. cbn. exact (IH (i + 1) r2 rest r3 Erest).
Qed.

(** X23. When the root node of the schema draws no original value, every
    record of [generate_mock_data_for_schema] that is a mapping carries its
    own position, counted from one, under [_mock_id] and a string under
    [_generated_at]; and for a root of kind object every record is a
    mapping. *)
Theorem X23_fresh_records_numbered (schema_name : string) (schema_structure : node)
    (num_records : Z) (r : rng) :
  has_originals schema_structure = false ->
  exists mock_records r',
    generate_mock_data_for_schema schema_name schema_structure num_records r
    = (Returns mock_records, r')
    /\ (forall k mock_record,
          nth_error mock_records k = Some (JDict mock_record) ->
          dict_get "_mock_id" mock_record = Some (JInt (Z.of_nat k + 1))
          /\ exists generated_at,
               dict_get "_generated_at" mock_record = Some (JStr generated_at))
    /\ (s_type schema_structure = Some "object" ->
        forallb is_mapping mock_records = true).
Proof.
  intros Hno. unfold MockDataGenerator.generate_mock_data_for_schema. rewrite Hno.
  destruct (fresh_records_length schema_name schema_structure (Z.to_nat num_records) 0 r)
    as (mock_records & r' & Hr & _).
  exists mock_records, r'. split; [exact Hr|]. split.
  - intros k mock_record Hk.
    exact (fresh_records_metadata _ _ _ _ _ _ _ Hr k mock_record Hk).
  - intros Ht. exact (fresh_records_mappings _ _ _ Ht Hno _ _ _ _ Hr).
Qed.

Lemma shared_records_single (n : nat) :
  forall i stored drawn r,
    Forall (fun j => j = O) drawn ->
    exists mock_record r',
      shared_records n i [JDict stored] drawn r
      = (Returns (repeat (JDict mock_record) (length drawn + n)), r')
      /\ (n = O -> mock_record = stored)
      /\ ((0 < n)%nat ->
          dict_get "_mock_id" mock_record = Some (JInt (i + Z.of_nat n))).
Proof.
  induction n as [|n IH]; intros i stored drawn r Hd.
  - exists stored, r. split; [|split; [reflexivity|lia]].
    cbn [MockDataGenerator.shared_records]. unfold MockDataGenerator.gret.
    do 2 f_equal. rewrite Nat.add_0_r. clear -Hd.
    induction Hd as [|j drawn -> _ IH]; [reflexivity|].
    cbn [map length repeat]. now rewrite IH.
  - cbn [MockDataGenerator.shared_records].
    unfold MockDataGenerator.gbind at 1. unfold MockDataGenerator.glift at 1.
    pose proof (random_below_lt (length [JDict stored]) r) as Hlt.
    destruct (random_below (length [JDict stored]) r) as [j r1].
    cbn [fst length] in Hlt. assert (j = O) as -> by lia.
    cbn [nth_error]. unfold MockDataGenerator.gbind, MockDataGenerator.glift.
    destruct (iso8601 r1) as [generated_at r2].
    change (<[O := JDict (MockDataGenerator.add_metadata i generated_at stored)]> [JDict stored])
      with [JDict (MockDataGenerator.add_metadata i generated_at stored)].
    destruct (IH (i + 1) (MockDataGenerator.add_metadata i generated_at stored)
                 (drawn ++ [O]) r2) as (mock_record & r' & Hr & Hzero & Hpos).
    + apply Forall_app. split; [exact Hd|]. now constructor.
    + exists mock_record, r'. split; [|split; [discriminate|]].
      * replace (length (drawn ++ [O]) + n)%nat with (length drawn + S n)%nat in Hr
          by (rewrite length_app; cbn; lia).
        exact Hr.
      * intros _. destruct n as [|n].
        -- rewrite (Hzero eq_refl), add_metadata_mock_id. f_equal; f_equal; lia.
        -- rewrite Hpos by lia. f_equal; f_equal; lia.
Qed.

(** X24. When the root node is marked [preserve_original] and holds a single
    original value that is a mapping, the records of
    [generate_mock_data_for_schema] are all that one stored object: the list
    holds [num_records] equal records, and each of them shows the
    [_mock_id] written last, [num_records], not its own position. *)
Theorem X24_shared_records_alias (schema_name : string) (schema_structure : node)
    (stored : dict json) (num_records : Z) (r : rng) :
  s_preserve_original schema_structure = Some true ->
  s_original_values schema_structure = Some [JDict stored] ->
  0 < num_records ->
  exists mock_record r',
    generate_mock_data_for_schema schema_name schema_structure num_records r
    = (Returns (repeat (JDict mock_record) (Z.to_nat num_records)), r')
    /\ dict_get "_mock_id" mock_record = Some (JInt num_records).
Proof.
  intros Hp Hv Hn. unfold MockDataGenerator.generate_mock_data_for_schema, has_originals.
  rewrite Hp, Hv. cbn [from_option id truthy andb].
  destruct (shared_records_single (Z.to_nat num_records) 0 stored [] r (List.Forall_nil _))
    as (mock_record & r' & Hr & _ & Hpos).
  exists mock_record, r'. split; [exact Hr|].
  rewrite Hpos by lia. f_equal; f_equal; lia.
Qed.

End Records.

Lemma X23_fresh_records_numbered_witness :
  exists mock_records r',
    first_choice_records "travel" (object [("policyId", leaf "string")]) 3 O
    = (Returns mock_records, r')
    /\ (forall k mock_record,
          nth_error mock_records k = Some (JDict mock_record) ->
          dict_get "_mock_id" mock_record = Some (JInt (Z.of_nat k + 1))
          /\ exists generated_at,
               dict_get "_generated_at" mock_record = Some (JStr generated_at))
    /\ (s_type (object [("policyId", leaf "string")]) = Some "object" ->
        forallb is_mapping mock_records = true).
Proof.
  assert (Hlt : forall n r, (0 < n)%nat -> (fst (FirstChoice.random_below n r) < n)%nat)
    by (intros n r H; exact H).
  apply (X23_fresh_records_numbered FirstChoice.rng FirstChoice.random_below
           FirstChoice.randint FirstChoice.random_amount FirstChoice._generate_mock_string
           FirstChoice._generate_mock_number FirstChoice.lower first_choice_iso8601 Hlt
           "travel" (object [("policyId", leaf "string")]) 3 O eq_refl).
Defined.

Lemma X24_shared_records_alias_witness :
  exists mock_record r',
    first_choice_records "travel"
      (Schema (Some "object") (Some [("policyId", leaf "string")]) None (Some true)
              (Some [JDict [("policyId", JStr "P-1")]])) 3 O
    = (Returns (repeat (JDict mock_record) 3), r')
    /\ dict_get "_mock_id" mock_record = Some (JInt 3).
Proof.
  assert (Hlt : forall n r, (0 < n)%nat -> (fst (FirstChoice.random_below n r) < n)%nat)
    by (intros n r H; exact H).
  assert (Hn : 0 < 3) by lia.
  apply (X24_shared_records_alias FirstChoice.rng FirstChoice.random_below
           FirstChoice.randint FirstChoice.random_amount FirstChoice._generate_mock_string
           FirstChoice._generate_mock_number FirstChoice.lower first_choice_iso8601 Hlt
           "travel"
           (Schema (Some "object") (Some [("policyId", leaf "string")]) None (Some true)
                   (Some [JDict [("policyId", JStr "P-1")]]))
           [("policyId", JStr "P-1")] 3 O eq_refl eq_refl Hn).
Defined.

(** ** The examples of one insurance type *)

Lemma fold_left_append {A B} (g : B -> list A) (l : list B) (acc : list A) :
  fold_left (fun acc x => acc ++ g x) l acc = acc ++ flat_map g l.
Proof.
  revert acc. induction l as [|x l IH]; intros acc; cbn; [now rewrite app_nil_r|].
  now rewrite IH, <- app_assoc.
Qed.

Lemma filter_example_step (insurance_type : string) (filtered_examples : list json)
    (example_file : outcome json) :
  match MockDataGenerator.filter_example insurance_type filtered_examples example_file with
  | Returns filtered_examples' => filtered_examples'
  | Raises _ => filtered_examples
  end = filtered_examples ++ kept insurance_type example_file.
Proof.
  unfold kept, MockDataGenerator.filter_example.
  destruct example_file as [example_data|e]; cbn [obind]; [|now rewrite app_nil_r].
  destruct example_data as [| | | | | |d]; try now rewrite app_nil_r.
  destruct (default (JDict []) (dict_get "response" d)); try now rewrite app_nil_r.
  destruct (truthy _); [|now rewrite app_nil_r].
  destruct (truthy _); [reflexivity|now rewrite app_nil_r].
Qed.

Lemma filter_examples_flat_map (example_files : list (outcome json))
    (insurance_type : string) :
  insurance_type <> "all" ->
  MockDataGenerator.filter_examples_by_insurance_type example_files insurance_type
  = flat_map (kept insurance_type) example_files.
Proof.
  intros Hall. unfold MockDataGenerator.filter_examples_by_insurance_type.
  destruct (String.eqb insurance_type "all") eqn:E;
    [apply String.eqb_eq in E; contradiction|].
  enough (H : forall acc,
             fold_left (fun filtered_examples example_file =>
                          match MockDataGenerator.filter_example insurance_type
                                  filtered_examples example_file with
                          | Returns filtered_examples' => filtered_examples'
                          | Raises _ => filtered_examples
                          end) example_files acc
             = acc ++ flat_map (kept insurance_type) example_files) by apply H.
  induction example_files as [|example_file rest IH]; intros acc;
    [cbn; now rewrite app_nil_r|].
  cbn [fold_left flat_map]. rewrite filter_example_step, IH. now rewrite <- app_assoc.
Qed.

Lemma load_examples_flat_map (example_files : list (outcome json)) :
  MockDataGenerator.load_examples example_files = flat_map loaded example_files.
Proof.
  unfold MockDataGenerator.load_examples.
  enough (H : forall acc,
             fold_left (fun all_examples example_file =>
                          match example_file with
                          | Returns example_data => all_examples ++ [example_data]
                          | Raises _ => all_examples
                          end) example_files acc
             = acc ++ flat_map loaded example_files) by apply H.
  induction example_files as [|example_file rest IH]; intros acc;
    [cbn; now rewrite app_nil_r|].
  cbn [fold_left flat_map]. rewrite IH.
  destruct example_file; cbn [loaded]; [now rewrite <- app_assoc|reflexivity].
Qed.

Lemma kept_inv (insurance_type : string) (example_file : outcome json) (example : json) :
  In example (kept insurance_type example_file) ->
  exists d items,
    example_file = Returns (JDict d)
    /\ dict_get "response" d = Some (JList items)
    /\ List.filter (MockDataGenerator.has_insurance_type insurance_type) items <> []
    /\ example
       = JDict (dict_set "response"
                  (JList (List.filter (MockDataGenerator.has_insurance_type insurance_type)
                            items)) d)
    /\ kept insurance_type example_file = [example].
Proof.
  unfold kept, MockDataGenerator.filter_example.
  destruct example_file as [example_data|e]; cbn [obind]; [|intros []].
  destruct example_data as [| | | | | |d]; try (intros []).
  destruct (dict_get "response" d) as [response|] eqn:Er; cbn [from_option id];
    [|intros []].
  destruct response as [| | | | |items|]; try (intros []).
  destruct (truthy items); [|intros []].
  destruct (List.filter _ items) as [|item filtered_response] eqn:Ef; cbn [truthy];
    [intros []|].
  cbn [app]. intros [<-|[]]. exists d, items. rewrite Ef.
  split; [reflexivity|]. split; [exact Er|]. split; [discriminate|].
  split; reflexivity.
Qed.

Lemma has_insurance_type_id (insurance_type : string) (item : json) :
  MockDataGenerator.has_insurance_type insurance_type item = true ->
  exists it, item = JDict it /\ dict_get "id" it = Some (JStr insurance_type).
Proof.
  destruct item as [| | | | | |it]; try discriminate. cbn.
  destruct (dict_get "id" it) as [v|] eqn:E; cbn; [|discriminate].
  destruct v; try discriminate. cbn. intros H. apply String.eqb_eq in H. subst.
  now exists it.
Qed.

Lemma kept_narrowed (insurance_type : string) (example_file : outcome json) :
  forallb (narrowed_to insurance_type) (kept insurance_type example_file) = true.
Proof.
  apply forallb_forall. intros example Hin.
  apply kept_inv in Hin as (d & items & _ & _ & Hne & -> & _).
  unfold narrowed_to. rewrite dict_get_set_eq. apply andb_true_iff. split.
  - destruct (List.filter _ items); [contradiction|reflexivity].
  - apply forallb_forall. intros item Hitem. apply filter_In in Hitem as [_ Hitem].
    apply has_insurance_type_id in Hitem as (it & -> & ->). apply String.eqb_refl.
Qed.

Lemma kept_length (insurance_type : string) (example_file : outcome json) :
  (length (kept insurance_type example_file) <= 1)%nat.
Proof.
  destruct (kept insurance_type example_file) as [|example rest] eqn:E; [cbn; lia|].
  assert (Hin : In example (kept insurance_type example_file)) by (rewrite E; now left).
  apply kept_inv in Hin as (_ & _ & _ & _ & _ & _ & H). rewrite E in H.
  injection H as ->. cbn. lia.
Qed.

Lemma dict_get_set_other {A} (k k' : string) (v : A) (d : dict A) :
  k' <> k -> dict_get k' (dict_set k v d) = dict_get k' d.
Proof. intros H. apply dict_get_set_ne. congruence. Qed.

(** X25. For an insurance type other than [all],
    [filter_examples_by_insurance_type] returns at most one example per
    file, and each of them is a file's mapping with the same keys and the
    same values but under [response], where a list, not empty, of mappings
    that all carry the insurance type under [id] stands. *)
Theorem X25_filter_narrows_responses (example_files : list (outcome json))
    (insurance_type : string) :
  insurance_type <> "all" ->
  let filtered_examples :=
    MockDataGenerator.filter_examples_by_insurance_type example_files insurance_type in
  forallb (narrowed_to insurance_type) filtered_examples = true
  /\ (length filtered_examples <= length example_files)%nat
  /\ forall example, In example filtered_examples ->
       exists d d',
         In (Returns (JDict d)) example_files /\ example = JDict d'
         /\ dict_keys d' = dict_keys d
         /\ forall key, key <> "response" -> dict_get key d' = dict_get key d.
Proof.
  intros Hall filtered_examples. subst filtered_examples.
  rewrite (filter_examples_flat_map _ _ Hall). split; [|split].
  - induction example_files as [|example_file rest IH]; [reflexivity|].
    cbn [flat_map]. rewrite forallb_app, kept_narrowed. exact IH.
  - induction example_files as [|example_file rest IH]; [cbn; lia|].
    cbn [flat_map length]. rewrite length_app.
    pose proof (kept_length insurance_type example_file). lia.
  - intros example Hin. apply in_flat_map in Hin as (example_file & Hfile & Hin).
    apply kept_inv in Hin as (d & items & -> & Hr & _ & -> & _).
    exists d, (dict_set "response"
                 (JList (List.filter (MockDataGenerator.has_insurance_type insurance_type)
                           items)) d).
    split; [exact Hfile|]. split; [reflexivity|]. split.
    + apply (dict_keys_set_present _ _ _ _ Hr).
    + intros key Hkey. now apply dict_get_set_other.
Qed.

Lemma X25_filter_narrows_responses_witness :
  let filtered_examples :=
    MockDataGenerator.filter_examples_by_insurance_type
      [Returns (JDict [("entity", JStr "Policies");
                       ("response", JList [JDict [("id", JStr "travel")];
                                           JDict [("id", JStr "life")]])]);
       Raises "JSONDecodeError";
       Returns (JList [])] "travel" in
  forallb (narrowed_to "travel") filtered_examples = true
  /\ (length filtered_examples <= 3)%nat
  /\ forall example, In example filtered_examples ->
       exists d d',
         In (Returns (JDict d))
            [Returns (JDict [("entity", JStr "Policies");
                             ("response", JList [JDict [("id", JStr "travel")];
                                                 JDict [("id", JStr "life")]])]);
             Raises "JSONDecodeError";
             Returns (JList [])]
         /\ example = JDict d'
         /\ dict_keys d' = dict_keys d
         /\ forall key, key <> "response" -> dict_get key d' = dict_get key d.
Proof.
  assert (Hall : "travel" <> "all") by discriminate.
  exact (X25_filter_narrows_responses
           [Returns (JDict [("entity", JStr "Policies");
                            ("response", JList [JDict [("id", JStr "travel")];
                                                JDict [("id", JStr "life")]])]);
            Raises "JSONDecodeError";
            Returns (JList [])] "travel" Hall).
Defined.

Lemma filter_twice {A} (p : A -> bool) (l : list A) :
  List.filter p (List.filter p l) = List.filter p l.
Proof.
  induction l as [|x l IH]; [reflexivity|]. cbn [List.filter].
  destruct (p x) eqn:E; [|exact IH]. cbn [List.filter]. now rewrite E, IH.
Qed.

Lemma kept_fixed (insurance_type : string) (example_file : outcome json) (example : json) :
  In example (kept insurance_type example_file) ->
  kept insurance_type (Returns example) = [example].
Proof.
  intros Hin. apply kept_inv in Hin as (d & items & _ & _ & Hne & -> & _).
  unfold kept, MockDataGenerator.filter_example. cbn [obind].
  rewrite dict_get_set_eq. cbn [from_option id]. rewrite filter_twice.
  destruct (List.filter _ items) as [|item filtered_response] eqn:Ef; [contradiction|].
  cbn [truthy app]. do 2 f_equal. apply dict_set_same, dict_get_set_eq.
Qed.

(** X26. Filtering is idempotent: when the examples that
    [filter_examples_by_insurance_type] returns are the documents of the
    example files, the same call returns them once more, for every
    insurance type and for [all]. *)
Theorem X26_filter_idempotent (example_files : list (outcome json))
    (insurance_type : string) :
  MockDataGenerator.filter_examples_by_insurance_type
    (map Returns
       (MockDataGenerator.filter_examples_by_insurance_type example_files insurance_type))
    insurance_type
  = MockDataGenerator.filter_examples_by_insurance_type example_files insurance_type.
Proof.
  destruct (String.eqb insurance_type "all") eqn:E.
  - unfold MockDataGenerator.filter_examples_by_insurance_type. rewrite E.
    generalize (MockDataGenerator.load_examples example_files) as l. intros l.
    rewrite load_examples_flat_map. induction l as [|x l IH]; [reflexivity|].
    cbn. now rewrite IH.
  - assert (Hall : insurance_type <> "all").
    { intros ->. discriminate. }
    rewrite !(filter_examples_flat_map _ _ Hall).
    induction example_files as [|example_file rest IH]; [reflexivity|].
    cbn [flat_map]. rewrite map_app, flat_map_app, IH. f_equal.
    destruct (kept insurance_type example_file) as [|example l] eqn:Ek; [reflexivity|].
    assert (Hin : In example (kept insurance_type example_file)) by (rewrite Ek; now left).
    pose proof (kept_fixed _ _ _ Hin) as Hfix.
    apply kept_inv in Hin as (_ & _ & _ & _ & _ & _ & Hone). rewrite Ek in Hone.
    injection Hone as ->. cbn [map flat_map]. rewrite Hfix. reflexivity.
Qed.

(** ** The schemas of the entities *)

Lemma py_eq_hashable_refl (a : json) :
  MockDataGenerator.hashable a = true -> py_eq a a = true.
Proof.
  destruct a; try discriminate; intros _; cbn;
    try apply Qeq_bool_refl; try apply String.eqb_refl; reflexivity.
Qed.

Lemma Qeq_bool_comm (x y : Q) : Qeq_bool x y = Qeq_bool y x.
Proof.
  destruct (Qeq_bool x y) eqn:E1, (Qeq_bool y x) eqn:E2; try reflexivity.
  - apply Qeq_bool_sym in E1. congruence.
  - apply Qeq_bool_sym in E2. congruence.
Qed.

Lemma py_eq_hashable_sym (a b : json) :
  MockDataGenerator.hashable a = true -> MockDataGenerator.hashable b = true ->
  py_eq a b = py_eq b a.
Proof.
  destruct a, b; try discriminate; intros _ _; cbn;
    try reflexivity; try apply Qeq_bool_comm; apply String.eqb_sym.
Qed.

Lemma py_eq_hashable_trans (a b c : json) :
  MockDataGenerator.hashable a = true -> MockDataGenerator.hashable b = true ->
  MockDataGenerator.hashable c = true ->
  py_eq a b = true -> py_eq b c = true -> py_eq a c = true.
Proof.
  destruct a, b; try discriminate; destruct c; try discriminate; intros _ _ _; cbn;
    try discriminate; try (intros; reflexivity);
    try apply Qeq_bool_trans.
  intros H1 H2. apply String.eqb_eq in H1, H2. subst. apply String.eqb_refl.
Qed.

Lemma py_in_false (n : json) (keys : list json) :
  py_in n keys = false <-> forall k, In k keys -> py_eq k n = false.
Proof.
  unfold py_in. induction keys as [|k keys IH]; cbn.
  - split; [intros _ k []|reflexivity].
  - rewrite orb_false_iff, IH. split.
    + intros [H1 H2] k' [<-|Hin]; [exact H1|now apply H2].
    + intros H. split; [apply H; now left|]. intros k' Hin. apply H. now right.
Qed.

Lemma py_in_true (n : json) (keys : list json) :
  py_in n keys = true <-> exists k, In k keys /\ py_eq k n = true.
Proof.
  unfold py_in. rewrite existsb_exists. reflexivity.
Qed.

Lemma collect_snoc (values new : list json) (value : json) :
  collect values (new ++ [value])
  = if negb (py_in value (collect values new)) then collect values new ++ [value]
    else collect values new.
Proof. unfold collect. now rewrite fold_left_app. Qed.

Lemma collect_In (new : list json) :
  forall values k, In k (collect values new) -> In k values \/ In k new.
Proof.
  induction new as [|value new IH]; intros values k; [now left|].
  unfold collect. cbn [fold_left]. intros H. apply IH in H as [H|H]; [|right; now right].
  destruct (negb (py_in value values)); [|now left].
  apply in_app_iff in H as [H|[<-|[]]]; [now left|right; now left].
Qed.

Lemma collect_keeps (new : list json) :
  forall values n, py_in n values = true -> py_in n (collect values new) = true.
Proof.
  induction new as [|value new IH]; intros values n Hn; [exact Hn|].
  unfold collect. cbn [fold_left]. apply IH.
  destruct (negb (py_in value values)); [|exact Hn].
  unfold py_in in *. rewrite existsb_app, Hn. reflexivity.
Qed.

Lemma collect_covers (new : list json) :
  forall values n,
    In n new -> MockDataGenerator.hashable n = true ->
    py_in n (collect values new) = true.
Proof.
  induction new as [|value new IH]; intros values n Hin Hh; [destruct Hin|].
  unfold collect. cbn [fold_left]. destruct Hin as [->|Hin]; [|now apply IH].
  apply collect_keeps. destruct (py_in n values) eqn:E; cbn [negb]; [exact E|].
  unfold py_in. rewrite existsb_app. cbn [existsb].
  rewrite (py_eq_hashable_refl n Hh). now rewrite orb_true_r.
Qed.

Lemma keys_apart_snoc (keys : list json) (n : json) :
  keys_apart keys = true -> py_in n keys = false -> keys_apart (keys ++ [n]) = true.
Proof.
  induction keys as [|k keys IH]; intros Ha Hn; [reflexivity|].
  cbn [keys_apart app] in *. apply andb_true_iff in Ha as [Hk Ha].
  unfold py_in in Hn. cbn [existsb] in Hn. apply orb_false_iff in Hn as [Hkn Hn].
  rewrite forallb_app, Hk. cbn [forallb]. rewrite Hkn. cbn [negb andb].
  now apply IH.
Qed.

Lemma collect_apart (new : list json) :
  forall values, keys_apart values = true -> keys_apart (collect values new) = true.
Proof.
  induction new as [|value new IH]; intros values Ha; [exact Ha|].
  unfold collect. cbn [fold_left]. apply IH.
  destruct (py_in value values) eqn:E; cbn [negb]; [exact Ha|].
  now apply keys_apart_snoc.
Qed.

Lemma keys_apart_middle (keys1 : list json) (k : json) (keys2 : list json) :
  keys_apart (keys1 ++ k :: keys2) = true -> py_in k keys1 = false.
Proof.
  induction keys1 as [|k1 keys1 IH]; [reflexivity|].
  cbn [keys_apart app]. intros H. apply andb_true_iff in H as [Hk H].
  unfold py_in. cbn [existsb]. apply orb_false_iff. split; [|now apply IH].
  rewrite forallb_app in Hk. apply andb_true_iff in Hk as [_ Hk]. cbn [forallb] in Hk.
  apply andb_true_iff in Hk as [Hk _]. now apply negb_true_iff in Hk.
Qed.

(** *** Dicts whose keys are documents *)

Lemma jdict_get_table {A} (F : json -> A) (n : json) (keys : list json) :
  MockDataGenerator.jdict_get n (map (fun k => (k, F k)) keys)
  = option_map F (find (fun k => py_eq k n) keys).
Proof.
  induction keys as [|k keys IH]; [reflexivity|]. cbn.
  destruct (py_eq k n); [reflexivity|exact IH].
Qed.

Lemma find_py_in (n : json) (keys : list json) :
  py_in n keys = false -> find (fun k => py_eq k n) keys = None.
Proof.
  unfold py_in. induction keys as [|k keys IH]; [reflexivity|]. cbn.
  destruct (py_eq k n); [discriminate|exact IH].
Qed.

Lemma find_py_in_Some (n : json) (keys : list json) :
  py_in n keys = true ->
  exists k, find (fun k => py_eq k n) keys = Some k /\ py_eq k n = true /\ In k keys.
Proof.
  unfold py_in. induction keys as [|k keys IH]; [discriminate|]. cbn.
  destruct (py_eq k n) eqn:E.
  - intros _. exists k. split; [reflexivity|]. split; [exact E|now left].
  - intros H. destruct (IH H) as (k' & Hf & He & Hin). exists k'.
    split; [exact Hf|]. split; [exact He|now right].
Qed.

Lemma jdict_set_new {A} (n : json) (v : A) (d : list (json * A)) :
  py_in n (map fst d) = false -> MockDataGenerator.jdict_set n v d = d ++ [(n, v)].
Proof.
  unfold py_in. induction d as [|[k w] d IH]; [reflexivity|]. cbn.
  destruct (py_eq k n); [discriminate|]. intros H. now rewrite IH.
Qed.

Lemma jdict_set_table {A} (F : json -> A) (n : json) (v : A) (keys : list json) :
  keys_apart keys = true ->
  Forall (fun k => MockDataGenerator.hashable k = true) keys ->
  MockDataGenerator.hashable n = true ->
  py_in n keys = true ->
  MockDataGenerator.jdict_set n v (map (fun k => (k, F k)) keys)
  = map (fun k => (k, if py_eq k n then v else F k)) keys.
Proof.
  intros Ha Hh Hn. induction keys as [|k keys IH]; [discriminate|].
  cbn [keys_apart] in Ha. apply andb_true_iff in Ha as [Hk Ha].
  apply Forall_cons in Hh as [Hhk Hh].
  unfold py_in. cbn [existsb map MockDataGenerator.jdict_set].
  destruct (py_eq k n) eqn:E.
  - intros _. f_equal. apply map_ext_in. intros k' Hin.
    destruct (py_eq k' n) eqn:E'; [|reflexivity]. exfalso.
    assert (Hhk' : MockDataGenerator.hashable k' = true).
    { rewrite List.Forall_forall in Hh. now apply Hh. }
    rewrite forallb_forall in Hk. specialize (Hk k' Hin). apply negb_true_iff in Hk.
    rewrite (py_eq_hashable_sym k' n Hhk' Hn) in E'.
    rewrite (py_eq_hashable_trans k n k' Hhk Hn Hhk' E E') in Hk. discriminate.
  - cbn [orb]. intros H. f_equal. now apply IH.
Qed.

(** *** The grouping loop *)

Lemma groupable_inv (example : json) :
  groupable example = true ->
  exists d, example = JDict d
            /\ MockDataGenerator.hashable (MockDataGenerator.entity_of d) = true.
Proof.
  unfold groupable. destruct example as [| | | | | |d]; try discriminate.
  cbn. intros H. now exists d.
Qed.

Lemma grouped_keys_hashable (examples : list json) :
  forallb groupable examples = true ->
  Forall (fun k => MockDataGenerator.hashable k = true)
         (collect [] (map entity_name examples)).
Proof.
  intros Hg. apply List.Forall_forall. intros k Hin.
  apply collect_In in Hin as [[]|Hin]. apply in_map_iff in Hin as (example & <- & Hin).
  rewrite forallb_forall in Hg. specialize (Hg example Hin).
  unfold groupable in Hg. now apply andb_true_iff in Hg as [_ Hg].
Qed.

Lemma filter_snoc {A} (p : A -> bool) (l : list A) (x : A) :
  List.filter p (l ++ [x]) = List.filter p l ++ (if p x then [x] else []).
Proof. rewrite List.filter_app. cbn. now destruct (p x). Qed.

Lemma group_example_step (examples : list json) (example_data : json) :
  forallb groupable examples = true -> groupable example_data = true ->
  MockDataGenerator.group_example (grouped examples) example_data
  = Returns (grouped (examples ++ [example_data])).
Proof.
  intros Hg He. pose proof (grouped_keys_hashable examples Hg) as Hh.
  assert (Ha : keys_apart (collect [] (map entity_name examples)) = true)
    by now apply collect_apart.
  destruct (groupable_inv _ He) as (d & -> & Hn).
  unfold MockDataGenerator.group_example. rewrite Hn.
  assert (Hnew : grouped (examples ++ [JDict d])
                 = map (fun k => (k, List.filter (same_entity k) (examples ++ [JDict d])))
                       (if negb (py_in (MockDataGenerator.entity_of d)
                                   (collect [] (map entity_name examples)))
                        then collect [] (map entity_name examples)
                             ++ [MockDataGenerator.entity_of d]
                        else collect [] (map entity_name examples))).
  { unfold grouped. rewrite map_app. cbn [map entity_name]. now rewrite collect_snoc. }
  rewrite Hnew. clear Hnew.
  unfold grouped. set (keys := collect [] (map entity_name examples)) in *.
  set (n := MockDataGenerator.entity_of d) in *.
  rewrite jdict_get_table.
  destruct (py_in n keys) eqn:Ein; cbn [negb].
  - destruct (find_py_in_Some n keys Ein) as (k0 & Hfind & Hk0 & Hin0).
    rewrite Hfind. cbn [option_map]. rewrite jdict_get_table, Hfind. cbn [option_map].
    rewrite (jdict_set_table _ n _ keys Ha Hh Hn Ein). f_equal.
    apply map_ext_in. intros k Hin. f_equal. rewrite filter_snoc.
    change (same_entity k (JDict d)) with (py_eq k n).
    destruct (py_eq k n) eqn:Ek; [|now rewrite app_nil_r].
    f_equal. apply List.filter_ext_in. intros example Hex. unfold same_entity.
    assert (Hhk : MockDataGenerator.hashable k = true).
    { rewrite List.Forall_forall in Hh. now apply Hh. }
    assert (Hhk0 : MockDataGenerator.hashable k0 = true).
    { rewrite List.Forall_forall in Hh. now apply Hh. }
    assert (Hhe : MockDataGenerator.hashable (entity_name example) = true).
    { rewrite forallb_forall in Hg. specialize (Hg example Hex). unfold groupable in Hg.
      now apply andb_true_iff in Hg as [_ Hg]. }
    assert (Hkk : py_eq k0 k = true).
    { apply (py_eq_hashable_trans k0 n k Hhk0 Hn Hhk Hk0).
      now rewrite (py_eq_hashable_sym n k Hn Hhk). }
    destruct (py_eq k (entity_name example)) eqn:E1.
    + exact (py_eq_hashable_trans k0 k _ Hhk0 Hhk Hhe Hkk E1).
    + destruct (py_eq k0 (entity_name example)) eqn:E0; [|reflexivity].
      rewrite (py_eq_hashable_sym k0 k Hhk0 Hhk) in Hkk.
      rewrite (py_eq_hashable_trans k k0 _ Hhk Hhk0 Hhe Hkk E0) in E1. discriminate.
  - rewrite (find_py_in n keys Ein). cbn [option_map].
    assert (Hfresh : forall (v : list json),
               MockDataGenerator.jdict_set n v
                 (map (fun k => (k, List.filter (same_entity k) examples)) keys)
               = map (fun k => (k, List.filter (same_entity k) examples)) keys ++ [(n, v)]).
    { intros v. apply jdict_set_new. rewrite map_map. cbn [fst]. now rewrite map_id. }
    rewrite (Hfresh []).
    assert (Hget : forall (v : list json) table,
               py_in n (map fst table) = false ->
               MockDataGenerator.jdict_get n (table ++ [(n, v)]) = Some v).
    { intros v table. unfold py_in. induction table as [|[k w] table IH]; cbn.
      - now rewrite (py_eq_hashable_refl n Hn).
      - destruct (py_eq k n); [discriminate|]. exact IH. }
    assert (Hkeys : py_in n (map fst (map (fun k => (k, List.filter (same_entity k) examples))
                                          keys)) = false).
    { rewrite map_map. cbn [fst]. now rewrite map_id. }
    rewrite (Hget [] _ Hkeys). cbn [app].
    assert (Hset : forall (v w : list json) table,
               py_in n (map fst table) = false ->
               MockDataGenerator.jdict_set n w (table ++ [(n, v)]) = table ++ [(n, w)]).
    { intros v w table. unfold py_in. induction table as [|[k u] table IH]; cbn.
      - now rewrite (py_eq_hashable_refl n Hn).
      - destruct (py_eq k n); [discriminate|]. intros H. now rewrite IH. }
    rewrite (Hset _ _ _ Hkeys). f_equal. rewrite map_app. cbn [map]. f_equal.
    + apply map_ext_in. intros k Hin. f_equal. rewrite filter_snoc.
      change (same_entity k (JDict d)) with (py_eq k n).
      rewrite (proj1 (py_in_false n keys) Ein k Hin). now rewrite app_nil_r.
    + f_equal. rewrite filter_snoc.
      change (same_entity n (JDict d)) with (py_eq n n).
      rewrite (py_eq_hashable_refl n Hn).
      assert (Hnone : List.filter (same_entity n) examples = []).
      { destruct (List.filter (same_entity n) examples) as [|example l] eqn:Ef;
          [reflexivity|exfalso].
        assert (Hex : In example (List.filter (same_entity n) examples))
          by (rewrite Ef; now left).
        apply filter_In in Hex as [Hex Hsame]. unfold same_entity in Hsame.
        assert (Hhe : MockDataGenerator.hashable (entity_name example) = true).
        { rewrite forallb_forall in Hg. specialize (Hg example Hex).
          unfold groupable in Hg. now apply andb_true_iff in Hg as [_ Hg]. }
        assert (Hcov : py_in (entity_name example) keys = true).
        { apply collect_covers; [|exact Hhe]. apply in_map_iff. now exists example. }
        apply py_in_true in Hcov as (k & Hin & Hk).
        assert (Hhk : MockDataGenerator.hashable k = true).
        { rewrite List.Forall_forall in Hh. now apply Hh. }
        rewrite (py_eq_hashable_sym n _ Hn Hhe) in Hsame.
        pose proof (py_eq_hashable_trans k _ n Hhk Hhe Hn Hk Hsame) as Hkn.
        rewrite (proj1 (py_in_false n keys) Ein k Hin) in Hkn. discriminate. }
      now rewrite Hnone.
Qed.

Lemma group_loop (rest : list json) :
  forall examples,
    forallb groupable examples = true -> forallb groupable rest = true ->
    ofold MockDataGenerator.group_example rest (grouped examples)
    = Returns (grouped (examples ++ rest)).
Proof.
  induction rest as [|example_data rest IH]; intros examples Hg Hr.
  - cbn. now rewrite app_nil_r.
  - cbn [forallb] in Hr. apply andb_true_iff in Hr as [He Hr].
    cbn [ofold]. rewrite (group_example_step examples example_data Hg He). cbn [obind].
    rewrite (IH (examples ++ [example_data])); [now rewrite <- app_assoc| |exact Hr].
    rewrite forallb_app, Hg. cbn. now rewrite He.
Qed.

Lemma group_example_raises (entity_files : list (json * list json)) (example_data : json) :
  groupable example_data = false ->
  MockDataGenerator.group_example entity_files example_data
  = Raises (if is_mapping example_data then "TypeError" else "AttributeError").
Proof.
  unfold groupable. destruct example_data as [| | | | | |d]; try reflexivity.
  cbn [is_mapping andb entity_name MockDataGenerator.group_example]. now intros ->.
Qed.

Lemma ofold_app {A B} (f : A -> B -> outcome A) (l1 l2 : list B) (a : A) :
  ofold f (l1 ++ l2) a = obind (ofold f l1 a) (ofold f l2).
Proof.
  revert a. induction l1 as [|x l1 IH]; intros a; [reflexivity|].
  cbn [app ofold]. destruct (f a x); cbn [obind]; [apply IH|reflexivity].
Qed.

Lemma entity_structure_returns (preserve_fields : list string) (examples : list json) :
  forallb is_mapping examples = true ->
  exists structure,
    MockDataGenerator._analyze_entity_structure preserve_fields examples
    = Returns structure.
Proof.
  intros Hm. unfold MockDataGenerator._analyze_entity_structure.
  rewrite collect_responses_spec, Hm. cbn [obind].
  destruct (map response_of (List.filter has_response examples)); [now eexists|].
  destruct (type_is "array" _); now eexists.
Qed.

Lemma schema_loop (preserve_fields : list string) (F : json -> list json)
    (keys2 : list json) :
  forall keys1 (schema_structures : list (json * node)),
    map fst schema_structures = keys1 ->
    keys_apart (keys1 ++ keys2) = true ->
    (forall k, In k keys2 -> forallb is_mapping (F k) = true) ->
    exists schemas,
      ofold (fun schema_structures '(entity_name, examples) =>
               do structure <- MockDataGenerator._analyze_entity_structure
                                 preserve_fields examples;
               Returns (MockDataGenerator.jdict_set entity_name structure
                          schema_structures))
            (map (fun k => (k, F k)) keys2) schema_structures
      = Returns (schema_structures ++ schemas)
      /\ map fst schemas = keys2
      /\ forall k structure,
           In (k, structure) schemas ->
           MockDataGenerator._analyze_entity_structure preserve_fields (F k)
           = Returns structure.
Proof.
  induction keys2 as [|k keys2 IH]; intros keys1 schema_structures Hk Ha Hm.
  - exists []. cbn. rewrite app_nil_r. split; [reflexivity|]. split; [reflexivity|].
    intros k structure [].
  - cbn [map ofold].
    destruct (entity_structure_returns preserve_fields (F k)) as [structure Hs];
      [apply Hm; now left|].
    rewrite Hs. cbn [obind].
    rewrite jdict_set_new by (rewrite Hk; now apply (keys_apart_middle keys1 k keys2)).
    destruct (IH (keys1 ++ [k]) (schema_structures ++ [(k, structure)]))
      as (schemas & Hr & Hkeys & Hvalues).
    + rewrite map_app, Hk. reflexivity.
    + now rewrite <- app_assoc.
    + intros k' Hin. apply Hm. now right.
    + exists ((k, structure) :: schemas). rewrite Hr, <- app_assoc. cbn [app].
      split; [reflexivity|]. split; [cbn; now rewrite Hkeys|].
      intros k' structure' [[= <- <-]|Hin]; [exact Hs|now apply Hvalues].
Qed.

Lemma collect_nil_dedup (values : list json) : collect [] values = dedup_first values.
Proof.
  rewrite collect_dedup. cbn [app]. f_equal.
  induction values as [|v l IH]; [reflexivity|].
  cbn [List.filter]. unfold py_in at 1. cbn [existsb negb]. now f_equal.
Qed.

Lemma extract_schemas_grouped (preserve_fields : list string)
    (example_files : list (outcome json)) (examples : list json) :
  forallb groupable examples = true ->
  exists schema_structures,
    MockDataGenerator.extract_schemas_from_examples preserve_fields example_files
      (Some examples)
    = Returns schema_structures
    /\ map fst schema_structures = dedup_first (map entity_name examples)
    /\ forall k structure,
         In (k, structure) schema_structures ->
         MockDataGenerator._analyze_entity_structure preserve_fields
           (List.filter (same_entity k) examples)
         = Returns structure.
Proof.
  intros Hg. unfold MockDataGenerator.extract_schemas_from_examples.
  pose proof (group_loop examples [] eq_refl Hg) as Hloop.
  change (grouped []) with (@nil (json * list json)) in Hloop. cbn [app] in Hloop.
  rewrite Hloop. cbn [obind]. unfold grouped.
  destruct (schema_loop preserve_fields (fun k => List.filter (same_entity k) examples)
              (collect [] (map entity_name examples)) [] [] eq_refl)
    as (schemas & Hr & Hkeys & Hvalues).
  - cbn [app]. now apply collect_apart.
  - intros k _. apply forallb_forall. intros example Hin.
    apply filter_In in Hin as [Hin _]. rewrite forallb_forall in Hg.
    specialize (Hg example Hin). unfold groupable in Hg.
    now apply andb_true_iff in Hg as [Hg _].
  - exists schemas. cbn [app] in Hr. split; [exact Hr|].
    split; [now rewrite Hkeys, collect_nil_dedup|exact Hvalues].
Qed.

(** X27. On examples that are all mappings with an entity that can be a
    key ([UnknownEntity] when there is none), [extract_schemas_from_examples]
    returns one schema per entity, the entities in the order of their first
    example, equal entities ([1] and [1.0]) counted once; the schema of an
    entity is what [_analyze_entity_structure] returns for the examples of
    that entity, in their order. *)
Theorem X27_extract_groups_by_entity (preserve_fields : list string)
    (example_files : list (outcome json)) (examples : list json) :
  forallb groupable examples = true ->
  exists schema_structures,
    MockDataGenerator.extract_schemas_from_examples preserve_fields example_files
      (Some examples)
    = Returns schema_structures
    /\ map fst schema_structures = dedup_first (map entity_name examples)
    /\ forall k structure,
         In (k, structure) schema_structures ->
         MockDataGenerator._analyze_entity_structure preserve_fields
           (List.filter (same_entity k) examples)
         = Returns structure.
Proof. exact (extract_schemas_grouped preserve_fields example_files examples). Qed.

Lemma X27_extract_groups_by_entity_witness :
  exists schema_structures,
    MockDataGenerator.extract_schemas_from_examples ["id"] []
      (Some [JDict [("entity", JStr "Policies"); ("response", JDict [("id", JStr "life")])];
             JDict [("response", JList [])];
             JDict [("entity", JStr "Policies"); ("response", JDict [("n", JInt 1)])]])
    = Returns schema_structures
    /\ map fst schema_structures
       = dedup_first
           (map entity_name
              [JDict [("entity", JStr "Policies");
                      ("response", JDict [("id", JStr "life")])];
               JDict [("response", JList [])];
               JDict [("entity", JStr "Policies"); ("response", JDict [("n", JInt 1)])]])
    /\ forall k structure,
         In (k, structure) schema_structures ->
         MockDataGenerator._analyze_entity_structure ["id"]
           (List.filter (same_entity k)
              [JDict [("entity", JStr "Policies");
                      ("response", JDict [("id", JStr "life")])];
               JDict [("response", JList [])];
               JDict [("entity", JStr "Policies"); ("response", JDict [("n", JInt 1)])]])
         = Returns structure.
Proof.
  apply (X27_extract_groups_by_entity ["id"] []
           [JDict [("entity", JStr "Policies"); ("response", JDict [("id", JStr "life")])];
            JDict [("response", JList [])];
            JDict [("entity", JStr "Policies"); ("response", JDict [("n", JInt 1)])]]).
  reflexivity.
Defined.

(** X28. [extract_schemas_from_examples] raises at the first example that is
    not a mapping, with [AttributeError], or whose entity is a list or a
    mapping, with [TypeError], whatever follows it; no schema is returned
    then. *)
Theorem X28_extract_raises (preserve_fields : list string)
    (example_files : list (outcome json)) (good : list json) (bad : json)
    (rest : list json) :
  forallb groupable good = true -> groupable bad = false ->
  MockDataGenerator.extract_schemas_from_examples preserve_fields example_files
    (Some (good ++ bad :: rest))
  = Raises (if is_mapping bad then "TypeError" else "AttributeError").
Proof.
  intros Hg Hb. unfold MockDataGenerator.extract_schemas_from_examples.
  rewrite ofold_app.
  pose proof (group_loop good [] eq_refl Hg) as Hloop.
  change (grouped []) with (@nil (json * list json)) in Hloop. cbn [app] in Hloop.
  rewrite Hloop. cbn [obind ofold]. now rewrite (group_example_raises _ _ Hb).
Qed.

Lemma X28_extract_raises_witness :
  MockDataGenerator.extract_schemas_from_examples ["id"] []
    (Some ([JDict [("entity", JStr "Policies")]]
           ++ JDict [("entity", JList [JStr "Policies"])] :: [JNull]))
  = Raises "TypeError"
  /\ MockDataGenerator.extract_schemas_from_examples ["id"] []
       (Some ([] ++ JList [] :: [JDict [("entity", JStr "Policies")]]))
     = Raises "AttributeError".
Proof.
  split.
  - apply (X28_extract_raises ["id"] [] [JDict [("entity", JStr "Policies")]]
             (JDict [("entity", JList [JStr "Policies"])]) [JNull]); reflexivity.
  - apply (X28_extract_raises ["id"] [] [] (JList [])
             [JDict [("entity", JStr "Policies")]]); reflexivity.
Defined.

(** ** From the examples of one insurance type to the records *)

Lemma dict_get_map_values {A B} (f : A -> B) (k : string) (d : dict A) :
  dict_get k (map (fun kv => (fst kv, f (snd kv))) d) = option_map f (dict_get k d).
Proof.
  induction d as [|[k' v] d IH]; [reflexivity|]. cbn.
  destruct (String.eqb k k'); [reflexivity|exact IH].
Qed.

Lemma dict_get_map_named {A B} (f : string -> A -> B) (k : string) (d : dict A) :
  dict_get k (map (fun '(name, v) => (name, f name v)) d) = option_map (f k) (dict_get k d).
Proof.
  induction d as [|[k' v] d IH]; [reflexivity|]. cbn.
  destruct (String.eqb k k') eqn:E; [|exact IH].
  apply String.eqb_eq in E. now subst.
Qed.

Lemma dict_keys_map_named {A B} (f : string -> A -> B) (d : dict A) :
  dict_keys (map (fun '(name, v) => (name, f name v)) d) = dict_keys d.
Proof.
  unfold dict_keys. induction d as [|[k v] d IH]; [reflexivity|]. cbn. now rewrite IH.
Qed.

Lemma analyze_typed_item (insurance_type : string) (item : json) (max_depth : Z) :
  typed_item insurance_type item -> 0 < max_depth ->
  id_string (MockDataGenerator._analyze_structure item max_depth).
Proof.
  intros (it & -> & Hid & Hu) Hd. split; [apply analyze_plain|].
  cbn [MockDataGenerator._analyze_structure].
  destruct (max_depth <=? 0) eqn:E; [lia|].
  rewrite (analyze_loop_unique
             (fun value => MockDataGenerator._analyze_structure value (max_depth - 1)) it Hu [])
    by (intros name _ []).
  cbn [app]. eexists. split; [reflexivity|].
  rewrite (dict_get_map_values
             (fun value => MockDataGenerator._analyze_structure value (max_depth - 1))), Hid.
  cbn [option_map MockDataGenerator._analyze_structure].
  now destruct (max_depth - 1 <=? 0).
Qed.

Lemma merge_id_string (a b : node) :
  id_string a -> id_string b -> id_string (MockDataGenerator._merge_structures a b).
Proof.
  intros (Hpa & pa & -> & Ha) (Hpb & pb & -> & Hb).
  split; [now apply merge_plain|].
  rewrite (merge_objects (object pa) (object pb) eq_refl eq_refl).
  change (get_properties (object pa)) with pa. change (get_properties (object pb)) with pb.
  eexists. split; [reflexivity|].
  rewrite plain_object_node in Hpb. apply andb_true_iff in Hpb as [Hub _].
  rewrite (merge_loop_get pb Hub). unfold merged_property. rewrite Ha, Hb.
  reflexivity.
Qed.

Lemma fold_merge_id_string (others : list node) :
  forall first, id_string first -> Forall id_string others ->
                id_string (fold_left MockDataGenerator._merge_structures others first).
Proof.
  induction others as [|o others IH]; intros first Hf Ho; [exact Hf|].
  cbn [fold_left]. apply Forall_cons in Ho as [Ho Hos].
  apply IH; [now apply merge_id_string|exact Hos].
Qed.

Lemma analyze_typed_response (insurance_type : string) (response : json) :
  typed_response insurance_type response ->
  exists o, MockDataGenerator._analyze_structure response 10 = array o /\ id_string o.
Proof.
  intros (items & -> & Hne & Hitems). destruct items as [|x l]; [contradiction|].
  apply Forall_cons in Hitems as [Hx Hl].
  cbn [MockDataGenerator._analyze_structure Z.leb Z.compare map].
  eexists. split; [reflexivity|].
  apply fold_merge_id_string; [now apply (analyze_typed_item insurance_type)|].
  clear -Hl. induction Hl as [|y l Hy _ IH]; [constructor|].
  cbn [map]. constructor; [now apply (analyze_typed_item insurance_type)|exact IH].
Qed.

Lemma merge_arrays (a b : node) :
  MockDataGenerator._merge_structures (array a) (array b)
  = array (MockDataGenerator._merge_structures a b).
Proof. now rewrite _merge_structures_eq. Qed.

Lemma unify_typed (insurance_type : string) (first : json) (others : list json) :
  Forall (typed_response insurance_type) (first :: others) ->
  exists o, MockDataGenerator.unify first others = array o /\ id_string o.
Proof.
  intros H. apply Forall_cons in H as [Hf Ho]. unfold MockDataGenerator.unify.
  destruct (analyze_typed_response _ _ Hf) as (o & -> & Hid).
  revert o Hid. induction Ho as [|response others Hr _ IH]; intros o Hid.
  - now exists o.
  - cbn [fold_left]. destruct (analyze_typed_response _ _ Hr) as (o' & -> & Hid').
    rewrite merge_arrays. apply IH. now apply merge_id_string.
Qed.

Lemma flatten_responses_flat_map (all_responses : list json) :
  MockDataGenerator.flatten_responses all_responses
  = flat_map (fun resp => match resp with JList l => l | _ => [] end) all_responses.
Proof.
  unfold MockDataGenerator.flatten_responses.
  enough (H : forall acc,
             fold_left (fun all_items resp =>
                          match resp with
                          | JList l => all_items ++ l
                          | _ => all_items
                          end) all_responses acc
             = acc ++ flat_map (fun resp => match resp with JList l => l | _ => [] end)
                        all_responses) by apply H.
  induction all_responses as [|resp rest IH]; intros acc; [cbn; now rewrite app_nil_r|].
  cbn [fold_left flat_map]. rewrite IH.
  destruct resp; try reflexivity. now rewrite app_assoc.
Qed.

Lemma flatten_typed (insurance_type : string) (first : json) (others : list json) :
  Forall (typed_response insurance_type) (first :: others) ->
  MockDataGenerator.flatten_responses (first :: others) <> []
  /\ Forall (typed_item insurance_type)
            (MockDataGenerator.flatten_responses (first :: others)).
Proof.
  intros H. rewrite flatten_responses_flat_map. split.
  - apply Forall_cons in H as [(items & -> & Hne & _) _]. cbn [flat_map].
    destruct items; [contradiction|discriminate].
  - apply List.Forall_forall. intros item Hin.
    apply in_flat_map in Hin as (resp & Hresp & Hin).
    rewrite List.Forall_forall in H. destruct (H resp Hresp) as (items & -> & _ & Hitems).
    rewrite List.Forall_forall in Hitems. now apply Hitems.
Qed.

Lemma extract_typed_items (insurance_type : string) (items : list json) :
  items <> [] -> Forall (typed_item insurance_type) items ->
  _extract_original_values "id" items = [JStr insurance_type].
Proof.
  intros Hne Hitems. unfold _extract_original_values.
  assert (Hstep : forall l,
             Forall (typed_item insurance_type) l ->
             fold_left (fun values example =>
                          match example with
                          | JDict d =>
                              match dict_get "id" d with
                              | Some value =>
                                  if negb (py_in value values) then values ++ [value]
                                  else values
                              | None => values
                              end
                          | _ => values
                          end) l [JStr insurance_type]
             = [JStr insurance_type]).
  { intros l Hl. induction Hl as [|item l (it & -> & Hid & _) _ IH]; [reflexivity|].
    cbn [fold_left]. rewrite Hid. unfold py_in. cbn [existsb py_eq].
    rewrite String.eqb_refl. exact IH. }
  destruct items as [|item items]; [contradiction|].
  apply Forall_cons in Hitems as [(it & -> & Hid & _) Hitems].
  cbn [fold_left]. rewrite Hid. cbn [py_in existsb negb app]. now apply Hstep.
Qed.

Lemma annotate_id_string (preserve : string -> bool) (insurance_type : string)
    (o : node) (items : list json) :
  preserve "id" = true -> id_string o ->
  items <> [] -> Forall (typed_item insurance_type) items ->
  id_fixed insurance_type (array (_add_preserved_field_info preserve o items)).
Proof.
  intros Hid (Hplain & props & -> & Hget) Hne Hitems.
  rewrite (annotated_properties preserve (object props) items props eq_refl eq_refl).
  rewrite plain_object_node in Hplain. apply andb_true_iff in Hplain as [Hu _].
  eexists _, _. split; [reflexivity|]. split; [reflexivity|]. split; [reflexivity|].
  split; [reflexivity|]. split; [reflexivity|].
  change (get_properties (set_properties ?p (object props))) with p.
  split; [now rewrite dict_keys_map_named|].
  split; [rewrite dict_get_map_named, Hget; reflexivity|].
  unfold annotate_field, mark_preserved.
  rewrite Hid, (extract_typed_items insurance_type items Hne Hitems).
  split; reflexivity.
Qed.

Lemma typed_example_response (insurance_type : string) (example : json) :
  typed_example insurance_type example ->
  is_mapping example = true /\ has_response example = true
  /\ typed_response insurance_type (response_of example).
Proof.
  intros (d & response & -> & Hr & Ht). unfold has_response, response_of.
  cbn [is_mapping andb]. rewrite Hr. cbn [from_option id].
  split; [reflexivity|]. split; [|exact Ht].
  destruct Ht as (items & -> & Hne & _). destruct items; [contradiction|reflexivity].
Qed.

(** The schema of an entity whose examples are all of one insurance type. *)
Lemma entity_structure_id_fixed (preserve_fields : list string) (insurance_type : string)
    (examples : list json) :
  In "id" preserve_fields -> examples <> [] ->
  Forall (typed_example insurance_type) examples ->
  exists structure,
    MockDataGenerator._analyze_entity_structure preserve_fields examples
    = Returns structure
    /\ id_fixed insurance_type structure.
Proof.
  intros Hid Hne Hex. unfold MockDataGenerator._analyze_entity_structure.
  rewrite collect_responses_spec.
  assert (Hm : forallb is_mapping examples = true).
  { apply forallb_forall. intros example Hin. rewrite List.Forall_forall in Hex.
    now destruct (typed_example_response _ _ (Hex example Hin)). }
  assert (Hf : List.filter has_response examples = examples).
  { clear -Hex. induction Hex as [|example l He _ IH]; [reflexivity|].
    cbn [List.filter]. destruct (typed_example_response _ _ He) as (_ & -> & _).
    now rewrite IH. }
  rewrite Hm, Hf. cbn [obind].
  assert (Hresp : Forall (typed_response insurance_type) (map response_of examples)).
  { clear -Hex. induction Hex as [|example l He _ IH]; [constructor|].
    cbn [map]. constructor; [|exact IH]. now destruct (typed_example_response _ _ He). }
  destruct (map response_of examples) as [|first others] eqn:Emap.
  { destruct examples; [contradiction|discriminate]. }
  destruct (unify_typed _ _ _ Hresp) as (o & -> & Ho).
  destruct (flatten_typed _ _ _ Hresp) as [Hfne Hitems].
  change (type_is "array" (array o)) with true. cbv iota.
  eexists. split; [reflexivity|].
  change (update_items ?f (array o)) with (array (f o)).
  unfold MockDataGenerator._add_preserved_field_info.
  apply annotate_id_string; [|exact Ho|exact Hfne|exact Hitems].
  apply existsb_exists. exists "id". split; [exact Hid|apply String.eqb_refl].
Qed.

Lemma kept_typed (insurance_type : string) (example_file : outcome json) (example : json) :
  (forall loaded_example, example_file = Returns loaded_example ->
                          well_keyed loaded_example = true) ->
  In example (kept insurance_type example_file) ->
  typed_example insurance_type example /\ groupable example = true.
Proof.
  intros Hk Hin. apply kept_inv in Hin as (d & items & -> & Hr & Hne & -> & _).
  specialize (Hk (JDict d) eq_refl). unfold well_keyed in Hk.
  apply andb_true_iff in Hk as [Hh Hkeys]. rewrite Hr in Hkeys. split.
  - eexists _, _. split; [reflexivity|]. split; [apply dict_get_set_eq|].
    eexists. split; [reflexivity|]. split; [exact Hne|].
    apply List.Forall_forall. intros item Hitem. apply filter_In in Hitem as [Hitem Ht].
    apply has_insurance_type_id in Ht as (it & -> & Hid).
    exists it. split; [reflexivity|]. split; [exact Hid|].
    rewrite forallb_forall in Hkeys. exact (Hkeys (JDict it) Hitem).
  - unfold groupable. cbn [is_mapping andb entity_name] in *.
    unfold MockDataGenerator.entity_of in *.
    rewrite dict_get_set_ne by discriminate. exact Hh.
Qed.

(** X29. From the example files to the schemas, for an insurance type other
    than [all] and a preserve set that has [id]: when the loaded examples
    have an entity that can be a key and items with distinct keys,
    [extract_schemas_from_examples] returns on the examples that
    [filter_examples_by_insurance_type] keeps, and every schema it returns
    is an array of objects whose property [id] is marked [preserve_original]
    with the insurance type as its only original value. *)
Theorem X29_filtered_schemas_fix_id (preserve_fields : list string)
    (example_files : list (outcome json)) (insurance_type : string) :
  insurance_type <> "all" -> In "id" preserve_fields ->
  (forall example, In (Returns example) example_files -> well_keyed example = true) ->
  exists schema_structures,
    MockDataGenerator.extract_schemas_from_examples preserve_fields example_files
      (Some (MockDataGenerator.filter_examples_by_insurance_type example_files
               insurance_type))
    = Returns schema_structures
    /\ forall k structure,
         In (k, structure) schema_structures -> id_fixed insurance_type structure.
Proof.
  intros Hall Hid Hfiles. rewrite (filter_examples_flat_map _ _ Hall).
  set (examples := flat_map (kept insurance_type) example_files).
  assert (Hex : forall example, In example examples ->
                                typed_example insurance_type example
                                /\ groupable example = true).
  { intros example Hin. apply in_flat_map in Hin as (example_file & Hfile & Hin).
    apply (kept_typed insurance_type example_file); [|exact Hin].
    intros loaded_example ->. now apply Hfiles. }
  assert (Hg : forallb groupable examples = true).
  { apply forallb_forall. intros example Hin. now apply Hex. }
  destruct (extract_schemas_grouped preserve_fields example_files examples Hg)
    as (schema_structures & Hr & Hkeys & Hvalues).
  exists schema_structures. split; [exact Hr|]. intros k structure Hin.
  assert (Hk : In k (map entity_name examples)).
  { apply dedup_first_In. rewrite <- Hkeys. apply in_map_iff. now exists (k, structure). }
  apply in_map_iff in Hk as (example & <- & Hexample).
  destruct (entity_structure_id_fixed preserve_fields insurance_type
              (List.filter (same_entity (entity_name example)) examples) Hid)
    as (structure' & Hs & Hfixed).
  - assert (Hin' : In example (List.filter (same_entity (entity_name example)) examples)).
    { apply filter_In. split; [exact Hexample|]. unfold same_entity.
      apply py_eq_hashable_refl. destruct (Hex example Hexample) as [_ Hgr].
      unfold groupable in Hgr. now apply andb_true_iff in Hgr as [_ Hgr]. }
    intros Hnil. rewrite Hnil in Hin'. destruct Hin'.
  - apply List.Forall_forall. intros e He. apply filter_In in He as [He _]. now apply Hex.
  - rewrite (Hvalues _ _ Hin) in Hs. injection Hs as ->. exact Hfixed.
Qed.

Lemma X29_filtered_schemas_fix_id_witness :
  exists schema_structures,
    MockDataGenerator.extract_schemas_from_examples ["id"; "entity"]
      [Returns (JDict [("entity", JStr "Policies");
                       ("response", JList [JDict [("id", JStr "travel"); ("n", JInt 1)];
                                           JDict [("id", JStr "life")]])]);
       Raises "JSONDecodeError"]
      (Some (MockDataGenerator.filter_examples_by_insurance_type
               [Returns (JDict [("entity", JStr "Policies");
                                ("response", JList [JDict [("id", JStr "travel");
                                                           ("n", JInt 1)];
                                                    JDict [("id", JStr "life")]])]);
                Raises "JSONDecodeError"]
               "travel"))
    = Returns schema_structures
    /\ forall k structure,
         In (k, structure) schema_structures -> id_fixed "travel" structure.
Proof.
  assert (Hall : "travel" <> "all") by discriminate.
  assert (Hid : In "id" ["id"; "entity"]) by (now left).
  apply (X29_filtered_schemas_fix_id ["id"; "entity"]
           [Returns (JDict [("entity", JStr "Policies");
                            ("response", JList [JDict [("id", JStr "travel"); ("n", JInt 1)];
                                                JDict [("id", JStr "life")]])]);
            Raises "JSONDecodeError"] "travel" Hall Hid).
  intros example [[= <-]|[H|[]]]; [reflexivity|discriminate].
Defined.

Section RecordsOfOneType.

Variable rng : Type.
Variable random_below : nat -> rng -> nat * rng.
Variable randint : Z -> Z -> rng -> Z * rng.
Variable random_amount : rng -> Q * rng.
Variable _generate_mock_string : string -> rng -> json * rng.
Variable _generate_mock_number : string -> rng -> json * rng.
Variable lower : string -> string.

(** [random._randbelow(n)] is below [n]. *)
Hypothesis random_below_lt :
  forall n r, (0 < n)%nat -> (fst (random_below n r) < n)%nat.

Local Abbreviation generate_mock_value :=
  (MockDataGenerator.generate_mock_value rng random_below randint random_amount
     _generate_mock_string _generate_mock_number lower).
Local Abbreviation mock_property :=
  (MockDataGenerator.mock_property rng random_below randint random_amount lower).

Lemma mock_property_single (field_name prop_name : string) (p : node) (v : json) (r : rng) :
  s_preserve_original p = Some true -> s_original_values p = Some [v] ->
  exists r', mock_property generate_mock_value field_name prop_name p r = (Returns v, r').
Proof.
  intros Hp Hv. unfold MockDataGenerator.mock_property, MockDataGenerator.preserved_or.
  rewrite Hp, Hv. cbn [from_option id truthy].
  unfold MockDataGenerator.random_choice, MockDataGenerator.gbind, MockDataGenerator.glift.
  pose proof (random_below_lt (length [v]) r) as Hlt.
  destruct (random_below (length [v]) r) as [i r']. cbn [fst length] in Hlt.
  assert (i = O) as -> by lia. now exists r'.
Qed.

Lemma gfold_properties_id (field_name : string) (p : node) (v : json)
    (properties : dict node) :
  s_preserve_original p = Some true -> s_original_values p = Some [v] ->
  keys_unique (dict_keys properties) = true ->
  forall mock_object r,
    (dict_get "id" properties = Some p
     \/ (dict_get "id" properties = None /\ dict_get "id" mock_object = Some v)) ->
    exists mock_object' r',
      MockDataGenerator.gfold rng
        (fun mock_object '(prop_name, prop_schema) =>
           MockDataGenerator.gbind rng
             (mock_property generate_mock_value field_name prop_name prop_schema)
             (fun v => MockDataGenerator.gret rng (dict_set prop_name v mock_object)))
        properties mock_object r
      = (Returns mock_object', r')
      /\ dict_get "id" mock_object' = Some v.
Proof.
  intros Hp Hv. induction properties as [|[prop_name prop_schema] rest IH];
    intros Hu mock_object r Hcase.
  - destruct Hcase as [H|[_ H]]; [discriminate|]. now exists mock_object, r.
  - unfold dict_keys in Hu. cbn [map fst] in Hu. apply keys_unique_cons in Hu as [Hk Hu].
    cbn [MockDataGenerator.gfold]. unfold MockDataGenerator.gbind at 1 2.
    cbn [dict_get] in Hcase. destruct (String.eqb "id" prop_name) eqn:E.
    + apply String.eqb_eq in E. subst prop_name.
      destruct Hcase as [[= ->]|[H _]]; [|discriminate].
      destruct (mock_property_single field_name "id" p v r Hp Hv) as (r1 & ->).
      cbn [MockDataGenerator.gret]. apply (IH Hu). right.
      split; [now apply dict_get_None_keys|apply dict_get_set_eq].
    + destruct (returns_mock_property rng random_below randint random_amount lower
                  random_below_lt generate_mock_value field_name prop_name prop_schema
                  (generate_mock_value_returns rng random_below randint random_amount
                     _generate_mock_string _generate_mock_number lower random_below_lt
                     prop_schema prop_name) r) as (w & r1 & ->).
      cbn [MockDataGenerator.gret]. apply (IH Hu).
      destruct Hcase as [H|[H1 H2]]; [now left|right]. split; [exact H1|].
      rewrite dict_get_set_ne; [exact H2|]. apply String.eqb_neq in E. congruence.
Qed.

Lemma gtimes_Forall {A} (P : A -> Prop) (m : MockDataGenerator.gen rng A) :
  (forall r, exists x r', m r = (Returns x, r') /\ P x) ->
  forall n r, exists xs r',
    MockDataGenerator.gtimes rng n m r = (Returns xs, r') /\ Forall P xs.
Proof.
  intros Hm. induction n as [|n IH]; intros r.
  - exists [], r. split; [reflexivity|constructor].
  - cbn [MockDataGenerator.gtimes]. unfold MockDataGenerator.gbind at 1.
    destruct (Hm r) as (x & r1 & -> & Hx). unfold MockDataGenerator.gbind at 1.
    destruct (IH r1) as (xs & r2 & -> & Hxs).
    exists (x :: xs), r2. split; [reflexivity|now constructor].
Qed.

(** X30. A schema that is an array of objects whose property [id] is
    preserved with a single original value is synthesized as a list of
    mappings that all have that value under [id], whatever the random
    source draws: with the schemas of the examples of one insurance type,
    every synthesized item carries the insurance type. *)
Theorem X30_records_carry_insurance_type (insurance_type : string) (schema : node)
    (field_name : string) (r : rng) :
  id_fixed insurance_type schema ->
  exists mock_items r',
    generate_mock_value schema field_name r = (Returns (JList mock_items), r')
    /\ Forall (fun mock_item =>
                 exists mock_object,
                   mock_item = JDict mock_object
                   /\ dict_get "id" mock_object = Some (JStr insurance_type))
              mock_items.
Proof.
  intros (items & p & Ht & Hno & Hitems & Hti & Hnoi & Hu & Hget & Hp & Hv).
  rewrite (generate_mock_value_eq rng random_below randint random_amount
             _generate_mock_string _generate_mock_number lower).
  unfold MockDataGenerator.generate_body.
  rewrite (preserved_or_otherwise rng random_below _ _ _ Hno).
  rewrite Ht. cbn [from_option id String.eqb Ascii.eqb Bool.eqb].
  unfold MockDataGenerator._generate_mock_array, get_items. rewrite Hitems.
  cbn [from_option id]. unfold MockDataGenerator.gbind at 1. unfold MockDataGenerator.glift.
  destruct (randint 1 5 r) as [array_length r1].
  unfold MockDataGenerator.gbind at 1.
  destruct (gtimes_Forall
              (fun mock_item =>
                 exists mock_object,
                   mock_item = JDict mock_object
                   /\ dict_get "id" mock_object = Some (JStr insurance_type))
              (generate_mock_value items field_name)) with (n := Z.to_nat array_length)
                                                          (r := r1)
    as (xs & r2 & -> & Hxs).
  - intros r0.
    rewrite (generate_mock_value_eq rng random_below randint random_amount
               _generate_mock_string _generate_mock_number lower).
    unfold MockDataGenerator.generate_body.
    rewrite (preserved_or_otherwise rng random_below _ _ _ Hnoi).
    rewrite Hti. cbn [from_option id String.eqb Ascii.eqb Bool.eqb].
    unfold MockDataGenerator._generate_mock_object. unfold MockDataGenerator.gbind at 1.
    destruct (gfold_properties_id field_name p (JStr insurance_type) (get_properties items)
                Hp Hv Hu [] r0 (or_introl Hget)) as (m & r' & -> & Hm).
    exists (JDict m), r'. split; [reflexivity|]. now exists m.
  - exists xs, r2. split; [reflexivity|exact Hxs].
Qed.

End RecordsOfOneType.

Lemma X30_records_carry_insurance_type_witness :
  exists mock_items r',
    FirstChoice.generate_mock_value
      (array (object [("id", Schema (Some "string") None None (Some true)
                               (Some [JStr "travel"]));
                      ("n", leaf "number")])) "Policies" O
    = (Returns (JList mock_items), r')
    /\ Forall (fun mock_item =>
                 exists mock_object,
                   mock_item = JDict mock_object
                   /\ dict_get "id" mock_object = Some (JStr "travel"))
              mock_items.
Proof.
  assert (Hlt : forall n r, (0 < n)%nat -> (fst (FirstChoice.random_below n r) < n)%nat)
    by (intros n r H; exact H).
  apply (X30_records_carry_insurance_type FirstChoice.rng FirstChoice.random_below
           FirstChoice.randint FirstChoice.random_amount FirstChoice._generate_mock_string
           FirstChoice._generate_mock_number FirstChoice.lower Hlt "travel"
           (array (object [("id", Schema (Some "string") None None (Some true)
                                    (Some [JStr "travel"]));
                           ("n", leaf "number")])) "Policies" O).
  eexists _, _. repeat split; reflexivity.
Defined.

(** ** The number of records *)

Section RecordsCount.

Variable rng : Type.
Variable random_below : nat -> rng -> nat * rng.
Variable randint : Z -> Z -> rng -> Z * rng.
Variable random_amount : rng -> Q * rng.
Variable _generate_mock_string : string -> rng -> json * rng.
Variable _generate_mock_number : string -> rng -> json * rng.
Variable lower : string -> string.
Variable iso8601 : rng -> string * rng.
Variable choice_of_str : string -> rng -> string * rng.

(** [random._randbelow(n)] is below [n]. *)
Hypothesis random_below_lt :
  forall n r, (0 < n)%nat -> (fst (random_below n r) < n)%nat.

Local Abbreviation records_of_node :=
  (MockDataGenerator.generate_mock_data_for_schema rng random_below randint random_amount
     _generate_mock_string _generate_mock_number lower iso8601).
Local Abbreviation records_of_document :=
  (Untyped.generate_mock_data_for_schema rng random_below randint random_amount
     _generate_mock_string _generate_mock_number lower iso8601 choice_of_str).
Local Abbreviation fresh_of_node :=
  (MockDataGenerator.fresh_records rng random_below randint random_amount
     _generate_mock_string _generate_mock_number lower iso8601).
Local Abbreviation fresh_of_document :=
  (Untyped.fresh_records rng random_below randint random_amount
     _generate_mock_string _generate_mock_number lower iso8601 choice_of_str).
Local Abbreviation shared_records :=
  (MockDataGenerator.shared_records rng random_below iso8601).

Lemma stored_values_to_document (s : node) :
  Untyped.stored_values (to_document s)
  = if has_originals s then Some (default [] (s_original_values s)) else None.
Proof.
  destruct (to_document_keys s) as (d & -> & _ & _ & _ & Hpo & Hov).
  unfold Untyped.stored_values, has_originals. rewrite Hpo, Hov.
  destruct (s_preserve_original s) as [[|]|], (s_original_values s) as [[|v l]|];
    reflexivity.
Qed.

Lemma untyped_fresh_agrees (schema_name : string) (s : node) (limit : nat) :
  (height s + 2 <= limit)%nat ->
  forall n i r,
    fresh_of_document limit schema_name (to_document s) n i r
    = fresh_of_node schema_name s n i r.
Proof.
  intros Hl. induction n as [|n IH]; intros i r; [reflexivity|].
  cbn [Untyped.fresh_records MockDataGenerator.fresh_records].
  apply (gbind_ext rng); [now apply untyped_agrees|]. intros mock_record r1.
  apply (gbind_ext rng); [reflexivity|]. intros mock_record' r2.
  apply (gbind_ext rng); [apply IH|reflexivity].
Qed.

Lemma untyped_records_agree (schema_name : string) (s : node) (limit : nat)
    (num_records : Z) (r : rng) :
  (height s + 2 <= limit)%nat ->
  records_of_document limit schema_name (to_document s) num_records r
  = records_of_node schema_name s num_records r.
Proof.
  intros Hl. unfold Untyped.generate_mock_data_for_schema,
    MockDataGenerator.generate_mock_data_for_schema.
  rewrite stored_values_to_document. destruct (has_originals s).
  - destruct limit as [|limit]; [lia|reflexivity].
  - now apply untyped_fresh_agrees.
Qed.

Lemma shared_records_count (n : nat) :
  forall i values drawn r mock_records r',
    shared_records n i values drawn r = (Returns mock_records, r') ->
    length mock_records = (length drawn + n)%nat.
Proof.
  induction n as [|n IH]; intros i values drawn r mock_records r' Hr.
  - cbn in Hr. injection Hr as <- _. rewrite length_map. lia.
  - cbn [MockDataGenerator.shared_records] in Hr.
    unfold MockDataGenerator.gbind at 1 in Hr. unfold MockDataGenerator.glift at 1 in Hr.
    destruct (random_below (length values) r) as [j r1].
    assert (Hnext : forall values' r2,
               shared_records n (i + 1) values' (drawn ++ [j]) r2
               = (Returns mock_records, r') ->
               length mock_records = (length drawn + S n)%nat).
    { intros values' r2 H. apply IH in H. rewrite H, length_app. cbn. lia. }
    destruct (nth_error values j) as [v|]; [|discriminate].
    destruct v; try (exact (Hnext _ _ Hr)).
    unfold MockDataGenerator.gbind, MockDataGenerator.glift in Hr.
    destruct (iso8601 r1) as [generated_at r2]. exact (Hnext _ _ Hr).
Qed.

Lemma untyped_fresh_count (limit : nat) (schema_name : string) (schema_structure : json)
    (n : nat) :
  forall i r mock_records r',
    fresh_of_document limit schema_name schema_structure n i r = (Returns mock_records, r') ->
    length mock_records = n.
Proof.
  induction n as [|n IH]; intros i r mock_records r' Hr.
  - cbn in Hr. now injection Hr as <- _.
  - cbn [Untyped.fresh_records] in Hr. unfold MockDataGenerator.gbind at 1 in Hr.
    destruct (Untyped.generate_mock_value _ _ _ _ _ _ _ _ limit schema_structure
                schema_name r) as [[v|e] r1]; [|discriminate].
    unfold MockDataGenerator.gbind at 1 in Hr.
    destruct (match v with
              | JDict d =>
                  MockDataGenerator.gbind rng (MockDataGenerator.glift rng iso8601)
                    (fun generated_at =>
                       MockDataGenerator.gret rng
                         (JDict (MockDataGenerator.add_metadata i generated_at d)))
              | _ => MockDataGenerator.gret rng v
              end r1) as [[mock_record|e] r2]; [|discriminate].
    unfold MockDataGenerator.gbind at 1 in Hr.
    destruct (fresh_of_document limit schema_name schema_structure n (i + 1) r2)
      as [[rest|e] r3] eqn:Erest; [|discriminate].
    injection Hr as <- _. cbn [length]. f_equal. exact (IH _ _ _ _ Erest).
Qed.

(** X22. [generate_mock_data_for_schema] adds one record per round: whenever
    it returns, whatever the schema holds, the list has exactly
    [num_records] records (none when [num_records] is zero or negative).
    And it returns, with what [MockDataGenerator.generate_mock_data_for_schema]
    describes, on the dict of every node whose keys, where present, hold a
    value of their type, nested within the recursion limit; on other schemas
    it can raise (C3). *)
Theorem X22_records_count (limit : nat) (schema_name : string) (num_records : Z)
    (r : rng) :
  (forall schema_structure mock_records r',
      records_of_document limit schema_name schema_structure num_records r
      = (Returns mock_records, r') ->
      length mock_records = Z.to_nat num_records)
  /\ (forall schema : node,
        (height schema + 2 <= limit)%nat ->
        exists mock_records r',
          records_of_document limit schema_name (to_document schema) num_records r
          = (Returns mock_records, r')
          /\ records_of_node schema_name schema num_records r = (Returns mock_records, r')).
Proof.
  split.
  - intros schema_structure mock_records r'.
    unfold Untyped.generate_mock_data_for_schema.
    destruct (Untyped.stored_values schema_structure) as [values|].
    + destruct limit as [|limit'], (Z.to_nat num_records) as [|n] eqn:En;
        try discriminate; intros H; now apply shared_records_count in H.
    + apply untyped_fresh_count.
  - intros schema Hl. rewrite (untyped_records_agree schema_name schema limit _ _ Hl).
    unfold MockDataGenerator.generate_mock_data_for_schema.
    destruct (has_originals schema) eqn:E.
    + destruct (shared_records_length rng random_below iso8601 random_below_lt
                  (Z.to_nat num_records) 0 (default [] (s_original_values schema)) [] r)
        as (records & r' & Hr & _).
      * unfold has_originals in E. apply andb_true_iff in E as [_ E].
        intros Hnil. rewrite Hnil in E. discriminate.
      * now exists records, r'.
    + destruct (fresh_records_length rng random_below randint random_amount
                  _generate_mock_string _generate_mock_number lower iso8601
                  random_below_lt schema_name schema (Z.to_nat num_records) 0 r)
        as (records & r' & Hr & _).
      now exists records, r'.
Qed.

End RecordsCount.

Lemma X22_records_count_witness :
  (forall schema_structure mock_records r',
      first_choice_untyped_records 3 "travel" schema_structure 3 O
      = (Returns mock_records, r') ->
      length mock_records = 3%nat)
  /\ exists mock_records r',
       first_choice_untyped_records 3 "travel"
         (to_document (object [("policyId", leaf "string")])) 3 O
       = (Returns mock_records, r')
       /\ first_choice_records "travel" (object [("policyId", leaf "string")]) 3 O
          = (Returns mock_records, r').
Proof.
  assert (Hlt : forall n r, (0 < n)%nat -> (fst (FirstChoice.random_below n r) < n)%nat)
    by (intros n r H; exact H).
  assert (Hl : (height (object [("policyId", leaf "string")]) + 2 <= 3)%nat) by (cbn; lia).
  pose proof (X22_records_count FirstChoice.rng FirstChoice.random_below FirstChoice.randint
                FirstChoice.random_amount FirstChoice._generate_mock_string
                FirstChoice._generate_mock_number FirstChoice.lower first_choice_iso8601
                first_choice_character Hlt 3 "travel" 3 O) as [Hcount Hreturns].
  split; [exact Hcount|]. exact (Hreturns (object [("policyId", leaf "string")]) Hl).
Defined.
